(** * The decision-tree command-line program of mlpack

    A shallow embedding of
    [src/mlpack/methods/decision_tree/decision_tree_main.cpp]: the parameter
    checks, the label resolution, the call of the tree trainer, the two
    accuracy reports, the test pass and the model wrapper that is serialized.

    The tree itself ([DecisionTree<>]), the parameter registry ([CLI]) and the
    checking helpers of [mlpack::util] are not part of that file; they appear
    here as an interface ([Classifier]) and as definitions whose comments say
    what they are modelled from.  The operations of Armadillo that the
    program uses are written out; what a [std::move] leaves in the parameter
    it moves out of is a parameter of the development ([MovedFrom]). *)

From Stdlib Require Import ZArith Lia Bool PrimFloat.
From Stdlib Require SpecFloat FloatOps FloatAxioms.
From Stdlib Require Uint63.
From stdpp Require Import base list strings gmap.

Local Open Scope Z_scope.

(** ** [size_t]: 64-bit unsigned arithmetic, wrap-around written out *)

Definition size_t_modulus : Z := 2 ^ 64.

(** A value converted to [size_t] (also the cast [(size_t) x]). *)
Definition to_size_t (z : Z) : Z := z mod size_t_modulus.

Definition size_t_add (a b : Z) : Z := to_size_t (a + b).
Definition size_t_sub (a b : Z) : Z := to_size_t (a - b).

(** [double(n)] for a [size_t] value [n]: round to nearest, ties to even.
    Below [2^63] the primitive conversion applies; above, the value is halved
    with its lowest bit kept sticky, converted and doubled. *)
Definition double_of_size_t (n : Z) : float :=
  if n <? 2 ^ 63 then of_uint63 (Uint63.of_Z n)
  else (of_uint63 (Uint63.of_Z (Z.lor (Z.shiftr n 1) (Z.land n 1))) * 2)%float.

(** The binary64 value nearest to the integer [n], ties to even, in the
    Standard Library's description of the format: what the conversion of an
    integer to [double] has to give. *)
Definition nearest_double (n : Z) : SpecFloat.spec_float :=
  SpecFloat.binary_normalize FloatOps.prec FloatOps.emax n 0 false.

(** ** Armadillo containers *)

(** One entry through [arma::conv_to<arma::Row<size_t>>::from].  Armadillo
    converts entry by entry; for an unsigned target a negative entry becomes
    0 and any other entry is cast, which cuts it off towards zero.  A finite
    entry is [m * 2^e] with a sign.  The cast of an entry that is not finite,
    or that is [2^64] or more, is not defined by the language; what stands
    here for these is used by no property below. *)
Definition conv_to_size_t (x : float) : Z :=
  match FloatOps.Prim2SF x with
  | SpecFloat.S754_finite false m e =>
      to_size_t (if 0 <=? e then Z.pos m * 2 ^ e else Z.pos m / 2 ^ (- e))
  | _ => 0
  end.

(** [arma::Row<size_t>]: its elements in order. *)
Abbreviation URow := (list Z) (only parsing).

(** [arma::mat]: a dense matrix of doubles, kept as its rows together with the
    column count (a matrix may have columns and no row).  Rows are dimensions,
    columns are points. *)
Record mat := Mat { n_cols : nat; rows : list (list float) }.

Definition n_rows (m : mat) : nat := length (rows m).

(** The lines of the log, by what they say. *)
Inductive Message :=
| MsgOnlyOne (params : list string) (set : nat)
| MsgAtLeastOne (params : list string) (custom : string)
| MsgIgnored (param : string) (constraints : list (string * bool))
| MsgParamValue (param : string) (custom : string)
| MsgLastDimension
| MsgAccuracy (dataset : string) (percentage : float) (correct total : Z).

(** What can stop a run. *)
Inductive Error :=
| ConfigurationError (m : Message)          (* Log::Fatal *)
| OutOfBounds (what : string) (index : Z)   (* an index past the end *)
| NoElements (what : string)                (* arma::max of nothing *)
| ClassifierError.                          (* the tree constructor threw *)

(** [Mat::row(row_num)]: the bounds check [row_num >= n_rows], then the row. *)
Definition Mat_row (m : mat) (row_num : Z) : Error + list float :=
  if bool_decide (Z.of_nat (n_rows m) <= row_num)
  then inl (OutOfBounds "Mat::row()" row_num)
  else match rows m !! Z.to_nat row_num with
       | Some r => inr r
       | None => inl (OutOfBounds "Mat::row()" row_num)
       end.

(** [Mat::shed_row(row_num)]: the same check, then the row is taken out. *)
Definition Mat_shed_row (m : mat) (row_num : Z) : Error + mat :=
  if bool_decide (Z.of_nat (n_rows m) <= row_num)
  then inl (OutOfBounds "Mat::shed_row()" row_num)
  else inr (Mat (n_cols m) (delete (Z.to_nat row_num) (rows m))).

(** [arma::max] of a row of [size_t]: an error on an empty row. *)
Definition arma_max (v : URow) : Error + Z :=
  match v with
  | [] => inl (NoElements "max()")
  | x :: xs => inr (foldl Z.max x xs)
  end.

(** ** The dataset description *)

(** Modelled from the spec: [DatasetInfo] is declared outside this file; the
    spec describes it as the per-dimension metadata of a dataset: for each
    dimension whether it is numeric or categorical, and the number of
    categories. *)
Inductive Datatype := numeric | categorical.

Record DatasetInfo := { dimensions : list (Datatype * Z) }.

Definition TupleType : Type := DatasetInfo * mat.

(** ** The collaborators *)

(** [std::move] out of an object leaves it valid, and what it holds
    afterwards is up to its type: Armadillo for a matrix and a row, the
    containers inside the dataset description for that one.  What is left is
    a parameter here, one for each move the program makes: of the dataset
    description and of the matrix of [training], of a row of [size_t]
    ([labels] and [test_labels]), and of the matrix of [weights] into a row
    of doubles.  Where a type copies instead, what is left is the object
    itself; the properties hold whatever is left. *)
Class MovedFrom := {
  moved_info : DatasetInfo -> DatasetInfo;
  moved_mat : mat -> mat;
  moved_row : URow -> URow;
  moved_into_row : mat -> mat
}.

(** Modelled from the spec: [DecisionTree<>] lives in [decision_tree.hpp],
    which is not part of this file.  The spec gives its contract: a training
    constructor taking the features, the dataset description, the labels, the
    class count, optional weights, the leaf-size floor and the gain-split
    floor; a classification that yields one predicted label per point
    together with the class probabilities; and a serialize/deserialize
    round-trip that produces an instance behaving identically.  A failing
    constructor is [None]. *)
Class Classifier := {
  DecisionTree : Type;
  DecisionTree_default : DecisionTree;
  DecisionTree_train :
    mat -> DatasetInfo -> URow -> Z -> option mat -> Z -> float ->
    option DecisionTree;
  Classify : DecisionTree -> mat -> URow * mat;
  Classify_n_elem :
    forall t data, length (Classify t data).1 = n_cols data;
  tree_save : DecisionTree -> list Byte.byte;
  tree_load : list Byte.byte -> option (DecisionTree * list Byte.byte);
  tree_roundtrip :
    forall t rest, exists t',
      tree_load (tree_save t ++ rest) = Some (t', rest) /\
      forall data, Classify t' data = Classify t data;
  info_save : DatasetInfo -> list Byte.byte;
  info_load : list Byte.byte -> option (DatasetInfo * list Byte.byte);
  info_roundtrip :
    forall i rest, info_load (info_save i ++ rest) = Some (i, rest)
}.

(** What a run leaves behind besides the registry: the log lines and the calls
    into the tree library, in program order. *)
Inductive Event :=
| Warn (m : Message)
| Info (m : Message)
| CallTrain (data : mat) (datasetInfo : DatasetInfo) (labels : URow)
    (numClasses : Z) (weights : option mat) (minLeafSize : Z)
    (minimumGainSplit : float)
| CallClassify (data : mat).

Section Program.
Context {F : MovedFrom} {C : Classifier}.

(** ** The model that is serialized *)

Record DecisionTreeModel := { tree : DecisionTree; info : DatasetInfo }.

(** A Boost archive: one that saves appends to its stream, one that loads
    consumes it. *)
Inductive Archive :=
| Saving (out : list Byte.byte)
| Loading (inp : list Byte.byte).

(** [ar & x] for the two member types of the model. *)
Definition amp_tree (ar : Archive) (t : DecisionTree)
  : option (Archive * DecisionTree) :=
  match ar with
  | Saving out => Some (Saving (out ++ tree_save t), t)
  | Loading inp =>
      match tree_load inp with
      | Some (t', rest) => Some (Loading rest, t')
      | None => None
      end
  end.

Definition amp_info (ar : Archive) (i : DatasetInfo)
  : option (Archive * DatasetInfo) :=
  match ar with
  | Saving out => Some (Saving (out ++ info_save i), i)
  | Loading inp =>
      match info_load inp with
      | Some (i', rest) => Some (Loading rest, i')
      | None => None
      end
  end.

(** [DecisionTreeModel::serialize]: the tree, then the dataset description. *)
Definition serialize (ar : Archive) (m : DecisionTreeModel)
  : option (Archive * DecisionTreeModel) :=
  match amp_tree ar (tree m) with
  | Some (ar1, t) =>
      match amp_info ar1 (info m) with
      | Some (ar2, i) => Some (ar2, {| tree := t; info := i |})
      | None => None
      end
  | None => None
  end.

(** ** The parameter registry *)

(** Modelled from the spec: the registry [CLI] is declared in [cli.hpp],
    outside this file; the spec calls it the process-wide parameter store,
    with an entry for every option of the program.  Here it is the set of
    names that were passed ([CLI::HasParam]) and the value behind each name
    ([CLI::GetParam]), typed as the [PARAM_] lines 76-94 and 120-123 declare
    them.  [test_labels] is declared with [PARAM_UMATRIX_IN] and read as
    [arma::Row<size_t>]; the field has the type it is read at.
    [input_model] is the model the pointer refers to; [output_model] is a
    pointer, null until it is set. *)
Record CLI := {
  passed : gset string;
  cli_training : TupleType;
  cli_labels : URow;
  cli_test : TupleType;
  cli_weights : mat;
  cli_test_labels : URow;
  cli_minimum_leaf_size : Z;
  cli_minimum_gain_split : float;
  cli_input_model : DecisionTreeModel;
  cli_probabilities : mat;
  cli_predictions : URow;
  cli_output_model : option DecisionTreeModel
}.

Definition set_training (v : TupleType) (c : CLI) : CLI :=
  {| passed := passed c; cli_training := v;
     cli_labels := cli_labels c; cli_test := cli_test c;
     cli_weights := cli_weights c; cli_test_labels := cli_test_labels c;
     cli_minimum_leaf_size := cli_minimum_leaf_size c;
     cli_minimum_gain_split := cli_minimum_gain_split c;
     cli_input_model := cli_input_model c;
     cli_probabilities := cli_probabilities c;
     cli_predictions := cli_predictions c;
     cli_output_model := cli_output_model c |}.

Definition set_labels (v : URow) (c : CLI) : CLI :=
  {| passed := passed c; cli_training := cli_training c;
     cli_labels := v; cli_test := cli_test c;
     cli_weights := cli_weights c; cli_test_labels := cli_test_labels c;
     cli_minimum_leaf_size := cli_minimum_leaf_size c;
     cli_minimum_gain_split := cli_minimum_gain_split c;
     cli_input_model := cli_input_model c;
     cli_probabilities := cli_probabilities c;
     cli_predictions := cli_predictions c;
     cli_output_model := cli_output_model c |}.

Definition set_weights (v : mat) (c : CLI) : CLI :=
  {| passed := passed c; cli_training := cli_training c;
     cli_labels := cli_labels c; cli_test := cli_test c;
     cli_weights := v; cli_test_labels := cli_test_labels c;
     cli_minimum_leaf_size := cli_minimum_leaf_size c;
     cli_minimum_gain_split := cli_minimum_gain_split c;
     cli_input_model := cli_input_model c;
     cli_probabilities := cli_probabilities c;
     cli_predictions := cli_predictions c;
     cli_output_model := cli_output_model c |}.

Definition set_test_labels (v : URow) (c : CLI) : CLI :=
  {| passed := passed c; cli_training := cli_training c;
     cli_labels := cli_labels c; cli_test := cli_test c;
     cli_weights := cli_weights c; cli_test_labels := v;
     cli_minimum_leaf_size := cli_minimum_leaf_size c;
     cli_minimum_gain_split := cli_minimum_gain_split c;
     cli_input_model := cli_input_model c;
     cli_probabilities := cli_probabilities c;
     cli_predictions := cli_predictions c;
     cli_output_model := cli_output_model c |}.

Definition set_test_info (i : DatasetInfo) (c : CLI) : CLI :=
  {| passed := passed c; cli_training := cli_training c;
     cli_labels := cli_labels c; cli_test := (i, (cli_test c).2);
     cli_weights := cli_weights c; cli_test_labels := cli_test_labels c;
     cli_minimum_leaf_size := cli_minimum_leaf_size c;
     cli_minimum_gain_split := cli_minimum_gain_split c;
     cli_input_model := cli_input_model c;
     cli_probabilities := cli_probabilities c;
     cli_predictions := cli_predictions c;
     cli_output_model := cli_output_model c |}.

Definition set_predictions (v : URow) (c : CLI) : CLI :=
  {| passed := passed c; cli_training := cli_training c;
     cli_labels := cli_labels c; cli_test := cli_test c;
     cli_weights := cli_weights c; cli_test_labels := cli_test_labels c;
     cli_minimum_leaf_size := cli_minimum_leaf_size c;
     cli_minimum_gain_split := cli_minimum_gain_split c;
     cli_input_model := cli_input_model c;
     cli_probabilities := cli_probabilities c;
     cli_predictions := v;
     cli_output_model := cli_output_model c |}.

Definition set_probabilities (v : mat) (c : CLI) : CLI :=
  {| passed := passed c; cli_training := cli_training c;
     cli_labels := cli_labels c; cli_test := cli_test c;
     cli_weights := cli_weights c; cli_test_labels := cli_test_labels c;
     cli_minimum_leaf_size := cli_minimum_leaf_size c;
     cli_minimum_gain_split := cli_minimum_gain_split c;
     cli_input_model := cli_input_model c;
     cli_probabilities := v;
     cli_predictions := cli_predictions c;
     cli_output_model := cli_output_model c |}.

Definition set_output_model (v : DecisionTreeModel) (c : CLI) : CLI :=
  {| passed := passed c; cli_training := cli_training c;
     cli_labels := cli_labels c; cli_test := cli_test c;
     cli_weights := cli_weights c; cli_test_labels := cli_test_labels c;
     cli_minimum_leaf_size := cli_minimum_leaf_size c;
     cli_minimum_gain_split := cli_minimum_gain_split c;
     cli_input_model := cli_input_model c;
     cli_probabilities := cli_probabilities c;
     cli_predictions := cli_predictions c;
     cli_output_model := Some v |}.

(** ** Runs: a registry threaded through, a log written, an error ending it *)

Inductive Outcome (T : Type) :=
| Done (a : T) (c : CLI)
| Abort (e : Error) (c : CLI).
Arguments Done {T} a c.
Arguments Abort {T} e c.

Definition M (T : Type) : Type := CLI -> list Event * Outcome T.

Definition ret {T} (a : T) : M T := fun c => ([], Done a c).

Definition bind {T U} (m : M T) (k : T -> M U) : M U := fun c =>
  match m c with
  | (ev, Done a c1) => let '(ev2, o) := k a c1 in (ev ++ ev2, o)
  | (ev, Abort e c1) => (ev, Abort e c1)
  end.

Notation "x <- m ;; k" := (bind m (fun x => k))
  (at level 100, m at next level, k at level 200, right associativity).
Notation "m ;; k" := (bind m (fun _ => k))
  (at level 100, k at level 200, right associativity).

Definition HasParam (name : string) : M bool :=
  fun c => ([], Done (bool_decide (name ∈ passed c)) c).

Definition GetParam {T} (field : CLI -> T) : M T :=
  fun c => ([], Done (field c) c).

Definition SetParam (update : CLI -> CLI) : M unit :=
  fun c => ([], Done tt (update c)).

(** [x = std::move(CLI::GetParam<T>(name))]: the value of the parameter is
    handed over, and the parameter is left as [leave] says. *)
Definition MoveParam {T} (field : CLI -> T) (leave : CLI -> CLI) : M T :=
  fun c => ([], Done (field c) (leave c)).

Definition emit (e : Event) : M unit := fun c => ([e], Done tt c).

Definition throw {T} (e : Error) : M T := fun c => ([], Abort e c).

Definition lift {T} (r : Error + T) : M T :=
  match r with inl e => throw e | inr a => ret a end.

(** Modelled from the spec: the log streams are declared outside this file.
    "Warnings are reported but never abort execution" and a configuration
    error is fatal to the run: [Log::Fatal] throws at the end of its line,
    [Log::Warn] only prints. *)
Definition report (fatal : bool) (m : Message) : M unit :=
  if fatal then throw (ConfigurationError m) else emit (Warn m).

(** ** The checking helpers of [mlpack::util] *)

(** How many of the named parameters were passed. *)
Definition count_passed (names : list string) (c : CLI) : nat :=
  length (filter (fun name => name ∈ passed c) names).

(** Modelled from the spec: [RequireOnlyOnePassed] is declared in
    [param_checks.hpp], outside this file.  "Exactly one of
    {train-from-data, load-existing-model} must be selected; violating this
    fails with a ConfigurationError": the check passes when exactly one of
    the names was passed and reports otherwise, fatally when [fatal] is
    set. *)
Definition RequireOnlyOnePassed (names : list string) (fatal : bool)
  : M unit :=
  set <- GetParam (count_passed names) ;;
  if bool_decide (set = 1%nat) then ret tt
  else report fatal (MsgOnlyOne names set).

(** Modelled from the spec: [RequireAtLeastOnePassed], also of
    [param_checks.hpp].  "At least one of {save-model, save-predictions,
    save-probabilities} should be requested, else warn that output will be
    discarded." *)
Definition RequireAtLeastOnePassed (names : list string) (fatal : bool)
    (custom : string) : M unit :=
  set <- GetParam (count_passed names) ;;
  if bool_decide (set = 0%nat) then report fatal (MsgAtLeastOne names custom)
  else ret tt.

(** Every constraint, a parameter name and whether it has to be passed,
    holds of the registry. *)
Definition constraints_hold (constraints : list (string * bool)) (c : CLI)
  : bool :=
  forallb (fun k => bool_decide (bool_decide (k.1 ∈ passed c) = k.2))
    constraints.

(** Modelled from the spec: [ReportIgnoredParam], also of
    [param_checks.hpp].  "If no test set is given, a test-labels parameter is
    meaningless and must be flagged/ignored with a warning": when every
    constraint holds and the named parameter was passed, a warning about
    that parameter is printed. *)
Definition ReportIgnoredParam (constraints : list (string * bool))
    (paramName : string) : M unit :=
  condition <- GetParam (constraints_hold constraints) ;;
  given <- HasParam paramName ;;
  if condition && given then emit (Warn (MsgIgnored paramName constraints))
  else ret tt.

(** Modelled from the spec: [RequireParamValue<T>], also of
    [param_checks.hpp].  "[minimum_leaf_size] must be a positive integer;
    violation fails with ConfigurationError": the condition is applied to the
    parameter's value, and a value that fails it is reported, fatally when
    [fatal] is set. *)
Definition RequireParamValue {T} (field : CLI -> T) (name : string)
    (conditional : T -> bool) (fatal : bool) (errorMessage : string)
  : M unit :=
  value <- GetParam field ;;
  if conditional value then ret tt
  else report fatal (MsgParamValue name errorMessage).

(** ** [mlpackMain] *)

(** What the five [std::move]s of the program leave in the registry. *)

(** Line 155: the dataset description of [training]. *)
Definition take_training_info (c : CLI) : CLI :=
  set_training (moved_info (cli_training c).1, (cli_training c).2) c.

(** Line 156: the matrix of [training]. *)
Definition take_training_set (c : CLI) : CLI :=
  set_training ((cli_training c).1, moved_mat (cli_training c).2) c.

(** Line 159: [labels]. *)
Definition take_labels (c : CLI) : CLI :=
  set_labels (moved_row (cli_labels c)) c.

(** Lines 181-182: [weights], a matrix moved into a row. *)
Definition take_weights (c : CLI) : CLI :=
  set_weights (moved_into_row (cli_weights c)) c.

(** Lines 230-231: [test_labels]. *)
Definition take_test_labels (c : CLI) : CLI :=
  set_test_labels (moved_row (cli_test_labels c)) c.

(** Line 131: training and loading a model exclude each other. *)
Definition check_mode : M unit :=
  RequireOnlyOnePassed ["training"; "input_model"] true.

(** Lines 132-138: the warnings.  The last check is there twice. *)
Definition check_ignored : M unit :=
  ReportIgnoredParam [("test", false)] "test_labels" ;;
  RequireAtLeastOnePassed ["output_model"; "probabilities"; "predictions"]
    false "no output will be saved" ;;
  ReportIgnoredParam [("training", false)] "print_training_error" ;;
  ReportIgnoredParam [("test", false)] "predictions" ;;
  ReportIgnoredParam [("test", false)] "predictions".

(** Lines 140-145: the two hyperparameters. *)
Definition check_hyperparameters : M unit :=
  RequireParamValue cli_minimum_leaf_size "minimum_leaf_size"
    (fun x => 0 <? x) true "leaf size must be positive" ;;
  RequireParamValue cli_minimum_gain_split "minimum_gain_split"
    (fun x => (PrimFloat.ltb 0 x && PrimFloat.ltb x 1)%float) true
    "gain split must be a fraction in range [0,1]".

(** Lines 157-169: the labels are moved out of the [labels] parameter when
    it was passed, and otherwise they are the last row of the training
    matrix, which is converted and then shed. *)
Definition resolve_labels (trainingSet : mat) : M (mat * URow) :=
  given <- HasParam "labels" ;;
  if given then
    labels <- MoveParam cli_labels take_labels ;;
    ret (trainingSet, labels)
  else
    emit (Info MsgLastDimension) ;;
    last <- lift (Mat_row trainingSet
                    (size_t_sub (Z.of_nat (n_rows trainingSet)) 1)) ;;
    shed <- lift (Mat_shed_row trainingSet
                    (size_t_sub (Z.of_nat (n_rows trainingSet)) 1)) ;;
    ret (shed, map conv_to_size_t last).

(** The counting loop of lines 200-203 and 233-236:
    [for (i = 0; i < n_cols; ++i) if (predictions[i] == labels[i]) ++correct].
    [todo] is the number of iterations left; an index past the end of either
    vector ends the run. *)
Fixpoint accuracy_loop (predictions labels : URow) (todo i : nat)
    (correct : Z) : Error + Z :=
  match todo with
  | O => inr correct
  | S todo' =>
      match predictions !! i, labels !! i with
      | None, _ => inl (OutOfBounds "predictions" (Z.of_nat i))
      | Some _, None => inl (OutOfBounds "labels" (Z.of_nat i))
      | Some p, Some l =>
          accuracy_loop predictions labels todo' (S i)
            (if bool_decide (p = l) then size_t_add correct 1 else correct)
      end
  end.

(** [double(correct) / double(n_cols) * 100]. *)
Definition percentage (correct : Z) (total : nat) : float :=
  (double_of_size_t correct / double_of_size_t (Z.of_nat total) * 100)%float.

(** Lines 195-208 and 230-241: count and print. *)
Definition report_accuracy (dataset : string) (data : mat)
    (predictions labels : URow) : M unit :=
  correct <- lift (accuracy_loop predictions labels (n_cols data) 0 0) ;;
  emit (Info (MsgAccuracy dataset (percentage correct (n_cols data)) correct
                (Z.of_nat (n_cols data)))).

(** Lines 193-209. *)
Definition report_training_error (t : DecisionTree) (trainingSet : mat)
    (labels : URow) : M unit :=
  emit (CallClassify trainingSet) ;;
  report_accuracy "training set" trainingSet (Classify t trainingSet).1 labels.

(** Lines 154-209: build the model from the training set. *)
Definition train : M DecisionTreeModel :=
  datasetInfo <- MoveParam (fun c => (cli_training c).1) take_training_info ;;
  trainingSet <- MoveParam (fun c => (cli_training c).2) take_training_set ;;
  resolved <- resolve_labels trainingSet ;;
  let trainingSet := resolved.1 in
  let labels := resolved.2 in
  maxLabel <- lift (arma_max labels) ;;
  let numClasses := size_t_add maxLabel 1 in
  minLeafSize <- GetParam (fun c => to_size_t (cli_minimum_leaf_size c)) ;;
  minimumGainSplit <- GetParam cli_minimum_gain_split ;;
  weighted <- HasParam "weights" ;;
  (* the matrix of the parameter, moved into the row of weights *)
  weights <- (if weighted then
                w <- MoveParam cli_weights take_weights ;; ret (Some w)
              else ret None) ;;
  emit (CallTrain trainingSet datasetInfo labels numClasses weights
          minLeafSize minimumGainSplit) ;;
  match DecisionTree_train trainingSet datasetInfo labels numClasses weights
          minLeafSize minimumGainSplit with
  | None => throw ClassifierError
  | Some t =>
      wanted <- HasParam "print_training_error" ;;
      (if wanted then report_training_error t trainingSet labels
       else ret tt) ;;
      ret {| tree := t; info := datasetInfo |}
  end.

(** Lines 217-247: classify the test set with the model. *)
Definition test (model : DecisionTreeModel) : M unit :=
  SetParam (set_test_info (info model)) ;;
  testPoints <- GetParam (fun c => (cli_test c).2) ;;
  emit (CallClassify testPoints) ;;
  let predictions := (Classify (tree model) testPoints).1 in
  let probabilities := (Classify (tree model) testPoints).2 in
  scored <- HasParam "test_labels" ;;
  (if scored then
     testLabels <- MoveParam cli_test_labels take_test_labels ;;
     report_accuracy "test set" testPoints predictions testLabels
   else ret tt) ;;
  SetParam (set_predictions predictions) ;;
  SetParam (set_probabilities probabilities).

Definition mlpackMain : M unit :=
  check_mode ;;
  check_ignored ;;
  check_hyperparameters ;;
  training <- HasParam "training" ;;
  model <- (if training then train else GetParam cli_input_model) ;;
  tested <- HasParam "test" ;;
  (if tested then test model else ret tt) ;;
  SetParam (set_output_model model).

(** ** Reading a run *)

(** The events [ev], then the run [r]. *)
Definition prefix {T} (ev : list Event) (r : list Event * Outcome T)
  : list Event * Outcome T :=
  (ev ++ r.1, r.2).

(** The registry a run ends with, whether it completed or not. *)
Definition final {T} (r : list Event * Outcome T) : CLI :=
  match r.2 with Done _ c => c | Abort _ c => c end.

Definition completes {T} (r : list Event * Outcome T) : bool :=
  match r.2 with Done _ _ => true | Abort _ _ => false end.

(** The weights argument of the training call. *)
Definition weights_argument (c : CLI) : option mat :=
  if bool_decide ("weights" ∈ passed c) then Some (cli_weights c) else None.

(** The training call that [train] makes once the labels are resolved. *)
Definition training_call (c : CLI) (trainingSet : mat) (labels : URow)
    (numClasses : Z) : Event :=
  CallTrain trainingSet (cli_training c).1 labels numClasses
    (weights_argument c) (to_size_t (cli_minimum_leaf_size c))
    (cli_minimum_gain_split c).

(** ** Notions the properties are stated with *)

(** The warning [m] when [b] holds. *)
Definition warning_if (b : bool) (m : Message) : list Event :=
  if b then [Warn m] else [].

(** The warnings of lines 132-138, in order. *)
Definition ignored_warnings (c : CLI) : list Event :=
  warning_if (constraints_hold [("test", false)] c
              && bool_decide ("test_labels" ∈ passed c))
    (MsgIgnored "test_labels" [("test", false)])
  ++ warning_if
       (bool_decide
          (count_passed ["output_model"; "probabilities"; "predictions"] c
           = 0%nat))
       (MsgAtLeastOne ["output_model"; "probabilities"; "predictions"]
          "no output will be saved")
  ++ warning_if (constraints_hold [("training", false)] c
                 && bool_decide ("print_training_error" ∈ passed c))
       (MsgIgnored "print_training_error" [("training", false)])
  ++ warning_if (constraints_hold [("test", false)] c
                 && bool_decide ("predictions" ∈ passed c))
       (MsgIgnored "predictions" [("test", false)])
  ++ warning_if (constraints_hold [("test", false)] c
                 && bool_decide ("predictions" ∈ passed c))
       (MsgIgnored "predictions" [("test", false)]).

(** The two conditions of lines 140-145 on the registry. *)
Definition hyperparameters_ok (c : CLI) : bool :=
  (0 <? cli_minimum_leaf_size c)
  && (PrimFloat.ltb 0 (cli_minimum_gain_split c)
      && PrimFloat.ltb (cli_minimum_gain_split c) 1).

(** Lines 147-250: what follows the checks. *)
Definition work : M unit :=
  bind (HasParam "training") (fun training =>
  bind (if training then train else GetParam cli_input_model) (fun model =>
  bind (HasParam "test") (fun tested =>
  bind (if tested then test model else ret tt) (fun _ =>
  SetParam (set_output_model model))))).

(** An invariant of the run [r] started at [c]: every event satisfies [PE],
    an error that ends the run satisfies [PX], and the registry the run ends
    with is related to [c] by [R]. *)
Definition holds {T} (PE : Event -> Prop) (PX : Error -> Prop)
    (R : CLI -> CLI -> Prop) (r : list Event * Outcome T) (c : CLI) : Prop :=
  Forall PE r.1 /\
  match r.2 with
  | Done _ c1 => R c c1
  | Abort e c1 => PX e /\ R c c1
  end.

(** What the work after the checks writes to the log and how it can end: no
    warning, a class count that is the largest label plus one in [size_t],
    and no configuration error. *)
Definition work_event (e : Event) : Prop :=
  match e with
  | Warn _ => False
  | CallTrain _ _ labels numClasses _ _ _ =>
      exists m, arma_max labels = inr m /\ numClasses = size_t_add m 1
  | _ => True
  end.

(** After the checks no configuration error is left to raise. *)
Definition work_error (e : Error) : Prop :=
  match e with ConfigurationError _ => False | _ => True end.

(** What the work after the checks leaves of the registry: the set of passed
    parameters, and without a test set also the two test outputs. *)
Definition work_frame (c c1 : CLI) : Prop :=
  passed c1 = passed c /\
  ("test" ∉ passed c ->
   cli_probabilities c1 = cli_probabilities c /\
   cli_predictions c1 = cli_predictions c /\
   cli_test c1 = cli_test c).

(** [test] keeps the set of passed parameters. *)
Definition same_passed (c c1 : CLI) : Prop := passed c1 = passed c.

(** Exactly one of [training] and [input_model] was passed. *)
Definition one_mode (c : CLI) : Prop :=
  (("training" ∈ passed c) /\ ("input_model" ∉ passed c)) \/
  (("training" ∉ passed c) /\ ("input_model" ∈ passed c)).

(** Both hyperparameters are acceptable: a positive leaf size, and a gain
    split [x] with [x > 0.0 && x < 1.0] in double arithmetic. *)
Definition valid_hyperparameters (c : CLI) : Prop :=
  0 < cli_minimum_leaf_size c /\
  PrimFloat.ltb 0 (cli_minimum_gain_split c) = true /\
  PrimFloat.ltb (cli_minimum_gain_split c) 1 = true.

(** The claim of C2 read in the integers: every training call of the run
    gets the largest label plus one as its class count. *)
Definition class_count_is_max_plus_one (c : CLI) : Prop :=
  forall data datasetInfo labels numClasses weights minLeafSize
         minimumGainSplit,
    CallTrain data datasetInfo labels numClasses weights minLeafSize
      minimumGainSplit ∈ (mlpackMain c).1 ->
    exists m, arma_max labels = inr m /\ numClasses = m + 1.

(** The claim of C1 read in the doubles: the label [n] is the entry [x]
    rounded to an integer, whichever way: it is less than one away from
    it. *)
Definition integer_rounded (x : float) (n : Z) : bool :=
  (PrimFloat.ltb (x - 1) (double_of_size_t n)
   && PrimFloat.ltb (double_of_size_t n) (x + 1))%float.

(** Without a [labels] parameter, the labels of every training call of the
    run are the entries of the last row of the training matrix, each rounded
    to an integer. *)
Definition labels_are_rounded_last_row (c : CLI) : Prop :=
  forall data datasetInfo labels numClasses weights minLeafSize
         minimumGainSplit row,
    CallTrain data datasetInfo labels numClasses weights minLeafSize
      minimumGainSplit ∈ (mlpackMain c).1 ->
    "labels" ∉ passed c ->
    last (rows (cli_training c).2) = Some row ->
    Forall2 (fun x n => integer_rounded x n = true) row labels.

(** The number of positions at which two vectors agree. *)
Definition count_matches (predictions labels : URow) : nat :=
  length (filter (fun pl => pl.1 = pl.2) (zip predictions labels)).

(** The report of one accuracy pass when the labels reach far enough. *)
Definition accuracy_report (dataset : string) (data : mat)
    (predictions labels : URow) : Event :=
  let correct :=
    to_size_t
      (Z.of_nat (count_matches (take (n_cols data) predictions)
                   (take (n_cols data) labels))) in
  Info (MsgAccuracy dataset (percentage correct (n_cols data)) correct
          (Z.of_nat (n_cols data))).

(** The registry once a parameter has been moved out of, if it was passed:
    the training set (lines 155-156), the labels (line 159), the weights
    (lines 181-182) and the test labels (lines 230-231). *)
Definition training_taken (c : CLI) : CLI :=
  set_training (moved_info (cli_training c).1, moved_mat (cli_training c).2)
    c.

Definition labels_taken (c : CLI) : CLI :=
  set_labels (if bool_decide ("labels" ∈ passed c)
              then moved_row (cli_labels c) else cli_labels c) c.

Definition weights_taken (c : CLI) : CLI :=
  set_weights (if bool_decide ("weights" ∈ passed c)
               then moved_into_row (cli_weights c) else cli_weights c) c.

Definition test_labels_taken (c : CLI) : CLI :=
  set_test_labels (if bool_decide ("test_labels" ∈ passed c)
                   then moved_row (cli_test_labels c)
                   else cli_test_labels c) c.

(** The registry when the labels are resolved (lines 155-169), and when the
    tree constructor has been called (lines 155-190). *)
Definition resolved (c : CLI) : CLI := labels_taken (training_taken c).

Definition trained (c : CLI) : CLI := weights_taken (resolved c).

(** The registry once [test] has written to it. *)
Definition tested (model : DecisionTreeModel) (c : CLI) : CLI :=
  set_probabilities (Classify (tree model) (cli_test c).2).2
    (set_predictions (Classify (tree model) (cli_test c).2).1
       (test_labels_taken (set_test_info (info model) c))).

(** The model a run works with: the one it trained, or the one passed in. *)
Definition model_of (c : CLI) : M DecisionTreeModel :=
  if bool_decide ("training" ∈ passed c) then train
  else GetParam cli_input_model.

(** The registry with another set of passed parameters. *)
Definition set_passed (p : gset string) (c : CLI) : CLI :=
  {| passed := p; cli_training := cli_training c;
     cli_labels := cli_labels c; cli_test := cli_test c;
     cli_weights := cli_weights c; cli_test_labels := cli_test_labels c;
     cli_minimum_leaf_size := cli_minimum_leaf_size c;
     cli_minimum_gain_split := cli_minimum_gain_split c;
     cli_input_model := cli_input_model c;
     cli_probabilities := cli_probabilities c;
     cli_predictions := cli_predictions c;
     cli_output_model := cli_output_model c |}.

(** The registry of the same invocation without the parameter [name]. *)
Definition unpass (name : string) (c : CLI) : CLI :=
  set_passed (passed c ∖ {[name]}) c.

(** An outcome, and a run, with [f] applied to the registry it ends with. *)
Definition map_outcome {T} (f : CLI -> CLI) (o : Outcome T) : Outcome T :=
  match o with
  | Done a c => Done a (f c)
  | Abort e c => Abort e (f c)
  end.

Definition map_run {T} (f : CLI -> CLI) (r : list Event * Outcome T)
  : list Event * Outcome T :=
  (r.1, map_outcome f r.2).

(** [m] runs the same with and without the parameter [name]. *)
Definition ignores {T} (name : string) (m : M T) : Prop :=
  forall c, m (unpass name c) = map_run (unpass name) (m c).

(** Lines 154-190 of [train]: up to the tree. *)
Definition train_tree : M (DecisionTree * (mat * URow) * DatasetInfo) :=
  bind (MoveParam (fun c => (cli_training c).1) take_training_info)
    (fun datasetInfo =>
  bind (MoveParam (fun c => (cli_training c).2) take_training_set)
    (fun trainingSet =>
  bind (resolve_labels trainingSet) (fun resolved =>
  bind (lift (arma_max resolved.2)) (fun maxLabel =>
  bind (GetParam (fun c => to_size_t (cli_minimum_leaf_size c)))
    (fun minLeafSize =>
  bind (GetParam cli_minimum_gain_split) (fun minimumGainSplit =>
  bind (HasParam "weights") (fun weighted =>
  bind (if weighted then
          bind (MoveParam cli_weights take_weights) (fun w => ret (Some w))
        else ret None) (fun weights =>
  bind (emit (CallTrain resolved.1 datasetInfo resolved.2
                (size_t_add maxLabel 1) weights minLeafSize
                minimumGainSplit)) (fun _ =>
  match DecisionTree_train resolved.1 datasetInfo resolved.2
          (size_t_add maxLabel 1) weights minLeafSize minimumGainSplit with
  | None => throw ClassifierError
  | Some t => ret (t, resolved, datasetInfo)
  end))))))))).

(** Lines 192-209 of [train]: the report, when it is wanted. *)
Definition train_report (x : DecisionTree * (mat * URow) * DatasetInfo)
  : M DecisionTreeModel :=
  bind (HasParam "print_training_error") (fun wanted =>
  bind (if wanted then report_training_error x.1.1 x.1.2.1 x.1.2.2
        else ret tt) (fun _ =>
  ret {| tree := x.1.1; info := x.2 |})).

(** The labels reach as far as the training set has columns: the [labels]
    parameter when it was passed, and otherwise the rows of the training
    matrix. *)
Definition labels_reach (c : CLI) : Prop :=
  (("labels" ∈ passed c) ->
   (n_cols (cli_training c).2 <= length (cli_labels c))%nat) /\
  (("labels" ∉ passed c) ->
   Forall (fun r => length r = n_cols (cli_training c).2)
     (rows (cli_training c).2)).

(** What follows the model in a run: the test pass and the output model. *)
Definition finish (tested : bool) (model : DecisionTreeModel) : M unit :=
  bind (if tested then test model else ret tt) (fun _ =>
  SetParam (set_output_model model)).

(** The event is the warning that the parameter [param] is ignored. *)
Definition is_ignored_warning (param : string) (e : Event) : bool :=
  match e with
  | Warn (MsgIgnored p _) => String.eqb p param
  | _ => false
  end.

(** How often a run warned that [param] is ignored. *)
Definition ignored_count (param : string) (events : list Event) : nat :=
  length (List.filter (is_ignored_warning param) events).

(** ** Notions for the calls and the outputs of a run *)

(** The notice of line 164, logged when the labels come from the matrix. *)
Definition notice (c : CLI) : list Event :=
  if bool_decide ("labels" ∈ passed c) then []
  else [Info MsgLastDimension].

Definition is_train_call (e : Event) : bool :=
  match e with CallTrain _ _ _ _ _ _ _ => true | _ => false end.

Definition is_classify_call (e : Event) : bool :=
  match e with CallClassify _ => true | _ => false end.

(** How often a run called the tree constructor, and [Classify]. *)
Definition train_calls (events : list Event) : nat :=
  length (List.filter is_train_call events).

Definition classify_calls (events : list Event) : nat :=
  length (List.filter is_classify_call events).

(** The three output parameters of the program. *)
Definition outputs (c : CLI) : mat * list Z * option DecisionTreeModel :=
  (cli_probabilities c, cli_predictions c, cli_output_model c).


(** The events of an accuracy pass: a classification and a report. *)
Definition pass_event (e : Event) : Prop :=
  match e with
  | CallClassify _ => True
  | Info (MsgAccuracy _ _ _ _) => True
  | _ => False
  end.


(** The inputs that the program reads without moving out of them: what was
    passed, the test points, the two hyperparameters and the input model. *)
Definition inputs (c : CLI) : gset string * mat * Z * float * DecisionTreeModel :=
  (passed c, (cli_test c).2, cli_minimum_leaf_size c,
   cli_minimum_gain_split c, cli_input_model c).

End Program.

Arguments Done {C T} a c.
Arguments Abort {C T} e c.

(** ** A small concrete library, to run the program on *)

Module Stub.

(** Every object moved from is left empty. *)
Definition moved_from : MovedFrom := {|
  moved_info := fun _ => {| dimensions := [] |};
  moved_mat := fun _ => Mat 0 [];
  moved_row := fun _ => [];
  moved_into_row := fun _ => Mat 0 []
|}.

(** A one-node tree: it answers with the same class for every point.
    Training picks the largest label. *)
Record Leaf := { classes : Z; answer : Z }.

Definition leaf_train (data : mat) (datasetInfo : DatasetInfo) (labels : URow)
    (numClasses : Z) (weights : option mat) (minLeafSize : Z)
    (minimumGainSplit : float) : option Leaf :=
  if bool_decide (length labels = n_cols data)
  then Some {| classes := numClasses; answer := foldl Z.max 0 labels |}
  else None.

Definition leaf_classify (t : Leaf) (data : mat) : URow * mat :=
  (replicate (n_cols data) (answer t),
   Mat (n_cols data)
     (map (fun k => replicate (n_cols data)
                      (if bool_decide (Z.of_nat k = answer t) then 1%float
                       else 0%float))
        (seq 0 (Z.to_nat (classes t))))).

(** Numbers are written in unary: a sign byte, one [x01] per unit, [x00]. *)
Definition save_Z (z : Z) : list Byte.byte :=
  (if z <? 0 then Byte.x01 else Byte.x00)
    :: replicate (Z.abs_nat z) Byte.x01 ++ [Byte.x00].

Fixpoint load_units (s : list Byte.byte) : option (nat * list Byte.byte) :=
  match s with
  | Byte.x00 :: rest => Some (O, rest)
  | Byte.x01 :: rest =>
      match load_units rest with
      | Some (n, rest') => Some (S n, rest')
      | None => None
      end
  | _ => None
  end.

Definition load_Z (s : list Byte.byte) : option (Z * list Byte.byte) :=
  match s with
  | Byte.x00 :: rest =>
      match load_units rest with
      | Some (n, rest') => Some (Z.of_nat n, rest')
      | None => None
      end
  | Byte.x01 :: rest =>
      match load_units rest with
      | Some (n, rest') => Some (- Z.of_nat n, rest')
      | None => None
      end
  | _ => None
  end.

Definition leaf_save (t : Leaf) : list Byte.byte :=
  save_Z (classes t) ++ save_Z (answer t).

Definition leaf_load (s : list Byte.byte) : option (Leaf * list Byte.byte) :=
  match load_Z s with
  | Some (k, rest) =>
      match load_Z rest with
      | Some (a, rest') => Some ({| classes := k; answer := a |}, rest')
      | None => None
      end
  | None => None
  end.

Fixpoint save_dimensions (ds : list (Datatype * Z)) : list Byte.byte :=
  match ds with
  | [] => [Byte.x00]
  | (numeric, k) :: ds' => Byte.x01 :: save_Z k ++ save_dimensions ds'
  | (categorical, k) :: ds' => Byte.x02 :: save_Z k ++ save_dimensions ds'
  end.

Fixpoint load_dimensions (fuel : nat) (s : list Byte.byte)
  : option (list (Datatype * Z) * list Byte.byte) :=
  match fuel with
  | O => None
  | S fuel' =>
      match s with
      | Byte.x00 :: rest => Some ([], rest)
      | Byte.x01 :: rest =>
          match load_Z rest with
          | Some (k, rest') =>
              match load_dimensions fuel' rest' with
              | Some (ds, rest'') => Some ((numeric, k) :: ds, rest'')
              | None => None
              end
          | None => None
          end
      | Byte.x02 :: rest =>
          match load_Z rest with
          | Some (k, rest') =>
              match load_dimensions fuel' rest' with
              | Some (ds, rest'') => Some ((categorical, k) :: ds, rest'')
              | None => None
              end
          | None => None
          end
      | _ => None
      end
  end.

Definition info_to_bytes (i : DatasetInfo) : list Byte.byte :=
  save_dimensions (dimensions i).

Definition info_of_bytes (s : list Byte.byte)
  : option (DatasetInfo * list Byte.byte) :=
  match load_dimensions (S (length s)) s with
  | Some (ds, rest) => Some ({| dimensions := ds |}, rest)
  | None => None
  end.

Lemma load_units_replicate (n : nat) (rest : list Byte.byte) :
  load_units (replicate n Byte.x01 ++ Byte.x00 :: rest) = Some (n, rest).
Proof.
  induction n as [|n IH]; simpl; [reflexivity|]. now rewrite IH.
Qed.

Lemma load_save_Z (z : Z) (rest : list Byte.byte) :
  load_Z (save_Z z ++ rest) = Some (z, rest).
Proof.
  unfold save_Z, load_Z. rewrite <- app_comm_cons, <- app_assoc. simpl.
  destruct (Z.ltb_spec z 0); rewrite load_units_replicate;
    do 2 f_equal; lia.
Qed.

Lemma load_save_dimensions (ds : list (Datatype * Z)) :
  forall (fuel : nat) (rest : list Byte.byte),
    (length ds < fuel)%nat ->
    load_dimensions fuel (save_dimensions ds ++ rest) = Some (ds, rest).
Proof.
  induction ds as [|[[] k] ds IH]; intros fuel rest Hfuel;
    (destruct fuel as [|fuel]; [simpl in Hfuel; lia|]);
    cbn [save_dimensions load_dimensions app].
  - reflexivity.
  - rewrite <- app_assoc, load_save_Z, IH by (simpl in Hfuel; lia).
    reflexivity.
  - rewrite <- app_assoc, load_save_Z, IH by (simpl in Hfuel; lia).
    reflexivity.
Qed.

Lemma save_dimensions_length (ds : list (Datatype * Z)) :
  (length ds < length (save_dimensions ds))%nat.
Proof.
  induction ds as [|[[] k] ds IH]; simpl; rewrite ?length_app; lia.
Qed.

Lemma leaf_classify_n_elem (t : Leaf) (data : mat) :
  length (leaf_classify t data).1 = n_cols data.
Proof. apply length_replicate. Qed.

Lemma leaf_roundtrip (t : Leaf) (rest : list Byte.byte) :
  exists t', leaf_load (leaf_save t ++ rest) = Some (t', rest) /\
             forall data, leaf_classify t' data = leaf_classify t data.
Proof.
  exists t. split; [|reflexivity].
  unfold leaf_load, leaf_save. rewrite <- app_assoc, !load_save_Z.
  now destruct t.
Qed.

Lemma info_bytes_roundtrip (i : DatasetInfo) (rest : list Byte.byte) :
  info_of_bytes (info_to_bytes i ++ rest) = Some (i, rest).
Proof.
  unfold info_of_bytes, info_to_bytes. rewrite load_save_dimensions.
  - now destruct i.
  - pose proof (save_dimensions_length (dimensions i)).
    rewrite length_app. lia.
Qed.

Definition classifier : Classifier := {|
  DecisionTree := Leaf;
  DecisionTree_default := {| classes := 0; answer := 0 |};
  DecisionTree_train := leaf_train;
  Classify := leaf_classify;
  Classify_n_elem := leaf_classify_n_elem;
  tree_save := leaf_save;
  tree_load := leaf_load;
  tree_roundtrip := leaf_roundtrip;
  info_save := info_to_bytes;
  info_load := info_of_bytes;
  info_roundtrip := info_bytes_roundtrip
|}.

End Stub.

(** ** Invocations to run the program on *)

Module Runs.

#[local] Existing Instance Stub.moved_from.
#[local] Existing Instance Stub.classifier.

Definition no_info : DatasetInfo := {| dimensions := [] |}.
Definition no_matrix : mat := Mat 0 [].

Definition two_numeric : DatasetInfo :=
  {| dimensions := [(numeric, 0); (numeric, 0)] |}.

(** A model that answers class 1 out of two, for a single numeric input. *)
Definition loaded : DecisionTreeModel :=
  {| tree := ({| Stub.classes := 2; Stub.answer := 1 |} : DecisionTree);
     info := {| dimensions := [(numeric, 0)] |} |}.

(** The registry of an invocation: what was passed, and the input values. *)
Definition invocation (names : gset string) (training : TupleType)
    (labels : URow) (tested : TupleType) (test_labels : URow)
    (leaf : Z) (gain : float) : CLI :=
  {| passed := names; cli_training := training; cli_labels := labels;
     cli_test := tested; cli_weights := no_matrix;
     cli_test_labels := test_labels; cli_minimum_leaf_size := leaf;
     cli_minimum_gain_split := gain; cli_input_model := loaded;
     cli_probabilities := no_matrix; cli_predictions := [];
     cli_output_model := None |}.

(** The example of the specification: four points, the labels in the last
    row, a leaf size of 1, the training error printed. *)
Definition last_row : CLI :=
  invocation {[ "training"; "print_training_error"; "output_model";
                "minimum_leaf_size" ]}
    (two_numeric, Mat 4 [[1; 2; 3; 4]; [0; 0; 1; 1]]%float) []
    (no_info, no_matrix) [] 1 0x1.ad7f29abcaf48p-24%float.

(** Labels passed on their own, with a gap between 0 and 5. *)
Definition gap : CLI :=
  invocation {[ "training"; "labels"; "print_training_error";
                "output_model" ]}
    ({| dimensions := [(numeric, 0)] |}, Mat 4 [[1; 2; 3; 4]]%float)
    [0; 0; 5; 5] (no_info, no_matrix) [] 20 0x1.ad7f29abcaf48p-24%float.

(** One point whose label is the largest [size_t]. *)
Definition largest_label : CLI :=
  invocation {[ "training"; "labels"; "output_model" ]}
    ({| dimensions := [(numeric, 0)] |}, Mat 1 [[1]]%float)
    [2 ^ 64 - 1] (no_info, no_matrix) [] 20 0x1.ad7f29abcaf48p-24%float.

(** Three points whose labels, in the last row, are 0.75, -1.5 and 1. *)
Definition fractional : CLI :=
  invocation {[ "training"; "output_model" ]}
    (two_numeric, Mat 3 [[1; 2; 3]; [0.75; -1.5; 1]]%float) []
    (no_info, no_matrix) [] 20 0x1.ad7f29abcaf48p-24%float.

(** A training matrix with three columns and no row, and no labels. *)
Definition no_row : CLI :=
  invocation {[ "training"; "output_model" ]}
    (no_info, Mat 3 []) [] (no_info, no_matrix) [] 20
    0x1.ad7f29abcaf48p-24%float.

(** Both a training set and a model to load. *)
Definition both_modes : CLI :=
  invocation {[ "training"; "input_model"; "output_model" ]}
    ({| dimensions := [(numeric, 0)] |}, Mat 4 [[1; 2; 3; 4]]%float)
    [0; 0; 1; 1] (no_info, no_matrix) [] 20 0x1.ad7f29abcaf48p-24%float.

(** A loaded model, a test set of three points and their labels. *)
Definition scored : CLI :=
  invocation {[ "input_model"; "test"; "test_labels"; "predictions";
                "probabilities" ]}
    (no_info, no_matrix) []
    ({| dimensions := [(categorical, 3)] |}, Mat 3 [[5; 6; 7]]%float)
    [1; 0; 1] 20 0x1.ad7f29abcaf48p-24%float.

(** A loaded model, both test outputs requested, and no test set. *)
Definition no_test : CLI :=
  invocation {[ "input_model"; "predictions"; "probabilities" ]}
    (no_info, no_matrix) [] (no_info, no_matrix) [] 20
    0x1.ad7f29abcaf48p-24%float.

End Runs.

(** ** Properties *)

Section Properties.
Context {F : MovedFrom} {C : Classifier}.

(** *** Arithmetic on [size_t] *)

Lemma to_size_t_small (z : Z) :
  0 <= z < size_t_modulus -> to_size_t z = z.
Proof. intros Hz. unfold to_size_t. now apply Z.mod_small. Qed.

Lemma size_t_sub_pred (n : Z) :
  0 < n < size_t_modulus -> size_t_sub n 1 = n - 1.
Proof. intros Hn. unfold size_t_sub. apply to_size_t_small. lia. Qed.

Lemma size_t_sub_underflow : size_t_sub 0 1 = 2 ^ 64 - 1.
Proof. reflexivity. Qed.

Lemma size_t_add_succ (n : Z) :
  0 <= n < size_t_modulus - 1 -> size_t_add n 1 = n + 1.
Proof. intros Hn. unfold size_t_add. apply to_size_t_small. lia. Qed.

(** *** Rows of a matrix *)

Lemma Mat_row_last (nc : nat) (features : list (list float))
    (last : list float) :
  Z.of_nat (length (features ++ [last])) < size_t_modulus ->
  Mat_row (Mat nc (features ++ [last]))
    (size_t_sub (Z.of_nat (length (features ++ [last]))) 1) = inr last.
Proof.
  intros Hfit. rewrite size_t_sub_pred
    by (rewrite length_app in *; simpl in *; lia).
  unfold Mat_row, n_rows. simpl rows.
  rewrite bool_decide_false by lia.
  replace (Z.to_nat (Z.of_nat (length (features ++ [last])) - 1))
    with (length features) by (rewrite length_app; simpl; lia).
  now rewrite list_lookup_middle.
Qed.

Lemma Mat_shed_row_last (nc : nat) (features : list (list float))
    (last : list float) :
  Z.of_nat (length (features ++ [last])) < size_t_modulus ->
  Mat_shed_row (Mat nc (features ++ [last]))
    (size_t_sub (Z.of_nat (length (features ++ [last]))) 1)
  = inr (Mat nc features).
Proof.
  intros Hfit. rewrite size_t_sub_pred
    by (rewrite length_app in *; simpl in *; lia).
  unfold Mat_shed_row, n_rows. simpl rows. simpl n_cols.
  rewrite bool_decide_false by lia.
  replace (Z.to_nat (Z.of_nat (length (features ++ [last])) - 1))
    with (length features) by (rewrite length_app; simpl; lia).
  now rewrite delete_middle, app_nil_r.
Qed.

(** *** Running the program *)

Ltac unfold_run :=
  unfold mlpackMain, check_mode, check_ignored, check_hyperparameters, train,
    test, report_training_error, report_accuracy, resolve_labels,
    RequireOnlyOnePassed, RequireAtLeastOnePassed, ReportIgnoredParam,
    RequireParamValue, report, lift, bind, ret, GetParam, HasParam, SetParam,
    MoveParam, emit, throw in *.

(** *** Label resolution *)

Lemma resolve_labels_given (trainingSet : mat) (c : CLI) :
  "labels" ∈ passed c ->
  resolve_labels trainingSet c
  = ([], Done (trainingSet, cli_labels c) (take_labels c)).
Proof.
  intros Hgiven. unfold_run. now rewrite bool_decide_true.
Qed.

Lemma resolve_labels_last_row (nc : nat) (features : list (list float))
    (last : list float) (c : CLI) :
  "labels" ∉ passed c ->
  Z.of_nat (length (features ++ [last])) < size_t_modulus ->
  resolve_labels (Mat nc (features ++ [last])) c
  = ([Info MsgLastDimension],
     Done (Mat nc features, map conv_to_size_t last) c).
Proof.
  intros Habsent Hfit. unfold_run. rewrite bool_decide_false by assumption.
  unfold n_rows. simpl rows.
  now rewrite Mat_row_last, Mat_shed_row_last.
Qed.

Lemma resolve_labels_no_row (nc : nat) (c : CLI) :
  "labels" ∉ passed c ->
  resolve_labels (Mat nc []) c
  = ([Info MsgLastDimension],
     Abort (OutOfBounds "Mat::row()" (2 ^ 64 - 1)) c).
Proof.
  intros Habsent. unfold_run. now rewrite bool_decide_false.
Qed.

(** *** Equations of the run monad *)

Lemma prefix_nil {T} (r : list Event * Outcome T) : prefix [] r = r.
Proof. now destruct r. Qed.

Lemma prefix_prefix {T} (ev1 ev2 : list Event) (r : list Event * Outcome T) :
  prefix ev1 (prefix ev2 r) = prefix (ev1 ++ ev2) r.
Proof. unfold prefix. simpl. now rewrite app_assoc. Qed.

Lemma bind_Done {T U} (m : M T) (k : T -> M U) (c c1 : CLI)
    (ev : list Event) (a : T) :
  m c = (ev, Done a c1) -> bind m k c = prefix ev (k a c1).
Proof. intros Hm. unfold bind, prefix. rewrite Hm. now destruct (k a c1). Qed.

Lemma bind_Abort {T U} (m : M T) (k : T -> M U) (c c1 : CLI)
    (ev : list Event) (e : Error) :
  m c = (ev, Abort e c1) -> bind m k c = (ev, Abort e c1).
Proof. intros Hm. unfold bind. now rewrite Hm. Qed.

Lemma bind_ret {T U} (a : T) (k : T -> M U) (c : CLI) :
  bind (ret a) k c = k a c.
Proof. erewrite bind_Done by reflexivity. apply prefix_nil. Qed.

Lemma bind_GetParam {T U} (field : CLI -> T) (k : T -> M U) (c : CLI) :
  bind (GetParam field) k c = k (field c) c.
Proof. erewrite bind_Done by reflexivity. apply prefix_nil. Qed.

Lemma bind_HasParam {U} (name : string) (k : bool -> M U) (c : CLI) :
  bind (HasParam name) k c = k (bool_decide (name ∈ passed c)) c.
Proof. erewrite bind_Done by reflexivity. apply prefix_nil. Qed.

Lemma bind_MoveParam {T U} (field : CLI -> T) (leave : CLI -> CLI)
    (k : T -> M U) (c : CLI) :
  bind (MoveParam field leave) k c = k (field c) (leave c).
Proof. erewrite bind_Done by reflexivity. apply prefix_nil. Qed.

Lemma bind_SetParam {U} (update : CLI -> CLI) (k : unit -> M U) (c : CLI) :
  bind (SetParam update) k c = k tt (update c).
Proof. erewrite bind_Done by reflexivity. apply prefix_nil. Qed.

Lemma bind_emit {U} (e : Event) (k : unit -> M U) (c : CLI) :
  bind (emit e) k c = prefix [e] (k tt c).
Proof. now erewrite bind_Done by reflexivity. Qed.

Lemma bind_throw {T U} (e : Error) (k : T -> M U) (c : CLI) :
  bind (throw e) k c = ([], Abort e c).
Proof. reflexivity. Qed.

Lemma bind_lift_inr {T U} (a : T) (k : T -> M U) (c : CLI) :
  bind (lift (inr a)) k c = k a c.
Proof. apply bind_ret. Qed.

Lemma bind_lift_inl {T U} (e : Error) (k : T -> M U) (c : CLI) :
  bind (lift (inl e)) k c = ([], Abort e c).
Proof. reflexivity. Qed.

Lemma bind_assoc {T U V} (m : M T) (f : T -> M U) (g : U -> M V) (c : CLI) :
  bind (bind m f) g c = bind m (fun a => bind (f a) g) c.
Proof.
  unfold bind. destruct (m c) as [ev [a c1|e c1]]; [|reflexivity].
  destruct (f a c1) as [ev1 [b c2|e c2]]; [|reflexivity].
  destruct (g b c2) as [ev2 o]. now rewrite app_assoc.
Qed.

Lemma bind_report_fatal {U} (m : Message) (k : unit -> M U) (c : CLI) :
  bind (report true m) k c = ([], Abort (ConfigurationError m) c).
Proof. reflexivity. Qed.

Lemma bind_report_warn {U} (m : Message) (k : unit -> M U) (c : CLI) :
  bind (report false m) k c = prefix [Warn m] (k tt c).
Proof. apply bind_emit. Qed.

Lemma prefix_fst {T} (ev : list Event) (r : list Event * Outcome T) :
  (prefix ev r).1 = ev ++ r.1.
Proof. reflexivity. Qed.

Lemma prefix_snd {T} (ev : list Event) (r : list Event * Outcome T) :
  (prefix ev r).2 = r.2.
Proof. reflexivity. Qed.

Lemma prefix_pair {T} (ev ev' : list Event) (o : Outcome T) :
  prefix ev (ev', o) = (ev ++ ev', o).
Proof. reflexivity. Qed.

Create Rewrite HintDb run.
#[local] Hint Rewrite @bind_assoc @bind_ret @bind_GetParam @bind_HasParam
  @bind_MoveParam @bind_SetParam @bind_emit @bind_throw @bind_lift_inr @bind_lift_inl
  @bind_report_fatal @bind_report_warn @prefix_nil @prefix_prefix
  @prefix_pair : run.

(** *** The registry after the moves *)

(** Unfold the registries that the moves leave down to the fields of the
    registry they start from. *)
Ltac registry :=
  cbn [passed cli_training cli_labels cli_test cli_weights cli_test_labels
       cli_minimum_leaf_size cli_minimum_gain_split cli_input_model
       cli_probabilities cli_predictions cli_output_model fst snd
       trained resolved weights_taken labels_taken training_taken
       test_labels_taken tested take_training_info take_training_set
       take_labels take_weights take_test_labels set_training set_labels
       set_weights set_test_labels set_test_info set_predictions
       set_probabilities set_output_model unpass set_passed] in *.

Ltac registry_goal :=
  unfold inputs;
  cbn [passed cli_training cli_labels cli_test cli_weights cli_test_labels
       cli_minimum_leaf_size cli_minimum_gain_split cli_input_model
       cli_probabilities cli_predictions cli_output_model fst snd
       trained resolved weights_taken labels_taken training_taken
       test_labels_taken tested take_training_info take_training_set
       take_labels take_weights take_test_labels set_training set_labels
       set_weights set_test_labels set_test_info set_predictions
       set_probabilities set_output_model].

Lemma labels_taken_given (c : CLI) :
  "labels" ∈ passed c -> labels_taken c = take_labels c.
Proof.
  intros Hyes. unfold labels_taken. now rewrite (bool_decide_true _ Hyes).
Qed.

Lemma labels_taken_absent (c : CLI) :
  "labels" ∉ passed c -> labels_taken c = c.
Proof.
  intros Hno. unfold labels_taken. rewrite (bool_decide_false _ Hno).
  now destruct c.
Qed.

Lemma weights_taken_given (c : CLI) :
  "weights" ∈ passed c -> weights_taken c = take_weights c.
Proof.
  intros Hyes. unfold weights_taken. now rewrite (bool_decide_true _ Hyes).
Qed.

Lemma weights_taken_absent (c : CLI) :
  "weights" ∉ passed c -> weights_taken c = c.
Proof.
  intros Hno. unfold weights_taken. rewrite (bool_decide_false _ Hno).
  now destruct c.
Qed.

Lemma test_labels_taken_given (c : CLI) :
  "test_labels" ∈ passed c -> test_labels_taken c = take_test_labels c.
Proof.
  intros Hyes. unfold test_labels_taken.
  now rewrite (bool_decide_true _ Hyes).
Qed.

Lemma test_labels_taken_absent (c : CLI) :
  "test_labels" ∉ passed c -> test_labels_taken c = c.
Proof.
  intros Hno. unfold test_labels_taken. rewrite (bool_decide_false _ Hno).
  now destruct c.
Qed.

Lemma training_taken_moves (c : CLI) :
  take_training_set (take_training_info c) = training_taken c.
Proof. reflexivity. Qed.

(** Label resolution looks at [labels] only: it runs the same once the
    training set has been moved out of its parameter. *)
Lemma resolve_labels_after_training (trainingSet : mat) (c : CLI) :
  resolve_labels trainingSet (training_taken c)
  = map_run training_taken (resolve_labels trainingSet c).
Proof.
  unfold resolve_labels. rewrite !bind_HasParam.
  change (passed (training_taken c)) with (passed c).
  destruct (bool_decide ("labels" ∈ passed c)); autorewrite with run.
  - reflexivity.
  - destruct (Mat_row _ _); autorewrite with run; [reflexivity|].
    destruct (Mat_shed_row _ _); autorewrite with run; reflexivity.
Qed.

Lemma resolve_labels_cases (trainingSet : mat) (c : CLI) :
  (exists e, resolve_labels trainingSet c = (notice c, Abort e c) /\
             ("labels" ∉ passed c) /\
             e = OutOfBounds "Mat::row()"
                   (size_t_sub (Z.of_nat (n_rows trainingSet)) 1)) \/
  (exists r,
     resolve_labels trainingSet c = (notice c, Done r (labels_taken c))).
Proof.
  unfold resolve_labels, notice. rewrite bind_HasParam.
  destruct (decide ("labels" ∈ passed c)) as [Hyes|Hno].
  - rewrite (bool_decide_true _ Hyes), (labels_taken_given _ Hyes).
    autorewrite with run. eauto.
  - rewrite (bool_decide_false _ Hno), (labels_taken_absent _ Hno).
    autorewrite with run. unfold Mat_row, Mat_shed_row.
    destruct (bool_decide _); autorewrite with run; [eauto 10|].
    destruct (rows trainingSet !! _); autorewrite with run; eauto 10.
Qed.

Lemma resolve_labels_Done (trainingSet : mat) (c c' : CLI)
    (ev : list Event) (r : mat * URow) :
  resolve_labels trainingSet c = (ev, Done r c') ->
  ev = notice c /\ c' = labels_taken c.
Proof.
  destruct (resolve_labels_cases trainingSet c)
    as [(e & -> & _)|(r' & ->)]; [discriminate|].
  intros Heq. now inversion Heq.
Qed.

Lemma train_after_resolution (c c' : CLI) (ev : list Event)
    (trainingSet : mat) (labels : URow) (maxLabel : Z) :
  resolve_labels (cli_training c).2 c = (ev, Done (trainingSet, labels) c') ->
  arma_max labels = inr maxLabel ->
  exists rest,
    (train c).1
    = ev ++ training_call c trainingSet labels (size_t_add maxLabel 1) :: rest.
Proof.
  intros Hres Hmax. unfold train. autorewrite with run.
  rewrite training_taken_moves.
  change (cli_training (take_training_info c)).2 with (cli_training c).2.
  erewrite bind_Done
    by (rewrite resolve_labels_after_training, Hres; reflexivity).
  cbn [fst snd]. rewrite Hmax.
  apply resolve_labels_Done in Hres as [_ ->].
  autorewrite with run. unfold training_call, weights_argument.
  change (passed (training_taken (labels_taken c))) with (passed c).
  destruct (bool_decide ("weights" ∈ passed c)) eqn:Hw;
    autorewrite with run.
  all: rewrite !prefix_fst, <- app_assoc; simpl; eauto.
Qed.

Lemma arma_max_nonempty (v : URow) :
  v <> [] -> exists m, arma_max v = inr m /\ m ∈ v /\ Forall (fun x => x <= m) v.
Proof.
  destruct v as [|x xs]; [congruence|intros _]. simpl.
  exists (foldl Z.max x xs). split; [reflexivity|].
  revert x. induction xs as [|y ys IH]; intros x; simpl.
  - split; [apply list_elem_of_singleton; reflexivity|].
    constructor; [lia|constructor].
  - destruct (IH (Z.max x y)) as [Hin Hle]. split.
    + apply elem_of_cons in Hin as [Heq|Hin].
      * rewrite Heq. destruct (Z.max_spec x y) as [[_ ->]|[_ ->]];
          [right; left|left].
      * right. now right.
    + inversion Hle as [|? ? Hm Hrest]; subst.
      constructor; [lia|]. constructor; [lia|assumption].
Qed.

(** *** The conversion of an entry *)

Lemma conv_to_size_t_whole (x : float) (m : positive) (e : Z) :
  FloatOps.Prim2SF x = SpecFloat.S754_finite false m e ->
  0 <= e -> Z.pos m * 2 ^ e < 2 ^ 64 ->
  conv_to_size_t x = Z.pos m * 2 ^ e.
Proof.
  intros Hx He Hfit. unfold conv_to_size_t. rewrite Hx.
  rewrite (proj2 (Z.leb_le 0 e) He). apply to_size_t_small.
  unfold size_t_modulus. split; [|exact Hfit].
  apply Z.mul_nonneg_nonneg; [lia|]. apply Z.pow_nonneg. lia.
Qed.

Lemma conv_to_size_t_fraction (x : float) (m : positive) (e : Z) :
  FloatOps.Prim2SF x = SpecFloat.S754_finite false m e ->
  e < 0 -> Z.pos m < 2 ^ 64 * 2 ^ (- e) ->
  0 <= conv_to_size_t x /\
  conv_to_size_t x * 2 ^ (- e) <= Z.pos m
  < (conv_to_size_t x + 1) * 2 ^ (- e).
Proof.
  intros Hx He Hfit. unfold conv_to_size_t. rewrite Hx.
  rewrite (proj2 (Z.leb_gt 0 e) He).
  assert (0 < 2 ^ (- e)) as Hpos by (apply Z.pow_pos_nonneg; lia).
  assert (0 <= Z.pos m / 2 ^ (- e)) as Hnonneg
    by (apply Z.div_pos; lia).
  rewrite to_size_t_small.
  - split; [exact Hnonneg|]. split.
    + rewrite Z.mul_comm. apply Z.mul_div_le. exact Hpos.
    + rewrite Z.mul_comm. apply Z.mul_succ_div_gt. exact Hpos.
  - unfold size_t_modulus. split; [exact Hnonneg|].
    apply Z.div_lt_upper_bound; lia.
Qed.

(** C1, amended: with a [labels] parameter the training matrix and the
    labels reach the training call as they are.  Without it, and with at
    least one row in the matrix, the last row, and only that row, is taken
    out, the matrix that is left has one row fewer, and the labels of the
    training call are the entries of the row taken out, each converted to
    [size_t]: an entry [m * 2^e] that is not negative and is below [2^64]
    becomes its integer part, the largest integer that is not above it, and
    a negative entry and a zero become 0. *)
Theorem label_resolution (c : CLI) :
  let trainingSet := (cli_training c).2 in
  ("labels" ∈ passed c ->
   resolve_labels trainingSet c
   = ([], Done (trainingSet, cli_labels c) (take_labels c)) /\
   (cli_labels c <> [] ->
    exists numClasses rest,
      (train c).1
      = training_call c trainingSet (cli_labels c) numClasses :: rest)) /\
  ("labels" ∉ passed c ->
   (1 <= n_rows trainingSet)%nat ->
   Z.of_nat (n_rows trainingSet) < size_t_modulus ->
   exists features last,
     rows trainingSet = features ++ [last] /\
     (n_rows (Mat (n_cols trainingSet) features) + 1
      = n_rows trainingSet)%nat /\
     resolve_labels trainingSet c
     = ([Info MsgLastDimension],
        Done (Mat (n_cols trainingSet) features, map conv_to_size_t last) c) /\
     (last <> [] ->
      exists numClasses rest,
        (train c).1
        = Info MsgLastDimension
          :: training_call c (Mat (n_cols trainingSet) features)
               (map conv_to_size_t last) numClasses :: rest)) /\
  (forall x : float,
     match FloatOps.Prim2SF x with
     | SpecFloat.S754_finite false m e =>
         (0 <= e -> Z.pos m * 2 ^ e < 2 ^ 64 ->
          conv_to_size_t x = Z.pos m * 2 ^ e) /\
         (e < 0 -> Z.pos m < 2 ^ 64 * 2 ^ (- e) ->
          0 <= conv_to_size_t x /\
          conv_to_size_t x * 2 ^ (- e) <= Z.pos m
          < (conv_to_size_t x + 1) * 2 ^ (- e))
     | SpecFloat.S754_finite true _ _ => conv_to_size_t x = 0
     | SpecFloat.S754_zero _ => conv_to_size_t x = 0
     | _ => True
     end).
Proof.
  cbv zeta. split; [|split].
  - intros Hgiven. pose proof (resolve_labels_given (cli_training c).2 c Hgiven)
      as Hres.
    split; [exact Hres|]. intros Hne.
    destruct (arma_max_nonempty _ Hne) as (m & Hmax & _).
    destruct (train_after_resolution _ _ _ _ _ _ Hres Hmax) as [rest Hrest].
    eauto.
  - intros Habsent Hrow Hfit.
    destruct (cli_training c) as [datasetInfo [nc rs]] eqn:Htraining.
    unfold n_rows in *. cbn [snd rows n_cols] in *.
    destruct rs as [|r rs _] using rev_ind; [simpl in Hrow; lia|].
    exists rs, r. split; [reflexivity|].
    split; [rewrite length_app; reflexivity|].
    pose proof (resolve_labels_last_row nc rs r c Habsent Hfit) as Hres.
    split; [exact Hres|]. intros Hne.
    assert (map conv_to_size_t r <> []) as Hne' by now destruct r.
    destruct (arma_max_nonempty _ Hne') as (m & Hmax & _).
    assert ((cli_training c).2 = Mat nc (rs ++ [r])) as Hts
      by now rewrite Htraining.
    rewrite <- Hts in Hres.
    destruct (train_after_resolution _ _ _ _ _ _ Hres Hmax) as [rest Hrest].
    exists (size_t_add m 1), rest. rewrite Hrest.
    unfold training_call. now rewrite Htraining.
  - intros x. destruct (FloatOps.Prim2SF x) as [s|s| |[] m e] eqn:Hx;
      try exact I; try (unfold conv_to_size_t; now rewrite Hx).
    split.
    + now apply conv_to_size_t_whole.
    + now apply conv_to_size_t_fraction.
Qed.

(** C8: the last row is read at index [n_rows - 1] computed in [size_t],
    with no test for an empty matrix before it.  The index is inside the
    matrix exactly when there is at least one row; with no row it wraps to
    [2^64 - 1] and the row access is out of bounds. *)
Theorem last_row_index (trainingSet : mat) (c : CLI) :
  Z.of_nat (n_rows trainingSet) < size_t_modulus ->
  let index := size_t_sub (Z.of_nat (n_rows trainingSet)) 1 in
  (index < Z.of_nat (n_rows trainingSet) <-> (1 <= n_rows trainingSet)%nat) /\
  ((1 <= n_rows trainingSet)%nat ->
   exists last, Mat_row trainingSet index = inr last) /\
  (n_rows trainingSet = 0%nat ->
   index = 2 ^ 64 - 1 /\
   Mat_row trainingSet index = inl (OutOfBounds "Mat::row()" (2 ^ 64 - 1)) /\
   ("labels" ∉ passed c ->
    resolve_labels trainingSet c
    = ([Info MsgLastDimension],
       Abort (OutOfBounds "Mat::row()" (2 ^ 64 - 1)) c))).
Proof.
  intros Hfit. cbv zeta. destruct trainingSet as [nc rs].
  unfold n_rows in *. cbn [rows] in *. split; [|split].
  - destruct rs as [|r rs].
    + cbn [length]. change (Z.of_nat 0) with 0.
      rewrite size_t_sub_underflow. lia.
    + rewrite size_t_sub_pred by (cbn [length] in *; lia).
      cbn [length]. lia.
  - intros Hrow. destruct rs as [|r rs _] using rev_ind;
      [simpl in Hrow; lia|].
    exists r. now apply Mat_row_last.
  - intros Hzero. destruct rs; [|discriminate]. cbn [length].
    change (Z.of_nat 0) with 0.
    split; [reflexivity|]. split; [reflexivity|].
    intros Habsent. now apply resolve_labels_no_row.
Qed.

(** *** The checks, run *)

Lemma count_passed_cons (name : string) (names : list string) (c : CLI) :
  count_passed (name :: names) c
  = ((if bool_decide (name ∈ passed c) then 1 else 0)
     + count_passed names c)%nat.
Proof.
  unfold count_passed. rewrite filter_cons.
  destruct (decide (name ∈ passed c)) as [Hin|Hout].
  - now rewrite bool_decide_true.
  - now rewrite bool_decide_false.
Qed.

Lemma count_passed_nil (c : CLI) : count_passed [] c = 0%nat.
Proof. reflexivity. Qed.

Lemma RequireOnlyOnePassed_fatal (names : list string) (c : CLI) :
  RequireOnlyOnePassed names true c
  = if bool_decide (count_passed names c = 1%nat) then ([], Done tt c)
    else ([], Abort (ConfigurationError
                       (MsgOnlyOne names (count_passed names c))) c).
Proof.
  unfold RequireOnlyOnePassed. rewrite bind_GetParam.
  now destruct (bool_decide (count_passed names c = 1%nat)).
Qed.

Lemma RequireAtLeastOnePassed_warn (names : list string) (custom : string)
    (c : CLI) :
  RequireAtLeastOnePassed names false custom c
  = (warning_if (bool_decide (count_passed names c = 0%nat))
       (MsgAtLeastOne names custom), Done tt c).
Proof.
  unfold RequireAtLeastOnePassed. rewrite bind_GetParam.
  now destruct (bool_decide (count_passed names c = 0%nat)).
Qed.

Lemma ReportIgnoredParam_run (constraints : list (string * bool))
    (paramName : string) (c : CLI) :
  ReportIgnoredParam constraints paramName c
  = (warning_if (constraints_hold constraints c
                 && bool_decide (paramName ∈ passed c))
       (MsgIgnored paramName constraints), Done tt c).
Proof.
  unfold ReportIgnoredParam. rewrite bind_GetParam, bind_HasParam.
  now destruct (constraints_hold constraints c && _).
Qed.

Lemma RequireParamValue_fatal {T} (field : CLI -> T) (name : string)
    (conditional : T -> bool) (errorMessage : string) (c : CLI) :
  RequireParamValue field name conditional true errorMessage c
  = if conditional (field c) then ([], Done tt c)
    else ([], Abort (ConfigurationError (MsgParamValue name errorMessage)) c).
Proof.
  unfold RequireParamValue. rewrite bind_GetParam.
  now destruct (conditional (field c)).
Qed.

Lemma check_ignored_run (c : CLI) :
  check_ignored c = (ignored_warnings c, Done tt c).
Proof.
  unfold check_ignored, ignored_warnings.
  repeat (erewrite bind_Done
            by first [apply ReportIgnoredParam_run
                     |apply RequireAtLeastOnePassed_warn]).
  rewrite ReportIgnoredParam_run. now autorewrite with run.
Qed.

Lemma check_mode_run (c : CLI) :
  check_mode c
  = if bool_decide (bool_decide ("training" ∈ passed c)
                    <> bool_decide ("input_model" ∈ passed c))
    then ([], Done tt c)
    else ([], Abort (ConfigurationError
                       (MsgOnlyOne ["training"; "input_model"]
                          (count_passed ["training"; "input_model"] c))) c).
Proof.
  unfold check_mode. rewrite RequireOnlyOnePassed_fatal.
  rewrite !count_passed_cons, count_passed_nil.
  destruct (bool_decide ("training" ∈ passed c)),
    (bool_decide ("input_model" ∈ passed c)); reflexivity.
Qed.

Lemma check_hyperparameters_run (c : CLI) :
  check_hyperparameters c
  = if 0 <? cli_minimum_leaf_size c then
      if (PrimFloat.ltb 0 (cli_minimum_gain_split c)
          && PrimFloat.ltb (cli_minimum_gain_split c) 1)
      then ([], Done tt c)
      else ([], Abort (ConfigurationError
                         (MsgParamValue "minimum_gain_split"
                            "gain split must be a fraction in range [0,1]"))
                  c)
    else ([], Abort (ConfigurationError
                       (MsgParamValue "minimum_leaf_size"
                          "leaf size must be positive")) c).
Proof.
  unfold check_hyperparameters.
  destruct (0 <? cli_minimum_leaf_size c) eqn:Hleaf.
  - erewrite bind_Done
      by (rewrite RequireParamValue_fatal, Hleaf; reflexivity).
    now rewrite prefix_nil, RequireParamValue_fatal.
  - erewrite bind_Abort
      by (rewrite RequireParamValue_fatal, Hleaf; reflexivity).
    reflexivity.
Qed.

Lemma mlpackMain_run (c : CLI) :
  mlpackMain c
  = if bool_decide (bool_decide ("training" ∈ passed c)
                    <> bool_decide ("input_model" ∈ passed c))
    then
      if hyperparameters_ok c then prefix (ignored_warnings c) (work c)
      else
        (ignored_warnings c,
         Abort (ConfigurationError
                  (MsgParamValue
                     (if 0 <? cli_minimum_leaf_size c
                      then "minimum_gain_split" else "minimum_leaf_size")
                     (if 0 <? cli_minimum_leaf_size c
                      then "gain split must be a fraction in range [0,1]"
                      else "leaf size must be positive"))) c)
    else ([], Abort (ConfigurationError
                       (MsgOnlyOne ["training"; "input_model"]
                          (count_passed ["training"; "input_model"] c))) c).
Proof.
  unfold mlpackMain. fold work.
  pose proof (check_mode_run c) as Hmode.
  destruct (bool_decide (_ <> _)).
  - erewrite bind_Done by exact Hmode. rewrite prefix_nil.
    erewrite bind_Done by apply check_ignored_run.
    pose proof (check_hyperparameters_run c) as Hhyper.
    unfold hyperparameters_ok.
    destruct (0 <? cli_minimum_leaf_size c); cbn [andb].
    + destruct (PrimFloat.ltb 0 _ && _).
      * erewrite bind_Done by exact Hhyper. now rewrite prefix_nil.
      * erewrite bind_Abort by exact Hhyper.
        unfold prefix. simpl. now rewrite app_nil_r.
    + erewrite bind_Abort by exact Hhyper.
      unfold prefix. simpl. now rewrite app_nil_r.
  - now erewrite bind_Abort by exact Hmode.
Qed.

(** *** Invariants of a run *)

Section Invariants.
Variables (PE : Event -> Prop) (PX : Error -> Prop) (R : CLI -> CLI -> Prop).
Hypothesis R_refl : forall c, R c c.
Hypothesis R_trans : forall c1 c2 c3, R c1 c2 -> R c2 c3 -> R c1 c3.

Lemma holds_bind {T U} (m : M T) (k : T -> M U) (c : CLI) :
  holds PE PX R (m c) c ->
  (forall a c1 ev, m c = (ev, Done a c1) -> holds PE PX R (k a c1) c1) ->
  holds PE PX R (bind m k c) c.
Proof.
  intros [Hev Hout] Hk. destruct (m c) as [ev [a c1|e c1]] eqn:Hm.
  - erewrite bind_Done by exact Hm. destruct (Hk a c1 ev eq_refl) as [Hev' Hout'].
    split.
    + rewrite prefix_fst. apply Forall_app. now split.
    + rewrite prefix_snd. cbn [snd] in Hout.
      destruct ((k a c1).2) as [b c2|e c2].
      * eauto.
      * destruct Hout'. split; eauto.
  - erewrite bind_Abort by exact Hm. now split.
Qed.

Lemma holds_ret {T} (a : T) (c : CLI) : holds PE PX R (ret a c) c.
Proof. split; [constructor|apply R_refl]. Qed.

Lemma holds_GetParam {T} (field : CLI -> T) (c : CLI) :
  holds PE PX R (GetParam field c) c.
Proof. split; [constructor|apply R_refl]. Qed.

Lemma holds_HasParam (name : string) (c : CLI) :
  holds PE PX R (HasParam name c) c.
Proof. split; [constructor|apply R_refl]. Qed.

Lemma holds_SetParam (update : CLI -> CLI) (c : CLI) :
  R c (update c) -> holds PE PX R (SetParam update c) c.
Proof. intros Hr. split; [constructor|exact Hr]. Qed.

Lemma holds_MoveParam {T} (field : CLI -> T) (leave : CLI -> CLI) (c : CLI) :
  R c (leave c) -> holds PE PX R (MoveParam field leave c) c.
Proof. intros Hr. split; [constructor|exact Hr]. Qed.

Lemma holds_emit (e : Event) (c : CLI) :
  PE e -> holds PE PX R (emit e c) c.
Proof.
  intros He. split; [repeat constructor; exact He|apply R_refl].
Qed.

Lemma holds_throw {T} (e : Error) (c : CLI) :
  PX e -> holds PE PX R (@throw C T e c) c.
Proof. intros He. split; [constructor|split; [exact He|apply R_refl]]. Qed.

Lemma holds_lift {T} (r : Error + T) (c : CLI) :
  (forall e, r = inl e -> PX e) -> holds PE PX R (lift r c) c.
Proof.
  intros Hr. destruct r as [e|a]; [apply holds_throw; auto|apply holds_ret].
Qed.

End Invariants.

Lemma lift_Done {T} (r : Error + T) (c c1 : CLI) (ev : list Event) (a : T) :
  lift r c = (ev, Done a c1) -> r = inr a /\ ev = [] /\ c1 = c.
Proof.
  destruct r as [e|b]; [discriminate|]. intros [= <- <- <-]. auto.
Qed.

Lemma HasParam_Done (name : string) (c c1 : CLI) (ev : list Event) (b : bool) :
  HasParam name c = (ev, Done b c1) ->
  b = bool_decide (name ∈ passed c) /\ ev = [] /\ c1 = c.
Proof. intros [= <- <- <-]. auto. Qed.

Lemma GetParam_Done {T} (field : CLI -> T) (c c1 : CLI) (ev : list Event)
    (a : T) :
  GetParam field c = (ev, Done a c1) -> a = field c /\ ev = [] /\ c1 = c.
Proof. intros [= <- <- <-]. auto. Qed.

Lemma holds_weaken {T} (PE PE' : Event -> Prop) (PX PX' : Error -> Prop)
    (R R' : CLI -> CLI -> Prop) (r : list Event * Outcome T) (c : CLI) :
  (forall e, PE e -> PE' e) -> (forall e, PX e -> PX' e) ->
  (forall c1, R c c1 -> R' c c1) ->
  holds PE PX R r c -> holds PE' PX' R' r c.
Proof.
  intros HE HX HR [Hev Hout]. split.
  - eapply Forall_impl; eauto.
  - destruct (r.2); [auto|]. destruct Hout. auto.
Qed.

Lemma work_frame_refl (c : CLI) : work_frame c c.
Proof. now split. Qed.

Lemma work_frame_trans (c1 c2 c3 : CLI) :
  work_frame c1 c2 -> work_frame c2 c3 -> work_frame c1 c3.
Proof.
  intros [Hp Ht] [Hp' Ht']. split; [congruence|]. intros Hno.
  destruct (Ht Hno) as (H1 & H2 & H3).
  assert ("test" ∉ passed c2) as Hno' by (rewrite Hp; exact Hno).
  destruct (Ht' Hno') as (H1' & H2' & H3'). repeat split; congruence.
Qed.

Lemma accuracy_loop_error (predictions labels : URow) (todo i : nat)
    (correct : Z) (e : Error) :
  accuracy_loop predictions labels todo i correct = inl e -> work_error e.
Proof.
  revert i correct. induction todo as [|todo IH]; intros i correct; simpl.
  - discriminate.
  - destruct (predictions !! i); [|now intros [= <-]].
    destruct (labels !! i); [|now intros [= <-]]. apply IH.
Qed.

Ltac holds_step R_refl R_trans :=
  first
    [ apply (holds_ret _ _ _ R_refl)
    | apply (holds_GetParam _ _ _ R_refl)
    | apply (holds_HasParam _ _ _ R_refl)
    | apply (holds_emit _ _ _ R_refl)
    | apply (holds_throw _ _ _ R_refl)
    | apply (holds_lift _ _ _ R_refl)
    | apply (holds_SetParam _ _ _)
    | apply (holds_MoveParam _ _ _)
    | apply (holds_bind _ _ _ R_trans); [|intros ? ? ? ?] ].

Ltac holds_run R_refl R_trans :=
  repeat first
    [ holds_step R_refl R_trans
    | match goal with
      | |- holds _ _ _ ((if ?b then _ else _) _) _ => destruct b
      | |- holds _ _ _ (match ?x with Some _ => _ | None => _ end _) _ =>
          destruct x eqn:?
      end ].

Lemma arma_max_error (v : URow) (e : Error) :
  arma_max v = inl e -> work_error e.
Proof. destruct v; [now intros [= <-]|discriminate]. Qed.

Lemma Mat_row_error (m : mat) (row_num : Z) (e : Error) :
  Mat_row m row_num = inl e -> work_error e.
Proof.
  unfold Mat_row. destruct (bool_decide _); [now intros [= <-]|].
  destruct (rows m !! _); [discriminate|now intros [= <-]].
Qed.

Lemma Mat_shed_row_error (m : mat) (row_num : Z) (e : Error) :
  Mat_shed_row m row_num = inl e -> work_error e.
Proof.
  unfold Mat_shed_row. destruct (bool_decide _); [now intros [= <-]|].
  discriminate.
Qed.

Lemma report_accuracy_holds (dataset : string) (data : mat)
    (predictions labels : URow) (c : CLI) :
  holds work_event work_error eq
    (report_accuracy dataset data predictions labels c) c.
Proof.
  unfold report_accuracy.
  holds_run (@eq_refl CLI) (@eq_trans CLI); simpl; auto.
  apply accuracy_loop_error.
Qed.

Lemma holds_eq {T} (R : CLI -> CLI -> Prop) (r : list Event * Outcome T)
    (c : CLI) :
  (forall c, R c c) ->
  holds work_event work_error eq r c -> holds work_event work_error R r c.
Proof.
  intros HR. apply holds_weaken; auto. now intros ? <-.
Qed.

Lemma train_holds (c : CLI) :
  holds work_event work_error work_frame (train c) c.
Proof.
  unfold train, resolve_labels, report_training_error.
  holds_run work_frame_refl work_frame_trans;
    try exact I;
    try (apply (holds_eq _ _ _ work_frame_refl), report_accuracy_holds);
    try apply arma_max_error; try apply Mat_row_error;
    try apply Mat_shed_row_error; try apply accuracy_loop_error;
    try (split; [reflexivity|intros _; repeat split; reflexivity]).
  all: try match goal with
           | H : lift (arma_max _) _ = _ |- _ => apply lift_Done in H as [? _]
           end.
  all: simpl; eauto.
Qed.

Lemma same_passed_refl (c : CLI) : same_passed c c.
Proof. reflexivity. Qed.

Lemma same_passed_trans (c1 c2 c3 : CLI) :
  same_passed c1 c2 -> same_passed c2 c3 -> same_passed c1 c3.
Proof. unfold same_passed. congruence. Qed.

Lemma test_holds (model : DecisionTreeModel) (c : CLI) :
  holds work_event work_error same_passed (test model c) c.
Proof.
  unfold test.
  holds_run same_passed_refl same_passed_trans;
    try exact I; try reflexivity.
  apply accuracy_loop_error.
Qed.

Lemma work_holds (c : CLI) : holds work_event work_error work_frame (work c) c.
Proof.
  unfold work.
  apply (holds_bind _ _ _ work_frame_trans);
    [apply (holds_HasParam _ _ _ work_frame_refl)|].
  intros training c1 ev1 _.
  apply (holds_bind _ _ _ work_frame_trans).
  { destruct training.
    - apply train_holds.
    - apply (holds_GetParam _ _ _ work_frame_refl). }
  intros model c2 ev2 _.
  apply (holds_bind _ _ _ work_frame_trans);
    [apply (holds_HasParam _ _ _ work_frame_refl)|].
  intros tested c3 ev3 (-> & _ & ->)%HasParam_Done.
  apply (holds_bind _ _ _ work_frame_trans).
  { destruct (bool_decide ("test" ∈ passed c2)) eqn:Htest.
    - apply bool_decide_eq_true in Htest.
      apply (holds_weaken work_event _ work_error _ same_passed);
        [auto|auto| |apply test_holds].
      intros c4 Hp. split; [exact Hp|]. intros Hno. contradiction.
    - apply (holds_ret _ _ _ work_frame_refl). }
  intros [] c4 ev4 _. apply holds_SetParam. now split.
Qed.

(** *** The whole run *)

Lemma warning_if_Warn (b : bool) (m : Message) :
  Forall (fun e => exists m', e = Warn m') (warning_if b m).
Proof. destruct b; repeat constructor. eauto. Qed.

Lemma ignored_warnings_Warn (c : CLI) :
  Forall (fun e => exists m, e = Warn m) (ignored_warnings c).
Proof.
  unfold ignored_warnings. repeat (apply Forall_app; split);
    apply warning_if_Warn.
Qed.

Lemma mlpackMain_events (c : CLI) :
  exists warnings w,
    (mlpackMain c).1 = warnings ++ w /\
    (warnings = [] \/ warnings = ignored_warnings c) /\
    Forall work_event w.
Proof.
  rewrite mlpackMain_run. destruct (bool_decide (_ <> _)).
  - destruct (hyperparameters_ok c).
    + exists (ignored_warnings c), (work c).1.
      split; [reflexivity|]. split; [now right|]. apply work_holds.
    + exists (ignored_warnings c), []. cbn [fst]. rewrite app_nil_r. auto.
  - exists [], []. auto.
Qed.

Lemma mlpackMain_frame (c : CLI) : work_frame c (final (mlpackMain c)).
Proof.
  rewrite mlpackMain_run. destruct (bool_decide (_ <> _)).
  - destruct (hyperparameters_ok c).
    + unfold final. rewrite prefix_snd.
      destruct (work_holds c) as [_ Hout].
      destruct ((work c).2); [exact Hout|apply Hout].
    + apply work_frame_refl.
  - apply work_frame_refl.
Qed.

Lemma mlpackMain_train_calls (c : CLI) (e : Event) :
  e ∈ (mlpackMain c).1 -> (exists m, e = Warn m) \/ work_event e.
Proof.
  destruct (mlpackMain_events c) as (warnings & w & -> & Hwarn & Hw).
  intros [Hin|Hin]%elem_of_app.
  - left. destruct Hwarn as [->| ->]; [now apply elem_of_nil in Hin|].
    pose proof (ignored_warnings_Warn c) as Hall.
    rewrite Forall_forall in Hall. auto.
  - right. rewrite Forall_forall in Hw. auto.
Qed.

(** C3: training and loading a model exclude each other and one of them is
    needed.  With both parameters, or with neither, the run ends at the first
    check with a configuration error: nothing was logged, no call into the
    tree library was made, and the registry is as it was.  With exactly one of
    them the check passes. *)
Theorem exactly_one_mode (c : CLI) :
  (("training" ∈ passed c) /\ ("input_model" ∈ passed c) ->
   mlpackMain c
   = ([], Abort (ConfigurationError
                   (MsgOnlyOne ["training"; "input_model"] 2)) c)) /\
  (("training" ∉ passed c) /\ ("input_model" ∉ passed c) ->
   mlpackMain c
   = ([], Abort (ConfigurationError
                   (MsgOnlyOne ["training"; "input_model"] 0)) c)) /\
  ((("training" ∈ passed c) /\ ("input_model" ∉ passed c)) \/
   (("training" ∉ passed c) /\ ("input_model" ∈ passed c)) ->
   check_mode c = ([], Done tt c) /\
   forall set, (mlpackMain c).2
               <> Abort (ConfigurationError
                           (MsgOnlyOne ["training"; "input_model"] set))
                    (final (mlpackMain c))).
Proof.
  rewrite mlpackMain_run, check_mode_run, !count_passed_cons, count_passed_nil.
  split; [|split].
  - intros [Ht Hi].
    now rewrite !(bool_decide_true _ Ht), !(bool_decide_true _ Hi).
  - intros [Ht Hi].
    now rewrite !(bool_decide_false _ Ht), !(bool_decide_false _ Hi).
  - intros Hone.
    assert (bool_decide ("training" ∈ passed c)
            <> bool_decide ("input_model" ∈ passed c)) as Hne.
    { destruct Hone as [[Ht Hi]|[Ht Hi]].
      - now rewrite (bool_decide_true _ Ht), (bool_decide_false _ Hi).
      - now rewrite (bool_decide_false _ Ht), (bool_decide_true _ Hi). }
    rewrite (bool_decide_true _ Hne). split; [reflexivity|].
    intros set. destruct (hyperparameters_ok c).
    + rewrite prefix_snd. destruct (work_holds c) as [_ Hout].
      destruct ((work c).2) as [a c1|e c1]; [discriminate|].
      destruct Hout as [He _]. intros [= -> _]. exact He.
    + cbn [snd]. discriminate.
Qed.

Lemma one_mode_decide (c : CLI) :
  one_mode c ->
  bool_decide (bool_decide ("training" ∈ passed c)
               <> bool_decide ("input_model" ∈ passed c)) = true.
Proof.
  intros [[Ht Hi]|[Ht Hi]].
  - now rewrite (bool_decide_true _ Ht), (bool_decide_false _ Hi).
  - now rewrite (bool_decide_false _ Ht), (bool_decide_true _ Hi).
Qed.

Lemma hyperparameters_ok_valid (c : CLI) :
  hyperparameters_ok c = true <-> valid_hyperparameters c.
Proof.
  unfold hyperparameters_ok, valid_hyperparameters.
  rewrite !andb_true_iff, Z.ltb_lt. tauto.
Qed.

(** C4: the hyperparameter checks fail with a configuration error exactly
    when [minimum_leaf_size] is not positive or [minimum_gain_split] is not
    strictly between 0 and 1; for a positive leaf size and a gain split
    strictly between 0 and 1 they pass. *)
Theorem hyperparameter_validation (c : CLI) :
  (valid_hyperparameters c -> check_hyperparameters c = ([], Done tt c)) /\
  (~ valid_hyperparameters c ->
   exists param custom,
     check_hyperparameters c
     = ([], Abort (ConfigurationError (MsgParamValue param custom)) c)) /\
  (one_mode c ->
   (exists param custom,
      (mlpackMain c).2
      = Abort (ConfigurationError (MsgParamValue param custom)) c)
   <-> ~ valid_hyperparameters c).
Proof.
  rewrite <- hyperparameters_ok_valid, check_hyperparameters_run.
  unfold hyperparameters_ok. split; [|split].
  - intros [-> ->]%andb_true_iff. reflexivity.
  - intros Hbad%not_true_is_false.
    destruct (0 <? cli_minimum_leaf_size c); cbn [andb] in Hbad.
    + rewrite Hbad. eauto.
    + eauto.
  - intros Hmode. rewrite mlpackMain_run, (one_mode_decide c Hmode).
    fold (hyperparameters_ok c). destruct (hyperparameters_ok c); split.
    + intros (param & custom & Habort). rewrite prefix_snd in Habort.
      destruct (work_holds c) as [_ Hout]. rewrite Habort in Hout.
      destruct Hout as [[] _].
    + intros Hbad. now destruct Hbad.
    + intros _. discriminate.
    + intros _. cbn [snd]. eauto.
Qed.

(** C2, amended: the class count of every training call is the largest
    label plus one computed in [size_t], that is modulo [2^64], whether or
    not the labels are a dense range from zero; it is the largest label plus
    one whenever that label is below [2^64 - 1].  When the labels are
    resolved and not empty the call is made. *)
Theorem class_count (c : CLI) :
  (forall data datasetInfo labels numClasses weights minLeafSize
          minimumGainSplit,
     CallTrain data datasetInfo labels numClasses weights minLeafSize
       minimumGainSplit ∈ (mlpackMain c).1 ->
     exists m,
       arma_max labels = inr m /\ (m ∈ labels) /\
       Forall (fun x => x <= m) labels /\
       numClasses = (m + 1) mod 2 ^ 64 /\
       (0 <= m < 2 ^ 64 - 1 -> numClasses = m + 1)) /\
  (forall ev trainingSet labels c',
     resolve_labels (cli_training c).2 c
     = (ev, Done (trainingSet, labels) c') ->
     labels <> [] ->
     exists m rest,
       arma_max labels = inr m /\
       (train c).1
       = ev ++ training_call c trainingSet labels ((m + 1) mod 2 ^ 64)
            :: rest).
Proof.
  split.
  - intros data datasetInfo labels numClasses weights minLeafSize
      minimumGainSplit Hin.
    destruct (mlpackMain_train_calls c _ Hin) as [[m Hm]|(m & Hmax & ->)];
      [discriminate|].
    exists m. split; [exact Hmax|].
    assert (labels <> []) as Hne by (intros ->; discriminate).
    destruct (arma_max_nonempty labels Hne) as (m' & Hmax' & Hin' & Hle).
    assert (m' = m) as -> by congruence.
    split; [exact Hin'|]. split; [exact Hle|]. split; [reflexivity|].
    intros Hm. apply size_t_add_succ. unfold size_t_modulus. lia.
  - intros ev trainingSet labels c' Hres Hne.
    destruct (arma_max_nonempty labels Hne) as (m & Hmax & _).
    destruct (train_after_resolution _ _ _ _ _ _ Hres Hmax) as [rest Hrest].
    exists m, rest. split; [exact Hmax|exact Hrest].
Qed.

(** *** The counting loop *)

Lemma size_t_add_to_size_t (x : Z) :
  size_t_add (to_size_t x) 1 = to_size_t (x + 1).
Proof.
  unfold size_t_add, to_size_t. now rewrite Zplus_mod_idemp_l.
Qed.

Lemma accuracy_loop_S (predictions labels : URow) (todo i : nat) (correct : Z)
    (p l : Z) :
  predictions !! i = Some p -> labels !! i = Some l ->
  accuracy_loop predictions labels (S todo) i correct
  = accuracy_loop predictions labels todo (S i)
      (if bool_decide (p = l) then size_t_add correct 1 else correct).
Proof. intros Hp Hl. simpl. now rewrite Hp, Hl. Qed.

Lemma accuracy_loop_counts (predictions labels : URow) (todo : nat) :
  forall (i : nat) (x : Z),
    (i + todo <= length predictions)%nat ->
    (i + todo <= length labels)%nat ->
    accuracy_loop predictions labels todo i (to_size_t x)
    = inr (to_size_t
             (x + Z.of_nat (count_matches (take todo (drop i predictions))
                              (take todo (drop i labels))))).
Proof.
  induction todo as [|todo IH]; intros i x Hp Hl.
  - simpl. now rewrite Z.add_0_r.
  - destruct (lookup_lt_is_Some_2 predictions i) as [p Hpi]; [lia|].
    destruct (lookup_lt_is_Some_2 labels i) as [l Hli]; [lia|].
    rewrite (accuracy_loop_S _ _ _ _ _ _ _ Hpi Hli).
    rewrite (drop_S _ _ _ Hpi), (drop_S _ _ _ Hli).
    unfold count_matches. cbn [take zip zip_with]. rewrite filter_cons.
    cbn [fst snd]. destruct (decide (p = l)) as [Heq|Hne].
    + rewrite (bool_decide_true _ Heq), size_t_add_to_size_t.
      rewrite IH by lia. cbn [length]. do 2 f_equal.
      unfold count_matches. lia.
    + rewrite (bool_decide_false _ Hne). rewrite IH by lia. reflexivity.
Qed.

Lemma accuracy_loop_short (predictions labels : URow) (todo : nat) :
  forall (i : nat) (correct : Z),
    (i <= length labels)%nat ->
    (length labels < i + todo)%nat ->
    (i + todo <= length predictions)%nat ->
    accuracy_loop predictions labels todo i correct
    = inl (OutOfBounds "labels" (Z.of_nat (length labels))).
Proof.
  induction todo as [|todo IH]; intros i correct Hi Hl Hp; [lia|].
  destruct (lookup_lt_is_Some_2 predictions i) as [p Hpi]; [lia|].
  destruct (labels !! i) as [l|] eqn:Hli.
  - rewrite (accuracy_loop_S _ _ _ _ _ _ _ Hpi Hli).
    apply lookup_lt_Some in Hli. apply IH; lia.
  - simpl. rewrite Hpi, Hli. apply lookup_ge_None in Hli.
    now replace i with (length labels) by lia.
Qed.

Lemma count_matches_le (predictions labels : URow) :
  (count_matches predictions labels <= length predictions)%nat.
Proof.
  unfold count_matches.
  etransitivity; [apply length_filter|].
  rewrite length_zip_with. lia.
Qed.

Lemma report_accuracy_run (dataset : string) (data : mat)
    (predictions labels : URow) (c : CLI) :
  length predictions = n_cols data ->
  (n_cols data <= length labels)%nat ->
  report_accuracy dataset data predictions labels c
  = ([accuracy_report dataset data predictions labels], Done tt c).
Proof.
  intros Hp Hl. unfold report_accuracy.
  change 0 with (to_size_t 0) at 1.
  rewrite accuracy_loop_counts by (simpl; lia).
  rewrite !drop_0, Z.add_0_l. now autorewrite with run.
Qed.

Lemma count_matches_fits (n : nat) (predictions labels : URow) :
  Z.of_nat n < size_t_modulus ->
  to_size_t (Z.of_nat (count_matches (take n predictions) (take n labels)))
  = Z.of_nat (count_matches (take n predictions) (take n labels)).
Proof.
  intros Hfit. apply to_size_t_small.
  pose proof (count_matches_le (take n predictions) (take n labels)) as Hle.
  rewrite length_take in Hle. lia.
Qed.

Lemma report_accuracy_short (dataset : string) (data : mat)
    (predictions labels : URow) (c : CLI) :
  length predictions = n_cols data ->
  (length labels < n_cols data)%nat ->
  report_accuracy dataset data predictions labels c
  = ([], Abort (OutOfBounds "labels" (Z.of_nat (length labels))) c).
Proof.
  intros Hp Hl. unfold report_accuracy.
  rewrite accuracy_loop_short by (simpl; lia). reflexivity.
Qed.

(** *** The two accuracy passes and the test pass *)

Lemma report_training_error_run (t : DecisionTree) (trainingSet : mat)
    (labels : URow) (c : CLI) :
  (n_cols trainingSet <= length labels)%nat ->
  report_training_error t trainingSet labels c
  = ([CallClassify trainingSet;
      accuracy_report "training set" trainingSet
        (Classify t trainingSet).1 labels], Done tt c).
Proof.
  intros Hl. unfold report_training_error. rewrite bind_emit.
  rewrite report_accuracy_run by (auto using Classify_n_elem).
  reflexivity.
Qed.

Lemma report_training_error_short (t : DecisionTree) (trainingSet : mat)
    (labels : URow) (c : CLI) :
  (length labels < n_cols trainingSet)%nat ->
  report_training_error t trainingSet labels c
  = ([CallClassify trainingSet],
     Abort (OutOfBounds "labels" (Z.of_nat (length labels))) c).
Proof.
  intros Hl. unfold report_training_error. rewrite bind_emit.
  rewrite report_accuracy_short by (auto using Classify_n_elem).
  reflexivity.
Qed.

Lemma test_unscored (model : DecisionTreeModel) (c : CLI) :
  "test_labels" ∉ passed c ->
  test model c = ([CallClassify (cli_test c).2], Done tt (tested model c)).
Proof.
  intros Hno. unfold test, tested.
  rewrite test_labels_taken_absent by exact Hno.
  autorewrite with run. cbn [passed set_test_info].
  rewrite (bool_decide_false _ Hno). now autorewrite with run.
Qed.

Lemma test_scored (model : DecisionTreeModel) (c : CLI) :
  "test_labels" ∈ passed c ->
  (n_cols (cli_test c).2 <= length (cli_test_labels c))%nat ->
  test model c
  = ([CallClassify (cli_test c).2;
      accuracy_report "test set" (cli_test c).2
        (Classify (tree model) (cli_test c).2).1 (cli_test_labels c)],
     Done tt (tested model c)).
Proof.
  intros Hyes Hl. unfold test, tested.
  rewrite test_labels_taken_given by exact Hyes.
  autorewrite with run.
  cbn [passed set_test_info]. rewrite (bool_decide_true _ Hyes).
  autorewrite with run. cbn [cli_test cli_test_labels snd].
  erewrite bind_Done
    by (apply report_accuracy_run; auto using Classify_n_elem).
  now autorewrite with run.
Qed.

Lemma test_short (model : DecisionTreeModel) (c : CLI) :
  "test_labels" ∈ passed c ->
  (length (cli_test_labels c) < n_cols (cli_test c).2)%nat ->
  test model c
  = ([CallClassify (cli_test c).2],
     Abort (OutOfBounds "labels" (Z.of_nat (length (cli_test_labels c))))
       (take_test_labels (set_test_info (info model) c))).
Proof.
  intros Hyes Hl. unfold test. autorewrite with run.
  cbn [passed set_test_info]. rewrite (bool_decide_true _ Hyes).
  autorewrite with run. cbn [cli_test cli_test_labels snd].
  erewrite bind_Abort
    by (apply report_accuracy_short; auto using Classify_n_elem).
  reflexivity.
Qed.

Lemma test_Done (model : DecisionTreeModel) (c c' : CLI) (ev : list Event) :
  test model c = (ev, Done tt c') -> c' = tested model c.
Proof.
  destruct (decide ("test_labels" ∈ passed c)) as [Hyes|Hno].
  - destruct (le_lt_dec (n_cols (cli_test c).2) (length (cli_test_labels c)))
      as [Hl|Hl].
    + rewrite test_scored by assumption. now intros [= _ <-].
    + rewrite test_short by assumption. discriminate.
  - rewrite test_unscored by assumption. now intros [= _ <-].
Qed.

(** C9: both counting loops read the label vector at every index below the
    number of columns, and nothing compares that number with the length of
    the vector first.  Each pass completes exactly when the label vector has
    at least as many entries as the dataset has columns; with fewer, the read
    at the first index past its end is out of bounds. *)
Theorem label_reads_in_bounds (model : DecisionTreeModel) (data : mat)
    (labels : URow) (c : CLI) :
  let predictions := (Classify (tree model) data).1 in
  ((n_cols data <= length labels)%nat ->
   (forall i, (i < n_cols data)%nat -> is_Some (labels !! i)) /\
   (exists correct,
      accuracy_loop predictions labels (n_cols data) 0 0 = inr correct) /\
   completes (report_training_error (tree model) data labels c) = true) /\
  ((length labels < n_cols data)%nat ->
   labels !! length labels = None /\
   accuracy_loop predictions labels (n_cols data) 0 0
   = inl (OutOfBounds "labels" (Z.of_nat (length labels))) /\
   (report_training_error (tree model) data labels c).2
   = Abort (OutOfBounds "labels" (Z.of_nat (length labels))) c) /\
  (("test_labels" ∈ passed c) ->
   ((n_cols (cli_test c).2 <= length (cli_test_labels c))%nat ->
    completes (test model c) = true) /\
   ((length (cli_test_labels c) < n_cols (cli_test c).2)%nat ->
    (test model c).2
    = Abort (OutOfBounds "labels"
               (Z.of_nat (length (cli_test_labels c))))
        (take_test_labels (set_test_info (info model) c)))).
Proof.
  cbv zeta. pose proof (Classify_n_elem (tree model) data) as Hp.
  split; [|split].
  - intros Hl. split; [|split].
    + intros i Hi. apply lookup_lt_is_Some_2. lia.
    + change 0 with (to_size_t 0) at 1.
      rewrite accuracy_loop_counts by (simpl; lia). eauto.
    + now rewrite report_training_error_run.
  - intros Hl. split; [|split].
    + now apply lookup_ge_None.
    + apply accuracy_loop_short; simpl; lia.
    + now rewrite report_training_error_short.
  - intros Hscored. split; intros Hl.
    + now rewrite test_scored.
    + now rewrite test_short.
Qed.

(** *** Training, split at the report *)

Lemma train_split (c : CLI) : train c = bind train_tree train_report c.
Proof.
  unfold train, train_tree. autorewrite with run.
  rewrite training_taken_moves.
  change (cli_training (take_training_info c)).2 with (cli_training c).2.
  destruct (resolve_labels (cli_training c).2 (training_taken c))
    as [ev [r c1|e c1]] eqn:Hres.
  - rewrite !(bind_Done _ _ _ _ _ _ Hres). f_equal.
    destruct (arma_max r.2) as [e|maxLabel];
      autorewrite with run; [reflexivity|].
    destruct (bool_decide ("weights" ∈ passed c1)); autorewrite with run.
    all: f_equal; destruct (DecisionTree_train _ _ _ _ _ _ _);
      autorewrite with run; unfold train_report; autorewrite with run;
      reflexivity.
  - now rewrite !(bind_Abort _ _ _ _ _ _ Hres).
Qed.

(** How the first part of the training ends: before the tree constructor is
    called, with the training set and the labels moved out of their
    parameters, or after it, with the weights moved out as well. *)
Lemma train_tree_cases (c : CLI) :
  (exists e, train_tree c = (notice c, Abort e (resolved c)) /\
             e <> ClassifierError /\
             forall r,
               resolve_labels (cli_training c).2 c
               = (notice c, Done r (labels_taken c)) ->
               arma_max r.2 = inl e) \/
  (exists r m,
     resolve_labels (cli_training c).2 c
     = (notice c, Done r (labels_taken c)) /\
     arma_max r.2 = inr m /\
     match DecisionTree_train r.1 (cli_training c).1 r.2 (size_t_add m 1)
             (weights_argument c) (to_size_t (cli_minimum_leaf_size c))
             (cli_minimum_gain_split c) with
     | Some t =>
         train_tree c
         = (notice c ++ [training_call c r.1 r.2 (size_t_add m 1)],
            Done (t, r, (cli_training c).1) (trained c))
     | None =>
         train_tree c
         = (notice c ++ [training_call c r.1 r.2 (size_t_add m 1)],
            Abort ClassifierError (trained c))
     end).
Proof.
  unfold train_tree. autorewrite with run. rewrite training_taken_moves.
  change (cli_training (take_training_info c)).2 with (cli_training c).2.
  pose proof (resolve_labels_after_training (cli_training c).2 c) as Hmoved.
  destruct (resolve_labels_cases (cli_training c).2 c)
    as [(e & Hres & Hno & ->)|(r & Hres)]; rewrite Hres in Hmoved;
    cbn [map_run map_outcome fst snd] in Hmoved.
  - left. rewrite (bind_Abort _ _ _ _ _ _ Hmoved). eexists. split.
    + unfold resolved. rewrite labels_taken_absent by exact Hno.
      reflexivity.
    + split; [discriminate|]. intros r. rewrite Hres. discriminate.
  - rewrite (bind_Done _ _ _ _ _ _ Hmoved).
    destruct (arma_max r.2) as [e|m] eqn:Hmax; autorewrite with run.
    + left. exists e. rewrite app_nil_r. split; [reflexivity|]. split.
      * destruct r.2; [|discriminate]. injection Hmax as <-. discriminate.
      * intros r' Hres'. rewrite Hres in Hres'. now injection Hres' as <-.
    + right. exists r, m. split; [exact Hres|]. split; [exact Hmax|].
      unfold training_call, weights_argument.
      change (passed (training_taken (labels_taken c))) with (passed c).
      destruct (bool_decide ("weights" ∈ passed c)) eqn:Hw;
        autorewrite with run.
      all: destruct (DecisionTree_train _ _ _ _ _ _ _);
        autorewrite with run; unfold prefix, ret, throw; cbn [fst snd];
        rewrite ?app_nil_r; unfold trained, weights_taken;
        change (passed (resolved c)) with (passed c); rewrite Hw;
        reflexivity.
Qed.

(** The first part of the training once the labels are resolved and not
    empty: the call, and what the constructor answers. *)
Lemma train_tree_resolved (c : CLI) (r : mat * URow) (m : Z) :
  resolve_labels (cli_training c).2 c
  = (notice c, Done r (labels_taken c)) ->
  arma_max r.2 = inr m ->
  train_tree c
  = (notice c ++ [training_call c r.1 r.2 (size_t_add m 1)],
     match DecisionTree_train r.1 (cli_training c).1 r.2 (size_t_add m 1)
             (weights_argument c) (to_size_t (cli_minimum_leaf_size c))
             (cli_minimum_gain_split c) with
     | Some t => Done (t, r, (cli_training c).1) (trained c)
     | None => Abort ClassifierError (trained c)
     end).
Proof.
  intros Hres Hmax.
  destruct (train_tree_cases c)
    as [(e & _ & _ & Hempty)|(r' & m' & Hres' & Hmax' & Htree)].
  - rewrite (Hempty r Hres) in Hmax. discriminate.
  - assert (r' = r) as -> by congruence.
    assert (m' = m) as -> by congruence.
    now destruct (DecisionTree_train _ _ _ _ _ _ _).
Qed.

Lemma train_report_readonly (x : DecisionTree * (mat * URow) * DatasetInfo)
    (c : CLI) :
  holds (fun _ => True) (fun _ => True) eq (train_report x c) c.
Proof.
  unfold train_report, report_training_error, report_accuracy.
  holds_run (@eq_refl CLI) (@eq_trans CLI); auto.
Qed.

Lemma train_Done (c c1 : CLI) (ev : list Event) (model : DecisionTreeModel) :
  train c = (ev, Done model c1) -> c1 = trained c.
Proof.
  rewrite train_split.
  destruct (train_tree_cases c)
    as [(e & Htree & _ & _)|(r & m & _ & _ & Htree)].
  - rewrite (bind_Abort _ _ _ _ _ _ Htree). discriminate.
  - destruct (DecisionTree_train _ _ _ _ _ _ _) as [t|].
    + rewrite (bind_Done _ _ _ _ _ _ Htree).
      destruct (train_report_readonly (t, r, (cli_training c).1) (trained c))
        as [_ Hout].
      destruct (train_report _ _) as [ev1 [model1 c2|e c2]];
        cbn [snd] in Hout; [|discriminate].
      unfold prefix. cbn [fst snd]. intros [= _ _ <-]. now symmetry.
    + rewrite (bind_Abort _ _ _ _ _ _ Htree). discriminate.
Qed.

(** The model of a training that completes: the tree that the constructor
    returned, with the dataset description of the training parameter. *)
Lemma train_Done_model (c c1 : CLI) (ev : list Event)
    (model : DecisionTreeModel) :
  train c = (ev, Done model c1) ->
  exists r m t,
    resolve_labels (cli_training c).2 c
    = (notice c, Done r (labels_taken c)) /\
    arma_max r.2 = inr m /\
    DecisionTree_train r.1 (cli_training c).1 r.2 (size_t_add m 1)
      (weights_argument c) (to_size_t (cli_minimum_leaf_size c))
      (cli_minimum_gain_split c) = Some t /\
    model = {| tree := t; info := (cli_training c).1 |}.
Proof.
  rewrite train_split.
  destruct (train_tree_cases c)
    as [(e & Htree & _ & Hempty)|(r & m & Hres & Hmax & Htree)].
  - rewrite (bind_Abort _ _ _ _ _ _ Htree). discriminate.
  - destruct (DecisionTree_train _ _ _ _ _ _ _) as [t|] eqn:Htrain.
    + rewrite (bind_Done _ _ _ _ _ _ Htree).
      unfold train_report. rewrite bind_HasParam. cbn [fst snd].
      destruct (bool_decide _).
      * destruct (report_training_error t r.1 r.2 (trained c))
          as [ev2 [[] c2|e c2]] eqn:Hrep.
        -- rewrite (bind_Done _ _ _ _ _ _ Hrep). autorewrite with run.
           unfold prefix, ret. cbn [fst snd]. intros Heq. inversion Heq.
           exists r, m, t. auto.
        -- rewrite (bind_Abort _ _ _ _ _ _ Hrep). discriminate.
      * autorewrite with run. unfold prefix, ret. cbn [fst snd].
        intros Heq. inversion Heq. exists r, m, t. auto.
    + rewrite (bind_Abort _ _ _ _ _ _ Htree). discriminate.
Qed.

(** A training that fails leaves the registry as it was when the labels
    were resolved, or as it was when the constructor was called. *)
Lemma train_stops (c c1 : CLI) (ev : list Event) (e : Error) :
  train c = (ev, Abort e c1) -> c1 = resolved c \/ c1 = trained c.
Proof.
  rewrite train_split.
  destruct (train_tree_cases c)
    as [(e' & Htree & _ & _)|(r & m & _ & _ & Htree)].
  - rewrite (bind_Abort _ _ _ _ _ _ Htree). intros [= _ _ <-]. now left.
  - destruct (DecisionTree_train _ _ _ _ _ _ _) as [t|].
    + rewrite (bind_Done _ _ _ _ _ _ Htree).
      destruct (train_report_readonly (t, r, (cli_training c).1) (trained c))
        as [_ Hout].
      destruct (train_report _ _) as [ev1 [model1 c2|e1 c2]];
        cbn [snd] in Hout; [discriminate|].
      unfold prefix. cbn [fst snd]. intros [= _ _ <-]. right.
      now destruct Hout.
    + rewrite (bind_Abort _ _ _ _ _ _ Htree). intros [= _ _ <-]. now right.
Qed.

Lemma work_run (c : CLI) :
  work c
  = bind (model_of c) (fun model =>
      bind (if bool_decide ("test" ∈ passed c) then test model else ret tt)
        (fun _ => SetParam (set_output_model model))) c.
Proof.
  unfold work, model_of. rewrite bind_HasParam.
  destruct (bool_decide ("training" ∈ passed c)).
  - destruct (train c) as [ev [model c1|e c1]] eqn:Hrun.
    + rewrite !(bind_Done _ _ _ _ _ _ Hrun). apply train_Done in Hrun as ->.
      now rewrite bind_HasParam.
    + now rewrite !(bind_Abort _ _ _ _ _ _ Hrun).
  - now rewrite !bind_GetParam, bind_HasParam.
Qed.

(** The registry once the run has its model: after the moves of the
    training when it trained, as it was when it loaded the model. *)
Lemma model_of_Done (c c1 : CLI) (ev : list Event)
    (model : DecisionTreeModel) :
  model_of c c = (ev, Done model c1) ->
  c1 = if bool_decide ("training" ∈ passed c) then trained c else c.
Proof.
  unfold model_of. destruct (bool_decide ("training" ∈ passed c)).
  - apply train_Done.
  - now intros (_ & _ & ->)%GetParam_Done.
Qed.

Lemma model_of_Abort (c c1 : CLI) (ev : list Event) (e : Error) :
  model_of c c = (ev, Abort e c1) ->
  ("training" ∈ passed c) /\ (c1 = resolved c \/ c1 = trained c).
Proof.
  unfold model_of. destruct (bool_decide ("training" ∈ passed c)) eqn:Ht.
  - intros Hrun. split; [now apply bool_decide_eq_true in Ht|].
    now apply train_stops in Hrun.
  - discriminate.
Qed.


(** *** Runs that do not look at one parameter name *)

Lemma unpass_other (name other : string) (c : CLI) :
  other <> name ->
  bool_decide (other ∈ passed (unpass name c))
  = bool_decide (other ∈ passed c).
Proof.
  intros Hne. apply bool_decide_ext. cbn [unpass set_passed passed].
  rewrite elem_of_difference, elem_of_singleton. tauto.
Qed.

Lemma unpass_same (name : string) (c : CLI) :
  bool_decide (name ∈ passed (unpass name c)) = false.
Proof.
  apply bool_decide_eq_false. cbn [unpass set_passed passed].
  rewrite elem_of_difference, elem_of_singleton. tauto.
Qed.

Lemma count_passed_unpass (name : string) (names : list string) (c : CLI) :
  name ∉ names -> count_passed names (unpass name c) = count_passed names c.
Proof.
  induction names as [|other names IH]; intros Hout; [reflexivity|].
  apply not_elem_of_cons in Hout as [Hne Hout].
  rewrite !count_passed_cons, IH, unpass_other by auto. reflexivity.
Qed.

Ltac not_a_name :=
  rewrite !not_elem_of_cons;
  repeat (split; [discriminate|]); apply not_elem_of_nil.

Section Ignores.
Variable name : string.

Lemma ignores_bind {T U} (m : M T) (k : T -> M U) :
  ignores name m -> (forall a, ignores name (k a)) -> ignores name (bind m k).
Proof.
  intros Hm Hk c. unfold bind. rewrite Hm.
  destruct (m c) as [ev [a c1|e c1]]; cbn; [|reflexivity].
  rewrite Hk. now destruct (k a c1).
Qed.

Lemma ignores_ret {T} (a : T) : ignores name (ret a).
Proof. intros c. reflexivity. Qed.

Lemma ignores_GetParam {T} (field : CLI -> T) :
  (forall c, field (unpass name c) = field c) ->
  ignores name (GetParam field).
Proof. intros Hf c. unfold GetParam, map_run. cbn. now rewrite Hf. Qed.

Lemma ignores_HasParam (other : string) :
  other <> name -> ignores name (HasParam other).
Proof.
  intros Hne c. unfold HasParam, map_run. cbn -[unpass].
  now rewrite unpass_other.
Qed.

Lemma ignores_SetParam (update : CLI -> CLI) :
  (forall c, update (unpass name c) = unpass name (update c)) ->
  ignores name (SetParam update).
Proof. intros Hu c. unfold SetParam, map_run. cbn -[unpass]. now rewrite Hu. Qed.

Lemma ignores_MoveParam {T} (field : CLI -> T) (leave : CLI -> CLI) :
  (forall c, field (unpass name c) = field c) ->
  (forall c, leave (unpass name c) = unpass name (leave c)) ->
  ignores name (MoveParam field leave).
Proof.
  intros Hf Hl c. unfold MoveParam, map_run. cbn -[unpass].
  now rewrite Hf, Hl.
Qed.

Lemma ignores_emit (e : Event) : ignores name (emit e).
Proof. intros c. reflexivity. Qed.

Lemma ignores_throw {T} (e : Error) : ignores name (@throw C T e).
Proof. intros c. reflexivity. Qed.

Lemma ignores_lift {T} (r : Error + T) : ignores name (lift r).
Proof. destruct r; [apply ignores_throw|apply ignores_ret]. Qed.

Lemma ignores_if {T} (b : bool) (m1 m2 : M T) :
  ignores name m1 -> ignores name m2 ->
  ignores name (if b then m1 else m2).
Proof. now destruct b. Qed.

End Ignores.

Ltac ignores_run :=
  repeat first
    [ apply ignores_ret
    | apply ignores_emit
    | apply ignores_throw
    | apply ignores_lift
    | apply ignores_HasParam; discriminate
    | apply ignores_GetParam; reflexivity
    | apply ignores_SetParam; reflexivity
    | apply ignores_MoveParam; reflexivity
    | apply ignores_if
    | apply ignores_bind; [|intros ?] ].

(** *** Training, split at the report *)

Lemma resolve_labels_ignores (name : string) (trainingSet : mat) :
  name <> "labels" -> ignores name (resolve_labels trainingSet).
Proof.
  intros Hne. unfold resolve_labels.
  apply ignores_bind; [now apply ignores_HasParam|intros ?].
  ignores_run.
Qed.

Lemma train_tree_ignores (name : string) :
  name <> "labels" -> name <> "weights" -> ignores name train_tree.
Proof.
  intros Hl Hw. unfold train_tree.
  do 2 (apply ignores_bind; [apply ignores_MoveParam; reflexivity|intros ?]).
  apply ignores_bind; [now apply resolve_labels_ignores|intros ?].
  do 3 (apply ignores_bind; [ignores_run|intros ?]).
  apply ignores_bind; [now apply ignores_HasParam|intros ?].
  apply ignores_bind; [ignores_run|intros ?].
  apply ignores_bind; [ignores_run|intros ?].
  destruct (DecisionTree_train _ _ _ _ _ _ _); ignores_run.
Qed.

Lemma report_accuracy_ignores (name dataset : string) (data : mat)
    (predictions labels : URow) :
  ignores name (report_accuracy dataset data predictions labels).
Proof. unfold report_accuracy. ignores_run. Qed.

Lemma test_ignores (name : string) (model : DecisionTreeModel) :
  name <> "test_labels" -> ignores name (test model).
Proof.
  intros Hne. unfold test.
  do 3 (apply ignores_bind; [ignores_run|intros ?]).
  apply ignores_bind; [now apply ignores_HasParam|intros ?].
  apply ignores_bind; [|intros ?; ignores_run].
  apply ignores_if; [|ignores_run].
  apply ignores_bind; [ignores_run|intros ?].
  apply report_accuracy_ignores.
Qed.

Lemma resolve_labels_reach (c c1 : CLI) (ev : list Event)
    (resolved : mat * URow) :
  labels_reach c ->
  resolve_labels (cli_training c).2 c = (ev, Done resolved c1) ->
  (n_cols resolved.1 <= length resolved.2)%nat.
Proof.
  intros [Hgiven Hrows]. unfold resolve_labels. rewrite bind_HasParam.
  destruct (decide ("labels" ∈ passed c)) as [Hyes|Hno].
  - rewrite (bool_decide_true _ Hyes). autorewrite with run.
    intros [= _ <- _]. cbn. auto.
  - rewrite (bool_decide_false _ Hno). autorewrite with run.
    unfold Mat_row, Mat_shed_row.
    destruct (bool_decide _); autorewrite with run; [discriminate|].
    destruct (rows (cli_training c).2 !! _) as [r|] eqn:Hr;
      autorewrite with run; [|discriminate].
    intros [= _ <- _]. cbn. rewrite length_map.
    apply list_elem_of_lookup_2 in Hr.
    specialize (Hrows Hno). rewrite Forall_forall in Hrows.
    now rewrite (Hrows r Hr).
Qed.

Lemma finish_ignores (name : string) (tested : bool)
    (model : DecisionTreeModel) :
  name <> "test_labels" -> ignores name (finish tested model).
Proof.
  intros Hne. unfold finish.
  apply ignores_bind; [|intros ?; ignores_run].
  apply ignores_if; [now apply test_ignores|ignores_run].
Qed.

Lemma train_report_loud (x : DecisionTree * (mat * URow) * DatasetInfo)
    (c : CLI) :
  "print_training_error" ∈ passed c ->
  (n_cols x.1.2.1 <= length x.1.2.2)%nat ->
  train_report x c
  = ([CallClassify x.1.2.1;
      accuracy_report "training set" x.1.2.1 (Classify x.1.1 x.1.2.1).1
        x.1.2.2],
     Done {| tree := x.1.1; info := x.2 |} c).
Proof.
  intros Hflag Hreach. unfold train_report.
  rewrite bind_HasParam, (bool_decide_true _ Hflag).
  erewrite bind_Done by now apply report_training_error_run.
  now autorewrite with run.
Qed.

Lemma train_report_quiet (x : DecisionTree * (mat * URow) * DatasetInfo)
    (c : CLI) :
  "print_training_error" ∉ passed c ->
  train_report x c = ([], Done {| tree := x.1.1; info := x.2 |} c).
Proof.
  intros Hflag. unfold train_report.
  rewrite bind_HasParam, (bool_decide_false _ Hflag).
  now autorewrite with run.
Qed.

Lemma ignored_warnings_unpass_flag (c : CLI) :
  "training" ∈ passed c ->
  ignored_warnings (unpass "print_training_error" c) = ignored_warnings c.
Proof.
  intros Htraining. unfold ignored_warnings, constraints_hold.
  cbn [forallb fst snd].
  rewrite !count_passed_unpass by not_a_name.
  rewrite !(unpass_other _ "test"), !(unpass_other _ "test_labels"),
    !(unpass_other _ "training"), !(unpass_other _ "predictions")
    by discriminate.
  rewrite (bool_decide_true _ Htraining).
  change (bool_decide (true = false)) with false. reflexivity.
Qed.

(** [double(n)] is the double nearest to [n]. *)
Lemma double_of_size_t_nearest (n : Z) :
  0 <= n < 2 ^ 63 ->
  FloatOps.Prim2SF (double_of_size_t n) = nearest_double n.
Proof.
  intros Hn. unfold double_of_size_t, nearest_double.
  rewrite (proj2 (Z.ltb_lt n (2 ^ 63))) by lia.
  rewrite FloatAxioms.of_uint63_spec, Uint63.of_Z_spec.
  now rewrite Z.mod_small by exact Hn.
Qed.

(** C7: the report on the training error only adds to the log.  On its own
    it returns with the registry as it was, after one classification of the
    training set and one line.  The line gives the two counts, the number of
    columns at which the prediction is the label and the number of columns,
    and their quotient times 100 as a double: the double nearest to the
    first count, divided by the double nearest to the second and multiplied
    by 100, each step rounded as binary64 arithmetic rounds.  In a whole
    run the report is made with the tree that was just built, on the
    training matrix and the labels that the tree was built from; the same
    invocation without [print_training_error] writes the same events but for
    the report, ends the same way and leaves the same registry. *)
Theorem training_report_is_diagnostic (c : CLI) :
  "training" ∈ passed c ->
  "print_training_error" ∈ passed c ->
  labels_reach c ->
  (forall t trainingSet labels c0,
     (n_cols trainingSet <= length labels)%nat ->
     report_training_error t trainingSet labels c0
     = ([CallClassify trainingSet;
         accuracy_report "training set" trainingSet
           (Classify t trainingSet).1 labels], Done tt c0)) /\
  (forall dataset data predictions labels,
     Z.of_nat (n_cols data) < 2 ^ 63 ->
     let correct :=
       Z.of_nat (count_matches (take (n_cols data) predictions)
                   (take (n_cols data) labels)) in
     let total := Z.of_nat (n_cols data) in
     exists shown,
       accuracy_report dataset data predictions labels
       = Info (MsgAccuracy dataset shown correct total) /\
       FloatOps.Prim2SF shown
       = SpecFloat.SFmul FloatOps.prec FloatOps.emax
           (SpecFloat.SFdiv FloatOps.prec FloatOps.emax
              (nearest_double correct) (nearest_double total))
           (FloatOps.Prim2SF 100)) /\
  exists before report after,
    (mlpackMain c).1 = before ++ report ++ after /\
    (mlpackMain (unpass "print_training_error" c)).1 = before ++ after /\
    (mlpackMain (unpass "print_training_error" c)).2
    = map_outcome (unpass "print_training_error") (mlpackMain c).2 /\
    (report = [] \/
     exists r m t,
       resolve_labels (cli_training c).2 c
       = (notice c, Done r (labels_taken c)) /\
       arma_max r.2 = inr m /\
       DecisionTree_train r.1 (cli_training c).1 r.2 (size_t_add m 1)
         (weights_argument c) (to_size_t (cli_minimum_leaf_size c))
         (cli_minimum_gain_split c) = Some t /\
       report = [CallClassify r.1;
                 accuracy_report "training set" r.1 (Classify t r.1).1
                   r.2]) /\
    (completes (mlpackMain c) = true -> report <> []).
Proof.
  intros Htraining Hflag Hreach. split; [|split].
  - intros t trainingSet labels c0. apply report_training_error_run.
  - intros dataset data predictions labels Hfit. cbv zeta.
    pose proof (count_matches_le (take (n_cols data) predictions)
                  (take (n_cols data) labels)) as Hle.
    rewrite length_take in Hle.
    eexists. split.
    + unfold accuracy_report. cbv zeta.
      rewrite count_matches_fits by (unfold size_t_modulus; lia).
      reflexivity.
    + unfold percentage.
      rewrite FloatAxioms.mul_spec, FloatAxioms.div_spec.
      rewrite !double_of_size_t_nearest by lia. reflexivity.
  - set (quiet := unpass "print_training_error" c).
    rewrite !mlpackMain_run. unfold quiet.
    rewrite !unpass_other by discriminate.
    rewrite count_passed_unpass by not_a_name.
    rewrite ignored_warnings_unpass_flag by assumption.
    change (hyperparameters_ok (unpass "print_training_error" c))
      with (hyperparameters_ok c).
    change (cli_minimum_leaf_size (unpass "print_training_error" c))
      with (cli_minimum_leaf_size c).
    destruct (bool_decide (_ <> _));
      [|exists [], [], []; cbn; auto 10].
    destruct (hyperparameters_ok c);
      [|exists (ignored_warnings c), [], []; cbn;
        rewrite app_nil_r; auto 10].
    rewrite !work_run. unfold model_of.
    rewrite !unpass_other by discriminate.
    rewrite (bool_decide_true _ Htraining).
    fold (finish (bool_decide ("test" ∈ passed c))).
    pose proof (train_tree_ignores "print_training_error"
                  ltac:(discriminate) ltac:(discriminate) c) as Hquiet.
    assert ("print_training_error"
            ∉ passed (unpass "print_training_error" (trained c))) as Hoff
      by apply (bool_decide_eq_false_1 _), unpass_same.
    destruct (train_tree_cases c)
      as [(e & Htree & _ & Hempty)|(r & m & Hres & Hmax & Htree)].
    + rewrite Htree in Hquiet. cbn [map_run map_outcome fst snd] in Hquiet.
      assert (train c = (notice c, Abort e (resolved c))) as Hloud
        by now rewrite train_split, (bind_Abort _ _ _ _ _ _ Htree).
      assert (train (unpass "print_training_error" c)
              = (notice c,
                 Abort e (unpass "print_training_error" (resolved c))))
        as Hsilent
        by now rewrite train_split, (bind_Abort _ _ _ _ _ _ Hquiet).
      rewrite (bind_Abort _ _ _ _ _ _ Hloud), (bind_Abort _ _ _ _ _ _ Hsilent).
      exists (ignored_warnings c ++ notice c), [], [].
      unfold prefix, completes. cbn. rewrite !app_nil_r. auto 10.
    + pose proof (resolve_labels_reach _ _ _ _ Hreach Hres) as Hlen.
      destruct (DecisionTree_train _ _ _ _ _ _ _) as [t|] eqn:Htrain;
        rewrite Htree in Hquiet; cbn [map_run map_outcome fst snd] in Hquiet.
      * set (ev1 := notice c ++ [training_call c r.1 r.2 (size_t_add m 1)])
          in *.
        set (model := {| tree := t; info := (cli_training c).1 |}).
        assert (train c
                = (ev1 ++ [CallClassify r.1;
                           accuracy_report "training set" r.1
                             (Classify t r.1).1 r.2],
                   Done model (trained c))) as Hloud.
        { rewrite train_split, (bind_Done _ _ _ _ _ _ Htree).
          now rewrite train_report_loud. }
        assert (train (unpass "print_training_error" c)
                = (ev1, Done model
                          (unpass "print_training_error" (trained c))))
          as Hsilent.
        { rewrite train_split, (bind_Done _ _ _ _ _ _ Hquiet).
          rewrite train_report_quiet by assumption.
          unfold prefix. cbn. now rewrite app_nil_r. }
        rewrite (bind_Done _ _ _ _ _ _ Hloud),
          (bind_Done _ _ _ _ _ _ Hsilent).
        rewrite (finish_ignores "print_training_error" _ _
                   ltac:(discriminate) (trained c)).
        destruct (finish _ _ (trained c)) as [ev2 o].
        exists (ignored_warnings c ++ ev1),
          [CallClassify r.1;
           accuracy_report "training set" r.1 (Classify t r.1).1 r.2], ev2.
        unfold prefix, map_run. cbn [fst snd].
        rewrite <- !app_assoc. repeat split; eauto 10.
      * set (ev1 := notice c ++ [training_call c r.1 r.2 (size_t_add m 1)])
          in *.
        assert (train c = (ev1, Abort ClassifierError (trained c))) as Hloud
          by now rewrite train_split, (bind_Abort _ _ _ _ _ _ Htree).
        assert (train (unpass "print_training_error" c)
                = (ev1, Abort ClassifierError
                          (unpass "print_training_error" (trained c))))
          as Hsilent
          by now rewrite train_split, (bind_Abort _ _ _ _ _ _ Hquiet).
        rewrite (bind_Abort _ _ _ _ _ _ Hloud),
          (bind_Abort _ _ _ _ _ _ Hsilent).
        exists (ignored_warnings c ++ ev1), [], [].
        unfold prefix, completes. cbn. rewrite !app_nil_r. auto 10.
Qed.

(** *** Warnings about ignored parameters *)

Lemma ignored_count_app (param : string) (ev1 ev2 : list Event) :
  ignored_count param (ev1 ++ ev2)
  = (ignored_count param ev1 + ignored_count param ev2)%nat.
Proof. unfold ignored_count. now rewrite List.filter_app, length_app. Qed.

Lemma ignored_count_work (param : string) (events : list Event) :
  Forall work_event events -> ignored_count param events = 0%nat.
Proof.
  induction 1 as [|e events He _ IH]; [reflexivity|].
  unfold ignored_count in *. cbn [List.filter].
  destruct e; try contradiction; exact IH.
Qed.

Lemma ignored_count_none (param : string) (events : list Event) :
  ignored_count param events = 0%nat ->
  forall constraints, Warn (MsgIgnored param constraints) ∉ events.
Proof.
  intros Hcount constraints Hin. induction events as [|e events IH].
  - now apply elem_of_nil in Hin.
  - unfold ignored_count in *. cbn [List.filter] in Hcount.
    apply elem_of_cons in Hin as [<-|Hin].
    + cbn in Hcount. rewrite String.eqb_refl in Hcount. discriminate.
    + destruct (is_ignored_warning param e); [discriminate|]. auto.
Qed.

Lemma ignored_warnings_count (c : CLI) :
  "test" ∉ passed c ->
  ignored_count "probabilities" (ignored_warnings c) = 0%nat /\
  ignored_count "predictions" (ignored_warnings c)
  = if bool_decide ("predictions" ∈ passed c) then 2%nat else 0%nat.
Proof.
  intros Htest. unfold ignored_warnings, constraints_hold.
  cbn [forallb fst snd]. rewrite (bool_decide_false _ Htest).
  change (bool_decide (false = false)) with true. cbn [andb].
  destruct (bool_decide ("test_labels" ∈ passed c)),
    (bool_decide (count_passed _ c = 0%nat)),
    (bool_decide (bool_decide ("training" ∈ passed c) = false)),
    (bool_decide ("print_training_error" ∈ passed c)),
    (bool_decide ("predictions" ∈ passed c)); split; reflexivity.
Qed.

Lemma completes_prefix {T} (ev : list Event) (r : list Event * Outcome T) :
  completes (prefix ev r) = completes r.
Proof. reflexivity. Qed.

Lemma completes_map_run {T} (f : CLI -> CLI) (r : list Event * Outcome T) :
  completes (map_run f r) = completes r.
Proof. destruct r as [ev []]; reflexivity. Qed.

Lemma train_ignores (name : string) :
  name <> "labels" -> name <> "weights" -> name <> "print_training_error" ->
  ignores name train.
Proof.
  intros Hl Hw Hp c. rewrite !train_split. revert c.
  apply ignores_bind; [now apply train_tree_ignores|].
  intros x. unfold train_report.
  apply ignores_bind; [now apply ignores_HasParam|intros ?].
  apply ignores_bind; [|intros ?; ignores_run].
  apply ignores_if; [|ignores_run].
  unfold report_training_error.
  apply ignores_bind; [ignores_run|intros ?].
  apply report_accuracy_ignores.
Qed.

Lemma work_ignores (name : string) :
  name <> "training" -> name <> "test" -> name <> "labels" ->
  name <> "weights" -> name <> "print_training_error" ->
  name <> "test_labels" ->
  ignores name work.
Proof.
  intros Htr Hte Hl Hw Hp Htl. unfold work.
  apply ignores_bind; [now apply ignores_HasParam|intros ?].
  apply ignores_bind;
    [apply ignores_if; [now apply train_ignores|ignores_run]|intros ?].
  apply ignores_bind; [now apply ignores_HasParam|intros ?].
  now apply finish_ignores.
Qed.

(** C10: with the [probabilities] output requested and no test set, no
    warning says that [probabilities] is ignored, and the parameter is as it
    was when the run ends, however it ends; whether the run completes does
    not depend on the request.  The warning for [predictions], checked twice,
    is printed twice when [predictions] was passed. *)
Theorem probabilities_never_reported (c : CLI) :
  "probabilities" ∈ passed c ->
  "test" ∉ passed c ->
  ignored_count "probabilities" (mlpackMain c).1 = 0%nat /\
  (forall constraints,
     Warn (MsgIgnored "probabilities" constraints) ∉ (mlpackMain c).1) /\
  cli_probabilities (final (mlpackMain c)) = cli_probabilities c /\
  completes (mlpackMain c) = completes (mlpackMain (unpass "probabilities" c)) /\
  (one_mode c ->
   ignored_count "predictions" (mlpackMain c).1
   = if bool_decide ("predictions" ∈ passed c) then 2%nat else 0%nat).
Proof.
  intros Hprob Htest.
  destruct (ignored_warnings_count c Htest) as [Hnone Htwice].
  assert (ignored_count "probabilities" (mlpackMain c).1 = 0%nat) as Hcount.
  { destruct (mlpackMain_events c) as (warnings & w & -> & Hwarn & Hw).
    rewrite ignored_count_app, (ignored_count_work _ w Hw).
    destruct Hwarn as [->| ->]; [reflexivity|]. now rewrite Hnone. }
  split; [exact Hcount|]. split; [now apply ignored_count_none|].
  split; [|split].
  - destruct (mlpackMain_frame c) as [_ Hframe].
    now destruct (Hframe Htest) as (-> & _ & _).
  - rewrite !mlpackMain_run.
    rewrite !(unpass_other _ "training"), !(unpass_other _ "input_model")
      by discriminate.
    change (hyperparameters_ok (unpass "probabilities" c))
      with (hyperparameters_ok c).
    destruct (bool_decide (_ <> _)); [|reflexivity].
    destruct (hyperparameters_ok c); [|reflexivity].
    rewrite !completes_prefix.
    rewrite (work_ignores "probabilities") by discriminate.
    now rewrite completes_map_run.
  - intros Hmode. rewrite mlpackMain_run, (one_mode_decide c Hmode).
    destruct (hyperparameters_ok c); [|exact Htwice].
    rewrite prefix_fst, ignored_count_app, Htwice.
    rewrite (ignored_count_work _ _ (proj1 (work_holds c))). lia.
Qed.

(** *** The serialized model *)

Lemma test_same (m m' : DecisionTreeModel) (c : CLI) :
  info m' = info m ->
  (forall data, Classify (tree m') data = Classify (tree m) data) ->
  test m' c = test m c.
Proof.
  intros Hinfo Hsame.
  assert (tested m' c = tested m c) as Htested
    by (unfold tested; now rewrite Hinfo, Hsame).
  destruct (decide ("test_labels" ∈ passed c)) as [Hyes|Hno].
  - destruct (le_lt_dec (n_cols (cli_test c).2) (length (cli_test_labels c)))
      as [Hl|Hl].
    + now rewrite !test_scored, Htested, Hsame by assumption.
    + now rewrite !test_short, Hinfo by assumption.
  - now rewrite !test_unscored, Htested by assumption.
Qed.

(** C6: a model written to an archive and read back from it classifies as
    the model that was written: on every test set, the test pass with the
    model read back gives the predictions and probabilities of the test pass
    with the original. *)
Theorem serialize_roundtrip (m blank : DecisionTreeModel) :
  exists stream restored,
    serialize (Saving []) m = Some (Saving stream, m) /\
    serialize (Loading stream) blank = Some (Loading [], restored) /\
    info restored = info m /\
    (forall data,
       Classify (tree restored) data = Classify (tree m) data) /\
    (forall c, test restored c = test m c) /\
    (forall c,
       cli_predictions (tested restored c) = cli_predictions (tested m c) /\
       cli_probabilities (tested restored c)
       = cli_probabilities (tested m c)).
Proof.
  destruct (tree_roundtrip (tree m) (info_save (info m))) as (t' & Hload & Hsame).
  exists (tree_save (tree m) ++ info_save (info m)),
    {| tree := t'; info := info m |}.
  split; [|split; [|split; [|split; [|split]]]].
  - unfold serialize. cbn. now destruct m.
  - pose proof (info_roundtrip (info m) []) as Hinfo.
    rewrite app_nil_r in Hinfo.
    unfold serialize, amp_tree. rewrite Hload.
    unfold amp_info. now rewrite Hinfo.
  - reflexivity.
  - exact Hsame.
  - intros c. now apply test_same.
  - intros c. unfold tested. cbn. now rewrite Hsame.
Qed.


(** *** The shape of a training run *)


Lemma notice_quiet (c : CLI) :
  Forall (fun e => is_train_call e = false) (notice c).
Proof. unfold notice. destruct (bool_decide _); repeat constructor. Qed.

Lemma ignored_warnings_quiet (c : CLI) :
  Forall (fun e => is_train_call e = false) (ignored_warnings c).
Proof.
  eapply Forall_impl; [apply ignored_warnings_Warn|].
  now intros e [m ->].
Qed.

Lemma train_report_calls (x : DecisionTree * (mat * list Z) * DatasetInfo)
    (c : CLI) :
  holds (fun e => is_train_call e = false) (fun _ => True) (fun _ _ => True)
    (train_report x c) c.
Proof.
  unfold train_report, report_training_error, report_accuracy.
  holds_run (fun _ : CLI => I) (fun (_ _ _ : CLI) (_ _ : True) => I); auto.
Qed.

Lemma finish_calls (tested : bool) (model : DecisionTreeModel) (c : CLI) :
  holds (fun e => is_train_call e = false) (fun _ => True) (fun _ _ => True)
    (finish tested model c) c.
Proof.
  unfold finish, test, report_accuracy.
  holds_run (fun _ : CLI => I) (fun (_ _ _ : CLI) (_ _ : True) => I); auto.
Qed.

Lemma work_finish (c : CLI) :
  work c
  = bind (model_of c) (finish (bool_decide ("test" ∈ passed c))) c.
Proof. apply work_run. Qed.

(** Where the training call sits in the log of a run. *)
Lemma mlpackMain_call_shape (c : CLI) :
  exists before calls after,
    (mlpackMain c).1 = before ++ calls ++ after /\
    Forall (fun e => is_train_call e = false) before /\
    Forall (fun e => is_train_call e = false) after /\
    (calls = [] \/
     (("training" ∈ passed c) /\ hyperparameters_ok c = true /\
      exists r m,
        resolve_labels (cli_training c).2 c
        = (notice c, Done r (labels_taken c)) /\
        arma_max r.2 = inr m /\
        calls = [training_call c r.1 r.2 (size_t_add m 1)])) /\
    (("training" ∉ passed c) -> calls = []) /\
    (completes (mlpackMain c) = true -> ("training" ∈ passed c) ->
     calls <> []).
Proof.
  rewrite mlpackMain_run.
  destruct (bool_decide (_ <> _));
    [|exists [], [], []; cbn; auto 10].
  destruct (hyperparameters_ok c) eqn:Hhyper;
    [|exists (ignored_warnings c), [], []; cbn; rewrite app_nil_r;
      auto 10 using ignored_warnings_quiet].
  rewrite work_finish. unfold model_of.
  destruct (decide ("training" ∈ passed c)) as [Htraining|Hload].
  - rewrite (bool_decide_true _ Htraining).
    pose proof (train_split c) as Hsplit.
    destruct (train_tree_cases c)
      as [(e & Htree & _ & _)|(r & m & Hres & Hmax & Htree)].
    + rewrite (bind_Abort _ _ _ _ _ _ Htree) in Hsplit.
      rewrite (bind_Abort _ _ _ _ _ _ Hsplit).
      exists (ignored_warnings c ++ notice c), [], []. cbn.
      rewrite !app_nil_r. split; [reflexivity|].
      split; [apply Forall_app; auto using ignored_warnings_quiet,
                notice_quiet|].
      split; [constructor|]. split; [now left|]. split; [auto|discriminate].
    + destruct (DecisionTree_train _ _ _ _ _ _ _) as [t|].
      * rewrite (bind_Done _ _ _ _ _ _ Htree) in Hsplit.
        destruct (train_report_calls (t, r, (cli_training c).1) (trained c))
          as [Hrep _].
        destruct (train_report (t, r, (cli_training c).1) (trained c))
          as [rep [model c1|e c1]] eqn:Hreport.
        -- unfold prefix in Hsplit. cbn [fst snd] in Hsplit, Hrep.
           pose proof (train_Done _ _ _ _ Hsplit) as ->.
           rewrite (bind_Done _ _ _ _ _ _ Hsplit).
           destruct (finish_calls (bool_decide ("test" ∈ passed c)) model
                       (trained c)) as [Hfin _].
           exists (ignored_warnings c ++ notice c),
             [training_call c r.1 r.2 (size_t_add m 1)],
             (rep ++ (finish (bool_decide ("test" ∈ passed c)) model
                        (trained c)).1).
           unfold prefix. cbn [fst snd]. rewrite <- !app_assoc.
           split; [reflexivity|].
           split; [apply Forall_app; auto using ignored_warnings_quiet,
                     notice_quiet|].
           split; [apply Forall_app; auto|].
           split; [right; eauto 10|]. split; [contradiction|discriminate].
        -- unfold prefix in Hsplit. cbn [fst snd] in Hsplit, Hrep.
           rewrite (bind_Abort _ _ _ _ _ _ Hsplit).
           exists (ignored_warnings c ++ notice c),
             [training_call c r.1 r.2 (size_t_add m 1)], rep.
           unfold prefix. cbn [fst snd]. rewrite <- !app_assoc.
           split; [reflexivity|].
           split; [apply Forall_app; auto using ignored_warnings_quiet,
                     notice_quiet|].
           split; [assumption|].
           split; [right; eauto 10|]. split; [contradiction|discriminate].
      * rewrite (bind_Abort _ _ _ _ _ _ Htree) in Hsplit.
        rewrite (bind_Abort _ _ _ _ _ _ Hsplit).
        exists (ignored_warnings c ++ notice c),
          [training_call c r.1 r.2 (size_t_add m 1)], [].
        unfold prefix. cbn [fst snd]. rewrite <- !app_assoc.
        split; [reflexivity|].
        split; [apply Forall_app; auto using ignored_warnings_quiet,
                  notice_quiet|].
        split; [constructor|].
        split; [right; eauto 10|]. split; [contradiction|discriminate].
  - rewrite (bool_decide_false _ Hload), bind_GetParam.
    destruct (finish_calls (bool_decide ("test" ∈ passed c))
                (cli_input_model c) c) as [Hfin _].
    exists (ignored_warnings c), [],
      (finish (bool_decide ("test" ∈ passed c)) (cli_input_model c) c).1.
    unfold prefix. cbn [fst snd app].
    split; [reflexivity|]. split; [apply ignored_warnings_quiet|].
    split; [assumption|]. split; [now left|]. split; [auto|].
    intros _ Htraining. contradiction.
Qed.


Lemma train_calls_app (ev1 ev2 : list Event) :
  train_calls (ev1 ++ ev2) = (train_calls ev1 + train_calls ev2)%nat.
Proof. unfold train_calls. now rewrite List.filter_app, length_app. Qed.

Lemma train_calls_quiet (events : list Event) :
  Forall (fun e => is_train_call e = false) events ->
  train_calls events = 0%nat.
Proof.
  induction 1 as [|e events He _ IH]; [reflexivity|].
  unfold train_calls in *. cbn [List.filter]. now rewrite He.
Qed.

Lemma quiet_not_call (events : list Event) (e : Event) :
  Forall (fun e => is_train_call e = false) events ->
  e ∈ events -> is_train_call e = false.
Proof. rewrite Forall_forall. auto. Qed.

(** X1: whatever the run, a call of the tree constructor gets the dataset
    description of the training parameter, the weights parameter exactly
    when [weights] was passed and no weights otherwise, and the two
    hyperparameters as they were passed: the leaf size has been checked to be
    positive before it is cast to [size_t], so the cast does not change
    it. *)
Theorem training_call_arguments (c : CLI) :
  cli_minimum_leaf_size c < size_t_modulus ->
  forall data datasetInfo labels numClasses weights minLeafSize
         minimumGainSplit,
    CallTrain data datasetInfo labels numClasses weights minLeafSize
      minimumGainSplit ∈ (mlpackMain c).1 ->
    datasetInfo = (cli_training c).1 /\
    (("weights" ∈ passed c) -> weights = Some (cli_weights c)) /\
    (("weights" ∉ passed c) -> weights = None) /\
    minLeafSize = cli_minimum_leaf_size c /\ 0 < minLeafSize /\
    minimumGainSplit = cli_minimum_gain_split c /\
    PrimFloat.ltb 0 minimumGainSplit = true /\
    PrimFloat.ltb minimumGainSplit 1 = true.
Proof.
  intros Hint data datasetInfo labels numClasses weights minLeafSize
    minimumGainSplit Hin.
  destruct (mlpackMain_call_shape c)
    as (before & calls & after & Hev & Hbefore & Hafter & Hcalls & _).
  rewrite Hev in Hin.
  apply elem_of_app in Hin as [Hin|Hin];
    [now apply (quiet_not_call _ _ Hbefore) in Hin|].
  apply elem_of_app in Hin as [Hin|Hin];
    [|now apply (quiet_not_call _ _ Hafter) in Hin].
  destruct Hcalls as [->|(_ & Hhyper & r & m & _ & _ & ->)];
    [now apply elem_of_nil in Hin|].
  apply list_elem_of_singleton in Hin. unfold training_call in Hin.
  injection Hin as -> -> -> -> -> -> ->.
  apply hyperparameters_ok_valid in Hhyper as (Hleaf & Hlow & Hhigh).
  unfold weights_argument. split; [reflexivity|].
  split; [intros Hw; now rewrite (bool_decide_true _ Hw)|].
  split; [intros Hw; now rewrite (bool_decide_false _ Hw)|].
  rewrite to_size_t_small by lia. auto.
Qed.

(** X2: a run calls the tree constructor at most once; it does not call it
    when no training set was passed, and a run with a training set that
    completes has called it exactly once. *)
Theorem training_calls_count (c : CLI) :
  (train_calls (mlpackMain c).1 <= 1)%nat /\
  (("training" ∉ passed c) -> train_calls (mlpackMain c).1 = 0%nat) /\
  (("training" ∈ passed c) -> completes (mlpackMain c) = true ->
   train_calls (mlpackMain c).1 = 1%nat).
Proof.
  destruct (mlpackMain_call_shape c)
    as (before & calls & after & -> & Hbefore & Hafter & Hcalls & Hload
        & Hdone).
  rewrite !train_calls_app, (train_calls_quiet _ Hbefore),
    (train_calls_quiet _ Hafter).
  split; [|split].
  - destruct Hcalls as [->|(_ & _ & r & m & _ & _ & ->)]; cbn; lia.
  - intros Hno. now rewrite (Hload Hno).
  - intros Hyes Hcomplete. specialize (Hdone Hcomplete Hyes).
    destruct Hcalls as [->|(_ & _ & r & m & _ & _ & ->)];
      [contradiction|reflexivity].
Qed.

(** X3: the class count of a training call covers every label: when the
    labels are [size_t] values below [2^64 - 1], each of them lies between 0
    and the class count minus one, as the program's description asks. *)
Theorem labels_below_class_count (c : CLI) :
  forall data datasetInfo labels numClasses weights minLeafSize
         minimumGainSplit,
    CallTrain data datasetInfo labels numClasses weights minLeafSize
      minimumGainSplit ∈ (mlpackMain c).1 ->
    Forall (fun l => 0 <= l < 2 ^ 64 - 1) labels ->
    0 < numClasses /\ Forall (fun l => 0 <= l <= numClasses - 1) labels.
Proof.
  intros data datasetInfo labels numClasses weights minLeafSize
    minimumGainSplit Hin Hrange.
  destruct (mlpackMain_train_calls c _ Hin) as [[m Hm]|(m & Hmax & ->)];
    [discriminate|].
  assert (labels <> []) as Hne by (intros ->; discriminate).
  destruct (arma_max_nonempty labels Hne) as (m' & Hmax' & Hin' & Hle).
  assert (m' = m) as -> by congruence.
  rewrite Forall_forall in Hrange. pose proof (Hrange m Hin') as Hm.
  rewrite size_t_add_succ by (unfold size_t_modulus; lia).
  split; [lia|]. rewrite Forall_forall in Hle. apply Forall_forall.
  intros l Hl. pose proof (Hrange l Hl). pose proof (Hle l Hl). lia.
Qed.


(** *** How a run ends *)

Lemma test_stops (model : DecisionTreeModel) (c c' : CLI) (ev : list Event)
    (e : Error) :
  test model c = (ev, Abort e c') ->
  c' = take_test_labels (set_test_info (info model) c) /\
  ("test_labels" ∈ passed c) /\
  (length (cli_test_labels c) < n_cols (cli_test c).2)%nat /\
  e = OutOfBounds "labels" (Z.of_nat (length (cli_test_labels c))).
Proof.
  destruct (decide ("test_labels" ∈ passed c)) as [Hyes|Hno].
  - destruct (le_lt_dec (n_cols (cli_test c).2) (length (cli_test_labels c)))
      as [Hl|Hl].
    + rewrite test_scored by assumption. discriminate.
    + rewrite test_short by assumption. intros Heq. inversion Heq. auto.
  - rewrite test_unscored by assumption. discriminate.
Qed.

Lemma finish_Done (with_test : bool) (model : DecisionTreeModel) (c c' : CLI)
    (ev : list Event) :
  finish with_test model c = (ev, Done tt c') ->
  c' = set_output_model model (if with_test then tested model c else c).
Proof.
  unfold finish. destruct with_test.
  - destruct (test model c) as [ev1 [[] c1|e c1]] eqn:Htest.
    + rewrite (bind_Done _ _ _ _ _ _ Htest). apply test_Done in Htest as ->.
      unfold prefix. cbn. now intros [= _ <-].
    + rewrite (bind_Abort _ _ _ _ _ _ Htest). discriminate.
  - autorewrite with run. now intros [= _ <-].
Qed.

Lemma finish_Abort (with_test : bool) (model : DecisionTreeModel)
    (c c' : CLI) (ev : list Event) (e : Error) :
  finish with_test model c = (ev, Abort e c') ->
  with_test = true /\
  c' = take_test_labels (set_test_info (info model) c) /\
  ("test_labels" ∈ passed c) /\
  (length (cli_test_labels c) < n_cols (cli_test c).2)%nat /\
  e = OutOfBounds "labels" (Z.of_nat (length (cli_test_labels c))).
Proof.
  unfold finish. destruct with_test.
  - destruct (test model c) as [ev1 [[] c1|e1 c1]] eqn:Htest.
    + rewrite (bind_Done _ _ _ _ _ _ Htest). discriminate.
    + rewrite (bind_Abort _ _ _ _ _ _ Htest). intros [= _ <- <-].
      split; [reflexivity|]. now apply test_stops in Htest.
  - autorewrite with run. discriminate.
Qed.

Lemma finish_completes (with_test : bool) (model : DecisionTreeModel)
    (c : CLI) :
  (with_test = true -> ("test_labels" ∈ passed c) ->
   (n_cols (cli_test c).2 <= length (cli_test_labels c))%nat) ->
  exists ev,
    finish with_test model c
    = (ev, Done tt (set_output_model model
                      (if with_test then tested model c else c))).
Proof.
  intros Hreach. destruct (finish with_test model c) as [ev [[] c'|e c']]
    eqn:Hrun.
  - exists ev. now rewrite (finish_Done _ _ _ _ _ Hrun).
  - apply finish_Abort in Hrun as (Hb & _ & Hyes & Hshort & _).
    specialize (Hreach Hb Hyes). lia.
Qed.

(** X4: a run without a training set hands the loaded model on as it is.
    With valid hyperparameters, and test labels, if any, that reach as far
    as the test set has columns, the run completes, the output model is the
    input model, and the only other parameters that change are those of the
    test pass: the dataset description of the test set, the two outputs,
    and the test labels, which are moved out of their parameter.  The
    training set, the labels and the weights are not touched. *)
Theorem loaded_model_passes_through (c : CLI) :
  "training" ∉ passed c ->
  "input_model" ∈ passed c ->
  valid_hyperparameters c ->
  (("test" ∈ passed c) -> ("test_labels" ∈ passed c) ->
   (n_cols (cli_test c).2 <= length (cli_test_labels c))%nat) ->
  exists ev,
    mlpackMain c
    = (ev, Done tt (set_output_model (cli_input_model c)
                      (if bool_decide ("test" ∈ passed c)
                       then tested (cli_input_model c) c else c))) /\
    cli_output_model (final (mlpackMain c)) = Some (cli_input_model c) /\
    cli_input_model (final (mlpackMain c)) = cli_input_model c /\
    cli_test_labels (final (mlpackMain c))
    = (if bool_decide ("test" ∈ passed c)
          && bool_decide ("test_labels" ∈ passed c)
       then moved_row (cli_test_labels c) else cli_test_labels c) /\
    cli_training (final (mlpackMain c)) = cli_training c /\
    cli_labels (final (mlpackMain c)) = cli_labels c /\
    cli_weights (final (mlpackMain c)) = cli_weights c.
Proof.
  intros Hload Hmodel Hvalid%hyperparameters_ok_valid Hreach.
  rewrite mlpackMain_run, (one_mode_decide c (or_intror (conj Hload Hmodel))).
  rewrite Hvalid, work_finish. unfold model_of.
  rewrite (bool_decide_false _ Hload), bind_GetParam.
  destruct (finish_completes (bool_decide ("test" ∈ passed c))
              (cli_input_model c) c) as [ev Hrun].
  { intros Htest%bool_decide_eq_true. auto. }
  rewrite Hrun. exists (ignored_warnings c ++ ev).
  unfold prefix, final. cbn [fst snd].
  split; [reflexivity|].
  destruct (bool_decide ("test" ∈ passed c)); registry_goal;
    repeat split; reflexivity.
Qed.

(** X5: a run with a training set that completes leaves as output model the
    tree that the constructor returned for the resolved matrix and labels,
    together with the dataset description of the training parameter. *)
Theorem trained_model_is_output (c c' : CLI) (ev : list Event) :
  "training" ∈ passed c ->
  mlpackMain c = (ev, Done tt c') ->
  exists r m t,
    resolve_labels (cli_training c).2 c
    = (notice c, Done r (labels_taken c)) /\
    arma_max r.2 = inr m /\
    DecisionTree_train r.1 (cli_training c).1 r.2 (size_t_add m 1)
      (weights_argument c) (to_size_t (cli_minimum_leaf_size c))
      (cli_minimum_gain_split c) = Some t /\
    cli_output_model c' = Some {| tree := t; info := (cli_training c).1 |}.
Proof.
  intros Htraining. rewrite mlpackMain_run.
  destruct (bool_decide (_ <> _)); [|discriminate].
  destruct (hyperparameters_ok c); [|discriminate].
  rewrite work_finish. unfold model_of.
  rewrite (bool_decide_true _ Htraining).
  destruct (train c) as [ev1 [model c1|e c1]] eqn:Hrun.
  - destruct (train_Done_model _ _ _ _ Hrun)
      as (r & m & t & Hres & Hmax & Htrain & ->).
    rewrite (bind_Done _ _ _ _ _ _ Hrun).
    destruct (finish _ _ c1) as [ev2 [[] c2|e c2]] eqn:Hfin;
      [|discriminate].
    apply finish_Done in Hfin as ->. unfold prefix. cbn [fst snd].
    intros [= _ <-]. exists r, m, t. auto.
  - rewrite (bind_Abort _ _ _ _ _ _ Hrun). discriminate.
Qed.


(** Every way the work after the checks can end, with the registry it
    leaves. *)
Lemma work_ends (c : CLI) :
  (("training" ∈ passed c) /\ completes (work c) = false /\
   (final (work c) = resolved c \/ final (work c) = trained c)) \/
  exists model,
    (model_of c c).2
    = Done model (if bool_decide ("training" ∈ passed c) then trained c
                  else c) /\
    ((("test" ∈ passed c) /\ ("test_labels" ∈ passed c) /\
      completes (work c) = false /\
      final (work c)
      = take_test_labels
          (set_test_info (info model)
             (if bool_decide ("training" ∈ passed c) then trained c
              else c))) \/
     (completes (work c) = true /\
      final (work c)
      = set_output_model model
          (if bool_decide ("test" ∈ passed c)
           then tested model
                  (if bool_decide ("training" ∈ passed c) then trained c
                   else c)
           else if bool_decide ("training" ∈ passed c) then trained c
                else c))).
Proof.
  rewrite work_finish. unfold final, completes.
  destruct (model_of c c) as [ev1 [model c1|e1 c1]] eqn:Hmodel.
  - pose proof (model_of_Done _ _ _ _ Hmodel) as ->.
    set (c1 := if bool_decide ("training" ∈ passed c) then trained c else c)
      in *.
    assert (passed c1 = passed c) as Hpassed
      by (unfold c1; now destruct (bool_decide _)).
    rewrite (bind_Done _ _ _ _ _ _ Hmodel), prefix_snd. right. exists model.
    split; [reflexivity|].
    destruct (finish _ model c1) as [ev2 [[] c2|e2 c2]] eqn:Hfin; cbn [snd].
    + right. apply finish_Done in Hfin as ->. auto.
    + left. apply finish_Abort in Hfin
        as (Htest%bool_decide_eq_true & -> & Hlabels & _).
      rewrite Hpassed in Hlabels. auto.
  - rewrite (bind_Abort _ _ _ _ _ _ Hmodel). cbn [snd]. left.
    apply model_of_Abort in Hmodel. tauto.
Qed.

(** X6: a run that fails has assigned none of the three output parameters:
    predictions, probabilities and output model are as they were.  It leaves
    the registry it started with when a check failed; the registry with the
    training set and the labels moved out, and after the call of the
    constructor the weights too, when the training failed; and when the test
    pass failed, the registry the model was obtained with, the dataset
    description of the test parameter replaced and the test labels moved
    out.  A run that completes has assigned the output model. *)
Theorem failed_run_writes_no_output (c : CLI) :
  (forall e c',
     (mlpackMain c).2 = Abort e c' ->
     outputs c' = outputs c /\
     (c' = c \/
      (("training" ∈ passed c) /\ (c' = resolved c \/ c' = trained c)) \/
      (("test" ∈ passed c) /\ ("test_labels" ∈ passed c) /\
       exists model,
         c' = take_test_labels
                (set_test_info (info model)
                   (if bool_decide ("training" ∈ passed c) then trained c
                    else c))))) /\
  (forall c',
     (mlpackMain c).2 = Done tt c' ->
     exists model, cli_output_model c' = Some model).
Proof.
  rewrite mlpackMain_run.
  destruct (bool_decide (_ <> _));
    [|split; [intros e c' [= _ <-]; auto|discriminate]].
  destruct (hyperparameters_ok c);
    [|split; [intros e c' [= _ <-]; auto|discriminate]].
  rewrite prefix_snd.
  destruct (work_ends c)
    as [(Htraining & Hstop & Hfinal)
       |(model & _ & [(Htest & Hlabels & Hstop & Hfinal)|(Hdone & Hfinal)])];
    unfold final, completes in *; destruct ((work c).2) as [[] c1|e1 c1];
    try discriminate.
  - split; [|discriminate]. intros e c' [= _ <-]. split.
    + destruct Hfinal as [-> | ->]; reflexivity.
    + auto.
  - split; [|discriminate]. intros e c' [= _ <-]. subst c1. split.
    + now destruct (bool_decide ("training" ∈ passed c)).
    + right. right. eauto.
  - split; [discriminate|]. intros c' [= <-]. subst c1. eauto.
Qed.

(** X7: when the tree constructor fails, the run ends with that error right
    after the call: nothing is classified, no report is printed and no
    output parameter is assigned.  The training set, the labels and the
    weights have been moved out of their parameters by then. *)
Theorem constructor_failure_ends_run (c : CLI) (r : mat * list Z) (m : Z) :
  one_mode c ->
  "training" ∈ passed c ->
  valid_hyperparameters c ->
  resolve_labels (cli_training c).2 c
  = (notice c, Done r (labels_taken c)) ->
  arma_max r.2 = inr m ->
  DecisionTree_train r.1 (cli_training c).1 r.2 (size_t_add m 1)
    (weights_argument c) (to_size_t (cli_minimum_leaf_size c))
    (cli_minimum_gain_split c) = None ->
  mlpackMain c
  = (ignored_warnings c ++ notice c
       ++ [training_call c r.1 r.2 (size_t_add m 1)],
     Abort ClassifierError (trained c)) /\
  outputs (trained c) = outputs c.
Proof.
  intros Hmode Htraining Hvalid%hyperparameters_ok_valid Hres Hmax Hnone.
  split; [|reflexivity].
  rewrite mlpackMain_run, (one_mode_decide c Hmode), Hvalid, work_finish.
  unfold model_of. rewrite (bool_decide_true _ Htraining).
  pose proof (train_tree_resolved c r m Hres Hmax) as Htree.
  rewrite Hnone in Htree. pose proof (train_split c) as Hsplit.
  rewrite (bind_Abort _ _ _ _ _ _ Htree) in Hsplit.
  now rewrite (bind_Abort _ _ _ _ _ _ Hsplit).
Qed.

(** X8: with no label at all, be it an empty [labels] parameter or a
    training matrix without columns, the run ends at [arma::max] before any
    call of the tree constructor.  The training set (and the labels, when
    they were passed) have been moved out of their parameters by then; the
    weights have not. *)
Theorem empty_labels_end_run (c : CLI) (r : mat * list Z) :
  one_mode c ->
  "training" ∈ passed c ->
  valid_hyperparameters c ->
  resolve_labels (cli_training c).2 c
  = (notice c, Done r (labels_taken c)) ->
  r.2 = [] ->
  mlpackMain c
  = (ignored_warnings c ++ notice c,
     Abort (NoElements "max()") (resolved c)) /\
  cli_weights (resolved c) = cli_weights c /\
  outputs (resolved c) = outputs c.
Proof.
  intros Hmode Htraining Hvalid%hyperparameters_ok_valid Hres Hempty.
  split; [|split; reflexivity].
  rewrite mlpackMain_run, (one_mode_decide c Hmode), Hvalid, work_finish.
  unfold model_of. rewrite (bool_decide_true _ Htraining).
  assert (train_tree c = (notice c, Abort (NoElements "max()") (resolved c)))
    as Htree.
  { unfold train_tree. autorewrite with run.
    rewrite training_taken_moves.
    change (cli_training (take_training_info c)).2 with (cli_training c).2.
    pose proof (resolve_labels_after_training (cli_training c).2 c)
      as Hmoved.
    rewrite Hres in Hmoved. cbn [map_run map_outcome fst snd] in Hmoved.
    rewrite (bind_Done _ _ _ _ _ _ Hmoved), Hempty. cbn [arma_max].
    autorewrite with run. now rewrite app_nil_r. }
  pose proof (train_split c) as Hsplit.
  rewrite (bind_Abort _ _ _ _ _ _ Htree) in Hsplit.
  now rewrite (bind_Abort _ _ _ _ _ _ Hsplit).
Qed.


(** *** What the counting loop counts *)

Lemma count_matches_cons (p l : Z) (predictions labels : list Z) :
  count_matches (p :: predictions) (l :: labels)
  = ((if bool_decide (p = l) then 1 else 0)
     + count_matches predictions labels)%nat.
Proof.
  unfold count_matches. cbn [zip zip_with]. rewrite filter_cons. cbn [fst snd].
  destruct (decide (p = l)) as [Heq|Hne].
  - now rewrite (bool_decide_true _ Heq).
  - now rewrite (bool_decide_false _ Hne).
Qed.

Lemma count_matches_all (predictions : list Z) :
  forall labels,
    length predictions = length labels ->
    count_matches predictions labels = length predictions <->
    predictions = labels.
Proof.
  induction predictions as [|p predictions IH]; intros [|l labels] Hlen;
    try discriminate.
  - split; reflexivity.
  - rewrite count_matches_cons. cbn [length] in *.
    pose proof (count_matches_le predictions labels) as Hle.
    destruct (decide (p = l)) as [->|Hne].
    + rewrite (bool_decide_true _ eq_refl). split.
      * intros Hc. f_equal. apply IH; lia.
      * intros [= Heq]. apply (IH labels) in Heq; lia.
    + rewrite (bool_decide_false _ Hne).
      split; [lia|]. intros [= Heq _]. contradiction.
Qed.

Lemma accuracy_loop_take (predictions labels : list Z) (n todo : nat) :
  forall (i : nat) (correct : Z),
    (i + todo <= n)%nat ->
    accuracy_loop predictions (take n labels) todo i correct
    = accuracy_loop predictions labels todo i correct.
Proof.
  induction todo as [|todo IH]; intros i correct Hn; [reflexivity|].
  cbn [accuracy_loop]. rewrite lookup_take_lt by lia.
  destruct (predictions !! i); [|reflexivity].
  destruct (labels !! i); [|reflexivity]. apply IH. lia.
Qed.

(** X9: when both vectors reach as far as the dataset has columns, the
    count of the loop lies between 0 and the number of columns, and it is the
    number of columns, a report of 100 percent, exactly when every
    prediction equals its label. *)
Theorem accuracy_count_bounds (predictions labels : list Z) (n : nat) :
  (n <= length predictions)%nat ->
  (n <= length labels)%nat ->
  Z.of_nat n < size_t_modulus ->
  exists correct,
    accuracy_loop predictions labels n 0 0 = inr correct /\
    0 <= correct <= Z.of_nat n /\
    (correct = Z.of_nat n <-> take n predictions = take n labels).
Proof.
  intros Hp Hl Hfit. eexists. split.
  - change 0 with (to_size_t 0) at 1.
    rewrite accuracy_loop_counts by (simpl; lia).
    now rewrite !drop_0, Z.add_0_l, count_matches_fits.
  - pose proof (count_matches_le (take n predictions) (take n labels)) as Hle.
    rewrite length_take in Hle. split; [lia|].
    rewrite <- (count_matches_all (take n predictions) (take n labels))
      by (rewrite !length_take; lia).
    rewrite length_take. lia.
Qed.

(** X10: the loop never reads a label past the last column: labels that
    follow the first [n_cols] ones change neither the count nor the report,
    and no warning is given for them. *)
Theorem surplus_labels_are_not_read (dataset : string) (data : mat)
    (predictions labels surplus : list Z) (c : CLI) :
  (n_cols data <= length labels)%nat ->
  accuracy_loop predictions (labels ++ surplus) (n_cols data) 0 0
  = accuracy_loop predictions labels (n_cols data) 0 0 /\
  report_accuracy dataset data predictions (labels ++ surplus) c
  = report_accuracy dataset data predictions labels c.
Proof.
  intros Hl.
  assert (accuracy_loop predictions (labels ++ surplus) (n_cols data) 0 0
          = accuracy_loop predictions labels (n_cols data) 0 0) as Hloop.
  { rewrite <- (accuracy_loop_take _ (labels ++ surplus) (n_cols data))
      by (simpl; lia).
    rewrite <- (accuracy_loop_take _ labels (n_cols data)) by (simpl; lia).
    now rewrite take_app_le. }
  split; [exact Hloop|]. unfold report_accuracy. now rewrite Hloop.
Qed.


(** *** More than one model in an archive *)

Lemma serialize_saves (out : list Byte.byte) (m : DecisionTreeModel) :
  serialize (Saving out) m
  = Some (Saving (out ++ tree_save (tree m) ++ info_save (info m)), m).
Proof. unfold serialize. cbn. rewrite <- app_assoc. now destruct m. Qed.

Lemma serialize_loads (m blank : DecisionTreeModel) (rest : list Byte.byte) :
  exists restored,
    serialize (Loading (tree_save (tree m) ++ info_save (info m) ++ rest))
      blank
    = Some (Loading rest, restored) /\
    info restored = info m /\
    forall data, Classify (tree restored) data = Classify (tree m) data.
Proof.
  destruct (tree_roundtrip (tree m) (info_save (info m) ++ rest))
    as (t' & Hload & Hsame).
  exists {| tree := t'; info := info m |}. split; [|split; auto].
  unfold serialize, amp_tree. rewrite Hload.
  unfold amp_info. now rewrite info_roundtrip.
Qed.

(** X11: an archive takes models one after the other.  Saving appends the
    tree and then the dataset description to what the archive holds and
    leaves the model as it is; loading reads one model from the front,
    whatever the model it is read into held before, and leaves the rest of
    the stream for the next one, so two models saved in a row are read back
    in that order. *)
Theorem archive_keeps_models_in_order (m1 m2 blank1 blank2 : DecisionTreeModel)
    (out rest : list Byte.byte) :
  exists s1 s2 r1 r2,
    serialize (Saving out) m1 = Some (Saving (out ++ s1), m1) /\
    serialize (Saving (out ++ s1)) m2 = Some (Saving (out ++ s1 ++ s2), m2) /\
    serialize (Loading (s1 ++ s2 ++ rest)) blank1
    = Some (Loading (s2 ++ rest), r1) /\
    serialize (Loading (s2 ++ rest)) blank2 = Some (Loading rest, r2) /\
    info r1 = info m1 /\ info r2 = info m2 /\
    (forall data, Classify (tree r1) data = Classify (tree m1) data) /\
    (forall data, Classify (tree r2) data = Classify (tree m2) data) /\
    (forall other,
       serialize (Loading (s1 ++ s2 ++ rest)) other
       = serialize (Loading (s1 ++ s2 ++ rest)) blank1).
Proof.
  set (s1 := tree_save (tree m1) ++ info_save (info m1)).
  set (s2 := tree_save (tree m2) ++ info_save (info m2)).
  destruct (serialize_loads m1 blank1 (s2 ++ rest))
    as (r1 & Hload1 & Hinfo1 & Hsame1).
  destruct (serialize_loads m2 blank2 rest) as (r2 & Hload2 & Hinfo2 & Hsame2).
  exists s1, s2, r1, r2. unfold s1, s2 in *.
  rewrite <- !app_assoc in *.
  split; [apply serialize_saves|].
  split; [rewrite serialize_saves; now rewrite <- !app_assoc|].
  split; [exact Hload1|]. split; [exact Hload2|].
  repeat (split; [assumption|]).
  intros other. unfold serialize, amp_tree.
  destruct (tree_load _) as [[t' rest']|]; reflexivity.
Qed.


(** *** The notice about the labels *)

Lemma train_report_pass (x : DecisionTree * (mat * list Z) * DatasetInfo)
    (c : CLI) :
  holds pass_event (fun _ => True) (fun _ _ => True) (train_report x c) c.
Proof.
  unfold train_report, report_training_error, report_accuracy.
  holds_run (fun _ : CLI => I) (fun (_ _ _ : CLI) (_ _ : True) => I);
    simpl; auto.
Qed.

Lemma finish_pass (with_test : bool) (model : DecisionTreeModel) (c : CLI) :
  holds pass_event (fun _ => True) (fun _ _ => True)
    (finish with_test model c) c.
Proof.
  unfold finish, test, report_accuracy.
  holds_run (fun _ : CLI => I) (fun (_ _ _ : CLI) (_ _ : True) => I);
    simpl; auto.
Qed.

Lemma train_events_shape (c : CLI) :
  exists rest,
    (train c).1 = notice c ++ rest /\
    Forall (fun e => is_train_call e = true \/ pass_event e) rest.
Proof.
  pose proof (train_split c) as Hsplit.
  destruct (train_tree_cases c)
    as [(e & Htree & _ & Hempty)|(r & m & Hres & Hmax & Htree)].
  - rewrite (bind_Abort _ _ _ _ _ _ Htree) in Hsplit. rewrite Hsplit.
    exists []. cbn. rewrite app_nil_r. auto.
  - destruct (DecisionTree_train _ _ _ _ _ _ _) as [t|].
    + rewrite (bind_Done _ _ _ _ _ _ Htree) in Hsplit. rewrite Hsplit.
      destruct (train_report_pass (t, r, (cli_training c).1) (trained c))
        as [Hrep _].
      eexists. rewrite prefix_fst, <- app_assoc. split; [reflexivity|].
      constructor; [now left|].
      eapply Forall_impl; [exact Hrep|]. auto.
    + rewrite (bind_Abort _ _ _ _ _ _ Htree) in Hsplit. rewrite Hsplit.
      eexists. cbn [fst]. split; [reflexivity|]. repeat constructor.
Qed.

Lemma one_mode_of_decide (c : CLI) :
  bool_decide (bool_decide ("training" ∈ passed c)
               <> bool_decide ("input_model" ∈ passed c)) = true ->
  one_mode c.
Proof.
  intros Hne%bool_decide_eq_true. unfold one_mode.
  destruct (decide ("training" ∈ passed c)) as [Ht|Ht],
    (decide ("input_model" ∈ passed c)) as [Hi|Hi]; auto.
  - now rewrite !bool_decide_true in Hne.
  - now rewrite !bool_decide_false in Hne.
Qed.

(** X12: the log says that the last dimension is used as labels exactly in
    the runs that do so: those that pass the checks with a training set and
    without a [labels] parameter. *)
Theorem notice_exactly_when_labels_inferred (c : CLI) :
  Info MsgLastDimension ∈ (mlpackMain c).1 <->
  one_mode c /\ valid_hyperparameters c /\
  ("training" ∈ passed c) /\ ("labels" ∉ passed c).
Proof.
  rewrite mlpackMain_run, <- hyperparameters_ok_valid.
  pose proof (ignored_warnings_Warn c) as Hwarn.
  rewrite Forall_forall in Hwarn.
  destruct (bool_decide (_ <> _)) eqn:Hmode.
  2:{ split.
      - intros Hin. now apply elem_of_nil in Hin.
      - intros (Hone%one_mode_decide & _). congruence. }
  apply one_mode_of_decide in Hmode.
  destruct (hyperparameters_ok c).
  2:{ split.
      - intros Hin. cbn in Hin. now destruct (Hwarn _ Hin).
      - intros (_ & Hbad & _). discriminate. }
  rewrite prefix_fst, work_finish. unfold model_of.
  destruct (decide ("training" ∈ passed c)) as [Htraining|Hload].
  - rewrite (bool_decide_true _ Htraining).
    destruct (train_events_shape c) as (rest & Hev & Hrest).
    destruct (train c) as [ev [model c1|e c1]] eqn:Hrun; cbn [fst] in Hev;
      subst ev.
    + rewrite (bind_Done _ _ _ _ _ _ Hrun), prefix_fst.
      destruct (finish_pass (bool_decide ("test" ∈ passed c1)) model c1)
        as [Hfin _].
      rewrite Forall_forall in Hrest, Hfin. unfold notice.
      destruct (decide ("labels" ∈ passed c)) as [Hyes|Hno].
      * rewrite (bool_decide_true _ Hyes). split; [|tauto].
        intros [Hin|[[Hin|Hin]%elem_of_app|Hin]%elem_of_app]%elem_of_app.
        -- now destruct (Hwarn _ Hin).
        -- now apply elem_of_nil in Hin.
        -- now destruct (Hrest _ Hin).
        -- pose proof (train_Done _ _ _ _ Hrun) as ->.
           now specialize (Hfin _ Hin).
      * rewrite (bool_decide_false _ Hno). split; [tauto|]. intros _.
        apply elem_of_app. right. apply elem_of_app. left.
        apply elem_of_app. left. apply list_elem_of_here.
    + rewrite (bind_Abort _ _ _ _ _ _ Hrun). cbn [fst].
      rewrite Forall_forall in Hrest. unfold notice.
      destruct (decide ("labels" ∈ passed c)) as [Hyes|Hno].
      * rewrite (bool_decide_true _ Hyes). split; [|tauto].
        intros [Hin|[Hin|Hin]%elem_of_app]%elem_of_app.
        -- now destruct (Hwarn _ Hin).
        -- now apply elem_of_nil in Hin.
        -- now destruct (Hrest _ Hin).
      * rewrite (bool_decide_false _ Hno). split; [tauto|]. intros _.
        apply elem_of_app. right. apply elem_of_app. left.
        apply list_elem_of_here.
  - rewrite (bool_decide_false _ Hload), bind_GetParam.
    destruct (finish_pass (bool_decide ("test" ∈ passed c))
                (cli_input_model c) c) as [Hfin _].
    rewrite Forall_forall in Hfin. split; [|tauto].
    intros [Hin|Hin]%elem_of_app.
    + now destruct (Hwarn _ Hin).
    + now specialize (Hfin _ Hin).
Qed.


(** *** Calls of [Classify] *)

Lemma classify_calls_none (events : list Event) :
  Forall (fun e => is_classify_call e = false) events ->
  classify_calls events = 0%nat.
Proof.
  induction 1 as [|e events He _ IH]; [reflexivity|].
  unfold classify_calls in *. cbn [List.filter]. now rewrite He.
Qed.

Lemma notice_no_classify (c : CLI) :
  Forall (fun e => is_classify_call e = false) (notice c).
Proof. unfold notice. destruct (bool_decide _); repeat constructor. Qed.

Lemma ignored_warnings_no_classify (c : CLI) :
  Forall (fun e => is_classify_call e = false) (ignored_warnings c).
Proof.
  eapply Forall_impl; [apply ignored_warnings_Warn|].
  now intros e [m ->].
Qed.

Lemma train_without_report (c : CLI) :
  "print_training_error" ∉ passed c ->
  Forall (fun e => is_classify_call e = false) (train c).1.
Proof.
  intros Hflag. pose proof (train_split c) as Hsplit.
  pose proof (notice_no_classify c) as Hnotice.
  destruct (train_tree_cases c)
    as [(e & Htree & _ & Hempty)|(r & m & Hres & Hmax & Htree)].
  - rewrite (bind_Abort _ _ _ _ _ _ Htree) in Hsplit. now rewrite Hsplit.
  - destruct (DecisionTree_train _ _ _ _ _ _ _) as [t|].
    + rewrite (bind_Done _ _ _ _ _ _ Htree) in Hsplit.
      rewrite train_report_quiet in Hsplit by assumption.
      rewrite Hsplit. unfold prefix. cbn [fst]. rewrite app_nil_r.
      apply Forall_app. split; [assumption|repeat constructor].
    + rewrite (bind_Abort _ _ _ _ _ _ Htree) in Hsplit. rewrite Hsplit.
      cbn [fst]. apply Forall_app. split; [assumption|repeat constructor].
Qed.

(** X13: nothing is classified unless it was asked for: without a test set,
    and without [print_training_error] in a training run, the run makes no
    call of [Classify], however it ends. *)
Theorem no_classification_unless_asked (c : CLI) :
  "test" ∉ passed c ->
  ("print_training_error" ∉ passed c) \/ ("training" ∉ passed c) ->
  classify_calls (mlpackMain c).1 = 0%nat.
Proof.
  intros Htest Hquiet. apply classify_calls_none. rewrite mlpackMain_run.
  destruct (bool_decide (_ <> _)); [|constructor].
  destruct (hyperparameters_ok c); [|apply ignored_warnings_no_classify].
  rewrite prefix_fst. apply Forall_app.
  split; [apply ignored_warnings_no_classify|].
  rewrite work_finish, (bool_decide_false _ Htest). unfold model_of, finish.
  destruct (decide ("training" ∈ passed c)) as [Htraining|Hload].
  - rewrite (bool_decide_true _ Htraining).
    destruct Hquiet as [Hflag|Hno]; [|contradiction].
    pose proof (train_without_report c Hflag) as Htrain.
    destruct (train c) as [ev [model c1|e c1]] eqn:Hrun.
    + rewrite (bind_Done _ _ _ _ _ _ Hrun). autorewrite with run.
      unfold prefix, SetParam. cbn [fst] in *. now rewrite app_nil_r.
    + now rewrite (bind_Abort _ _ _ _ _ _ Hrun).
  - rewrite (bool_decide_false _ Hload). autorewrite with run. constructor.
Qed.

(** X14: the checks are made in the order of the program and end the run
    before any call into the tree library.  With exactly one mode and a leaf
    size that is not positive the run ends with the leaf-size error, whatever
    the gain split is; with a positive leaf size and a gain split outside
    (0, 1) it ends with the gain-split error.  In both cases the warnings
    have been printed, nothing else is in the log, and the registry is as it
    was. *)
Theorem hyperparameter_errors_in_order (c : CLI) :
  one_mode c ->
  (cli_minimum_leaf_size c <= 0 ->
   mlpackMain c
   = (ignored_warnings c,
      Abort (ConfigurationError
               (MsgParamValue "minimum_leaf_size"
                  "leaf size must be positive")) c)) /\
  (0 < cli_minimum_leaf_size c ->
   (PrimFloat.ltb 0 (cli_minimum_gain_split c)
    && PrimFloat.ltb (cli_minimum_gain_split c) 1)%bool = false ->
   mlpackMain c
   = (ignored_warnings c,
      Abort (ConfigurationError
               (MsgParamValue "minimum_gain_split"
                  "gain split must be a fraction in range [0,1]")) c)) /\
  (~ valid_hyperparameters c ->
   train_calls (mlpackMain c).1 = 0%nat /\
   classify_calls (mlpackMain c).1 = 0%nat).
Proof.
  intros Hmode. rewrite mlpackMain_run, (one_mode_decide c Hmode).
  unfold valid_hyperparameters, hyperparameters_ok. split; [|split].
  - intros Hleaf%Z.ltb_ge. now rewrite Hleaf.
  - intros Hleaf%Z.ltb_lt Hgain. now rewrite Hleaf, Hgain.
  - intros Hbad.
    assert ((0 <? cli_minimum_leaf_size c)
            && (PrimFloat.ltb 0 (cli_minimum_gain_split c)
                && PrimFloat.ltb (cli_minimum_gain_split c) 1) = false)
      as ->.
    { apply not_true_is_false. intros Hok. apply Hbad.
      now apply hyperparameters_ok_valid. }
    cbn [fst]. split.
    + apply train_calls_quiet, ignored_warnings_quiet.
    + apply classify_calls_none, ignored_warnings_no_classify.
Qed.


(** *** When a run completes *)

(** The training of the run succeeds: the labels are resolved and not
    empty, the constructor returns a tree, and the labels reach as far as
    the matrix has columns when the training error is to be printed. *)
Lemma train_completes (c : CLI) :
  completes (train c) = true <->
  exists r m t,
    resolve_labels (cli_training c).2 c
    = (notice c, Done r (labels_taken c)) /\
    arma_max r.2 = inr m /\
    DecisionTree_train r.1 (cli_training c).1 r.2 (size_t_add m 1)
      (weights_argument c) (to_size_t (cli_minimum_leaf_size c))
      (cli_minimum_gain_split c) = Some t /\
    (("print_training_error" ∈ passed c) ->
     (n_cols r.1 <= length r.2)%nat).
Proof.
  rewrite train_split.
  destruct (train_tree_cases c)
    as [(e & Htree & _ & Hempty)|(r & m & Hres & Hmax & Htree)].
  - rewrite (bind_Abort _ _ _ _ _ _ Htree). split; [discriminate|].
    intros (r & m & t & Hres & Hmax & Htrain & _). exfalso.
    rewrite (Hempty r Hres) in Hmax. discriminate.
  - destruct (DecisionTree_train _ _ _ _ _ _ _) as [t|] eqn:Htrain.
    + rewrite (bind_Done _ _ _ _ _ _ Htree), completes_prefix.
      destruct (decide ("print_training_error" ∈ passed c)) as [Hflag|Hflag].
      * destruct (le_lt_dec (n_cols r.1) (length r.2)) as [Hl|Hl].
        -- rewrite train_report_loud by assumption. split; [|reflexivity].
           intros _. exists r, m, t. auto.
        -- unfold train_report.
           rewrite bind_HasParam, (bool_decide_true _ Hflag).
           erewrite bind_Abort
             by (apply report_training_error_short; exact Hl).
           split; [discriminate|].
           intros (r' & m' & t' & Hres' & _ & _ & Hreach).
           assert (r' = r) as -> by congruence.
           specialize (Hreach Hflag). lia.
      * rewrite train_report_quiet by assumption. split; [|reflexivity].
        intros _. exists r, m, t. split; [assumption|].
        split; [assumption|]. split; [assumption|]. contradiction.
    + rewrite (bind_Abort _ _ _ _ _ _ Htree). split; [discriminate|].
      intros (r' & m' & t' & Hres' & Hmax' & Htrain' & _).
      assert (r' = r) as -> by congruence.
      assert (m' = m) as -> by congruence. congruence.
Qed.

(** X15: a run completes exactly when one mode was chosen, both
    hyperparameters are valid, the training (if any) succeeds, and the test
    labels (if a test set and test labels were passed) reach as far as the
    test set has columns. *)
Theorem run_completes_exactly_when (c : CLI) :
  completes (mlpackMain c) = true <->
  one_mode c /\ valid_hyperparameters c /\
  (("training" ∈ passed c) ->
   exists r m t,
     resolve_labels (cli_training c).2 c
    = (notice c, Done r (labels_taken c)) /\
     arma_max r.2 = inr m /\
     DecisionTree_train r.1 (cli_training c).1 r.2 (size_t_add m 1)
       (weights_argument c) (to_size_t (cli_minimum_leaf_size c))
       (cli_minimum_gain_split c) = Some t /\
     (("print_training_error" ∈ passed c) ->
      (n_cols r.1 <= length r.2)%nat)) /\
  (("test" ∈ passed c) -> ("test_labels" ∈ passed c) ->
   (n_cols (cli_test c).2 <= length (cli_test_labels c))%nat).
Proof.
  rewrite mlpackMain_run, <- hyperparameters_ok_valid.
  destruct (bool_decide (_ <> _)) eqn:Hmode.
  2:{ split; [discriminate|]. intros (Hone%one_mode_decide & _). congruence. }
  apply one_mode_of_decide in Hmode.
  destruct (hyperparameters_ok c).
  2:{ split; [discriminate|]. intros (_ & Hbad & _). discriminate. }
  rewrite completes_prefix, work_finish. unfold model_of.
  assert (forall model c0,
            passed c0 = passed c -> cli_test c0 = cli_test c ->
            cli_test_labels c0 = cli_test_labels c ->
            completes (finish (bool_decide ("test" ∈ passed c)) model c0)
            = true <->
            (("test" ∈ passed c) -> ("test_labels" ∈ passed c) ->
             (n_cols (cli_test c).2 <= length (cli_test_labels c))%nat))
    as Hfinish.
  { intros model c0 Hpassed Hpoints Hlabels. split.
    - intros Hdone Htest Hscored.
      destruct (le_lt_dec (n_cols (cli_test c).2)
                  (length (cli_test_labels c))) as [Hl|Hl]; [exact Hl|].
      unfold finish in Hdone. rewrite (bool_decide_true _ Htest) in Hdone.
      erewrite bind_Abort in Hdone
        by (apply test_short; rewrite ?Hpassed, ?Hpoints, ?Hlabels;
            assumption).
      discriminate.
    - intros Hreach.
      destruct (finish_completes (bool_decide ("test" ∈ passed c)) model c0)
        as [ev ->]; [|reflexivity].
      rewrite Hpassed, Hpoints, Hlabels.
      intros Htest%bool_decide_eq_true. auto. }
  destruct (decide ("training" ∈ passed c)) as [Htraining|Hload].
  - rewrite (bool_decide_true _ Htraining).
    pose proof (train_completes c) as Htrain.
    destruct (train c) as [ev [model c1|e c1]] eqn:Hrun.
    + pose proof (train_Done _ _ _ _ Hrun) as ->.
      rewrite (bind_Done _ _ _ _ _ _ Hrun), completes_prefix, Hfinish
        by reflexivity.
      assert (completes (ev, Done model (trained c)) = true) as Hdone
        by reflexivity.
      apply Htrain in Hdone. tauto.
    + rewrite (bind_Abort _ _ _ _ _ _ Hrun). split; [discriminate|].
      intros (_ & _ & Hok & _). apply Htrain in Hok; [discriminate|assumption].
  - rewrite (bool_decide_false _ Hload), bind_GetParam, Hfinish
      by reflexivity.
    tauto.
Qed.


(** *** The registry a run leaves *)

(** The registry a run ends with, by how it ends. *)
Lemma final_registry (c : CLI) :
  (final (mlpackMain c) = c /\ completes (mlpackMain c) = false /\
   ~ (one_mode c /\ valid_hyperparameters c)) \/
  (one_mode c /\ valid_hyperparameters c /\
   final (mlpackMain c) = final (work c) /\
   completes (mlpackMain c) = completes (work c)).
Proof.
  rewrite mlpackMain_run, <- hyperparameters_ok_valid.
  destruct (bool_decide (_ <> _)) eqn:Hmode.
  - apply one_mode_of_decide in Hmode. destruct (hyperparameters_ok c).
    + right. auto.
    + left. split; [reflexivity|]. split; [reflexivity|].
      intros [_ Hbad]. discriminate.
  - left. split; [reflexivity|]. split; [reflexivity|].
    intros [Hone%one_mode_decide _]. congruence.
Qed.

(** X16: a run changes its inputs by moving out of them, and not
    otherwise.  However it ends, the set of passed parameters, the test
    points, the two hyperparameters and the input model are what they were.
    The training set, the labels, the weights and the test labels are what
    they were or what the move leaves, and they are what they were when the
    parameter was not passed, when a check fails, and (the first three) when
    no training set was passed.  A run that passes the checks with a
    training set has moved out of [training], and out of [labels] if it was
    passed; a run that completes has moved out of [weights] if it trained
    with weights, and out of [test_labels] if it scored a test set. *)
Theorem inputs_change_by_moves_only (c : CLI) :
  let c' := final (mlpackMain c) in
  inputs c' = inputs c /\
  (cli_training c' = cli_training c \/
   cli_training c'
   = (moved_info (cli_training c).1, moved_mat (cli_training c).2)) /\
  (cli_labels c' = cli_labels c \/
   cli_labels c' = moved_row (cli_labels c)) /\
  (cli_weights c' = cli_weights c \/
   cli_weights c' = moved_into_row (cli_weights c)) /\
  (cli_test_labels c' = cli_test_labels c \/
   cli_test_labels c' = moved_row (cli_test_labels c)) /\
  (("training" ∉ passed c) \/ ~ (one_mode c /\ valid_hyperparameters c) ->
   cli_training c' = cli_training c /\ cli_labels c' = cli_labels c /\
   cli_weights c' = cli_weights c) /\
  (("labels" ∉ passed c) -> cli_labels c' = cli_labels c) /\
  (("weights" ∉ passed c) -> cli_weights c' = cli_weights c) /\
  (("test" ∉ passed c) \/ ("test_labels" ∉ passed c)
   \/ ~ (one_mode c /\ valid_hyperparameters c) ->
   cli_test_labels c' = cli_test_labels c) /\
  (one_mode c -> valid_hyperparameters c -> ("training" ∈ passed c) ->
   cli_training c'
   = (moved_info (cli_training c).1, moved_mat (cli_training c).2) /\
   (("labels" ∈ passed c) -> cli_labels c' = moved_row (cli_labels c))) /\
  (completes (mlpackMain c) = true ->
   (("training" ∈ passed c) -> ("weights" ∈ passed c) ->
    cli_weights c' = moved_into_row (cli_weights c)) /\
   (("test" ∈ passed c) -> ("test_labels" ∈ passed c) ->
    cli_test_labels c' = moved_row (cli_test_labels c))) /\
  (("test" ∉ passed c) ->
   cli_test c' = cli_test c /\ cli_predictions c' = cli_predictions c /\
   cli_probabilities c' = cli_probabilities c).
Proof.
  cbv zeta.
  destruct (final_registry c)
    as [(-> & Hstop & Hbad)|(Hmode & Hvalid & -> & ->)].
  { rewrite Hstop. repeat split; auto; try tauto;
      try match goal with H : false = true |- _ => discriminate H end. }
  destruct (work_ends c)
    as [(Htraining & -> & [-> | ->])
       |(model & _ & [(Htest & Hscored & -> & ->)|(-> & ->)])].
  - registry_goal. repeat case_bool_decide;
      repeat split; auto; try tauto;
      try match goal with H : false = true |- _ => discriminate H end.
  - registry_goal. repeat case_bool_decide;
      repeat split; auto; try tauto;
      try match goal with H : false = true |- _ => discriminate H end.
  - destruct (bool_decide ("training" ∈ passed c)) eqn:Htraining;
      [apply bool_decide_eq_true in Htraining
      |apply bool_decide_eq_false in Htraining];
      registry_goal; repeat case_bool_decide;
      repeat split; auto; try tauto;
      try match goal with H : false = true |- _ => discriminate H end.
  - destruct (bool_decide ("training" ∈ passed c)) eqn:Htraining;
      [apply bool_decide_eq_true in Htraining
      |apply bool_decide_eq_false in Htraining];
      (destruct (bool_decide ("test" ∈ passed c)) eqn:Htest;
       [apply bool_decide_eq_true in Htest
       |apply bool_decide_eq_false in Htest]);
      registry_goal; repeat case_bool_decide;
      repeat split; auto; try tauto;
      try match goal with H : false = true |- _ => discriminate H end.
Qed.

(** X17: after a completed run with a test set, the test parameter carries
    the dataset description the model was trained with: that of the training
    parameter when the run trained, that of the input model when it loaded
    one; the test points themselves are as they were passed. *)
Theorem test_set_gets_model_schema (c c' : CLI) (ev : list Event) :
  "test" ∈ passed c ->
  mlpackMain c = (ev, Done tt c') ->
  (cli_test c').2 = (cli_test c).2 /\
  (("training" ∈ passed c) -> (cli_test c').1 = (cli_training c).1) /\
  (("training" ∉ passed c) ->
   (cli_test c').1 = info (cli_input_model c)).
Proof.
  intros Htest Hrun.
  assert (completes (mlpackMain c) = true) as Hdone
    by (unfold completes; now rewrite Hrun).
  assert (final (mlpackMain c) = c') as Hc'
    by (unfold final; now rewrite Hrun).
  destruct (final_registry c)
    as [(_ & Hstop & _)|(_ & _ & Hfinal & Hsame)]; [congruence|].
  rewrite Hc' in Hfinal. rewrite Hdone in Hsame.
  destruct (work_ends c)
    as [(_ & Hstop & _)
       |(model & Hmodel & [(_ & _ & Hstop & _)|(_ & Hwork)])];
    [congruence|congruence|].
  rewrite Hwork, (bool_decide_true _ Htest) in Hfinal.
  clear Hc' Hrun Hdone. subst c'.
  unfold model_of in Hmodel.
  destruct (decide ("training" ∈ passed c)) as [Htraining|Htraining].
  - rewrite (bool_decide_true _ Htraining) in *.
    destruct (train c) as [ev1 o] eqn:Htrain. cbn [snd] in Hmodel. subst o.
    destruct (train_Done_model _ _ _ _ Htrain) as (r & m & t & _ & _ & _ & ->).
    split; [reflexivity|]. split; [reflexivity|contradiction].
  - rewrite (bool_decide_false _ Htraining) in *.
    injection Hmodel as <-.
    split; [reflexivity|]. split; [contradiction|reflexivity].
Qed.


(** *** [print_training_error] without a training set *)

(** X18: when a model is loaded, [print_training_error] is only warned
    about: the same invocation without it runs the same, ends the same and
    leaves the same registry; the logs differ by that one warning. *)
Theorem flag_without_training_only_warns (c : CLI) :
  "training" ∉ passed c ->
  "input_model" ∈ passed c ->
  "print_training_error" ∈ passed c ->
  exists before after,
    (mlpackMain c).1
    = before
      ++ Warn (MsgIgnored "print_training_error" [("training", false)])
      :: after /\
    (mlpackMain (unpass "print_training_error" c)).1 = before ++ after /\
    (mlpackMain (unpass "print_training_error" c)).2
    = map_outcome (unpass "print_training_error") (mlpackMain c).2.
Proof.
  intros Hload Hmodel Hflag.
  rewrite !mlpackMain_run.
  rewrite !(unpass_other _ "training"), !(unpass_other _ "input_model")
    by discriminate.
  rewrite (one_mode_decide c (or_intror (conj Hload Hmodel))).
  change (hyperparameters_ok (unpass "print_training_error" c))
    with (hyperparameters_ok c).
  change (cli_minimum_leaf_size (unpass "print_training_error" c))
    with (cli_minimum_leaf_size c).
  unfold ignored_warnings, constraints_hold. cbn [forallb fst snd].
  rewrite !count_passed_unpass by not_a_name.
  rewrite !(unpass_other _ "test"), !(unpass_other _ "test_labels"),
    !(unpass_other _ "training"), !(unpass_other _ "predictions")
    by discriminate.
  rewrite unpass_same, (bool_decide_false _ Hload), (bool_decide_true _ Hflag).
  change (bool_decide (false = false)) with true. cbn [andb warning_if].
  set (w1 := warning_if _ (MsgIgnored "test_labels" _)).
  set (w2 := warning_if _ (MsgAtLeastOne _ _)).
  set (w4 := warning_if _ (MsgIgnored "predictions" _)).
  destruct (hyperparameters_ok c).
  - rewrite !work_finish. unfold model_of.
    rewrite !(unpass_other _ "training"), !(unpass_other _ "test")
      by discriminate.
    rewrite (bool_decide_false _ Hload), !bind_GetParam.
    change (cli_input_model (unpass "print_training_error" c))
      with (cli_input_model c).
    rewrite (finish_ignores "print_training_error" _ _
               ltac:(discriminate) c).
    destruct (finish _ _ c) as [ev o].
    exists (w1 ++ w2), (w4 ++ w4 ++ ev).
    unfold prefix, map_run. cbn [fst snd app].
    rewrite <- !app_assoc. cbn [app]. rewrite <- ?app_assoc.
    repeat split; reflexivity.
  - exists (w1 ++ w2), (w4 ++ w4). cbn [fst snd app map_outcome].
    rewrite <- !app_assoc. cbn [app]. rewrite <- ?app_assoc.
    repeat split; reflexivity.
Qed.

End Properties.

(** ** The properties at the example invocations *)

#[local] Existing Instance Stub.moved_from.
#[local] Existing Instance Stub.classifier.

Ltac decide_passed :=
  first [ apply (bool_decide_eq_true_1 _); vm_compute; reflexivity
        | apply (bool_decide_eq_false_1 _); vm_compute; reflexivity ].

Lemma label_resolution_witness :
  ("labels" ∈ passed Runs.gap) /\
  resolve_labels (cli_training Runs.gap).2 Runs.gap
  = ([], Done (Mat 4 [[1; 2; 3; 4]]%float, [0; 0; 5; 5])
           (take_labels Runs.gap)) /\
  ("labels" ∉ passed Runs.fractional) /\
  (exists features last,
     rows (cli_training Runs.fractional).2 = features ++ [last] /\
     (n_rows (Mat 3 features) + 1 = 2)%nat /\
     resolve_labels (cli_training Runs.fractional).2 Runs.fractional
     = ([Info MsgLastDimension],
        Done (Mat 3 features, map conv_to_size_t last) Runs.fractional)) /\
  conv_to_size_t (-1.5) = 0 /\
  (0 <= conv_to_size_t 0.75 /\
   conv_to_size_t 0.75 * 2 ^ 53 <= 6755399441055744
   < (conv_to_size_t 0.75 + 1) * 2 ^ 53).
Proof.
  assert ("labels" ∈ passed Runs.gap) as Hgiven by decide_passed.
  assert ("labels" ∉ passed Runs.fractional) as Habsent by decide_passed.
  destruct (label_resolution Runs.gap) as (Hdirect & _ & Hconv).
  destruct (label_resolution Runs.fractional) as (_ & Hlast & _).
  split; [exact Hgiven|]. split; [exact (proj1 (Hdirect Hgiven))|].
  split; [exact Habsent|]. split; [|split].
  - destruct (Hlast Habsent) as (features & last & Hrows & Hshed & Hres & _).
    + vm_compute. lia.
    + vm_compute. reflexivity.
    + exists features, last. auto.
  - pose proof (Hconv (-1.5)%float) as Hneg.
    change (FloatOps.Prim2SF (-1.5))
      with (SpecFloat.S754_finite true 6755399441055744 (-52)) in Hneg.
    exact Hneg.
  - pose proof (Hconv 0.75%float) as Hpos.
    change (FloatOps.Prim2SF 0.75)
      with (SpecFloat.S754_finite false 6755399441055744 (-53)) in Hpos.
    apply (proj2 Hpos); vm_compute; reflexivity.
Defined.

Lemma class_count_witness :
  exists data datasetInfo weights minLeafSize minimumGainSplit m,
    (CallTrain data datasetInfo [0; 0; 5; 5] 6 weights minLeafSize
       minimumGainSplit ∈ (mlpackMain Runs.gap).1) /\
    arma_max [0; 0; 5; 5] = inr m /\
    6 = (m + 1) mod 2 ^ 64 /\
    (0 <= m < 2 ^ 64 - 1 -> 6 = m + 1).
Proof.
  assert (CallTrain (Mat 4 [[1; 2; 3; 4]]%float)
            {| dimensions := [(numeric, 0)] |} [0; 0; 5; 5] 6 None 20
            0x1.ad7f29abcaf48p-24%float ∈ (mlpackMain Runs.gap).1) as Hin
    by (vm_compute; apply list_elem_of_here).
  destruct (class_count Runs.gap) as [Hcalls _].
  destruct (Hcalls _ _ _ _ _ _ _ Hin) as (m & Hmax & _ & _ & Hmod & Hplus).
  repeat eexists; eauto.
Defined.

(** C1 as stated fails: the entries 0.75 and -1.5 of the last row both
    become the label 0, and 0 is not -1.5 rounded to an integer, whichever
    way it is rounded. *)
Lemma labels_not_rounded : ~ labels_are_rounded_last_row Runs.fractional.
Proof.
  intros Hclaim.
  assert (CallTrain (Mat 3 [[1; 2; 3]]%float) Runs.two_numeric [0; 0; 1] 2
            None 20 0x1.ad7f29abcaf48p-24%float
          ∈ (mlpackMain Runs.fractional).1) as Hin
    by (vm_compute; apply list_elem_of_further, list_elem_of_here).
  assert ("labels" ∉ passed Runs.fractional) as Habsent by decide_passed.
  specialize (Hclaim _ _ _ _ _ _ _ [0.75; -1.5; 1]%float Hin Habsent
                eq_refl).
  inversion Hclaim as [|? ? ? ? _ Hrest]; subst.
  inversion Hrest as [|? ? ? ? Hsecond _]; subst.
  vm_compute in Hsecond. discriminate Hsecond.
Qed.

(** C2 as stated fails: with the label [2^64 - 1] the class count of the
    training call is 0. *)
Lemma class_count_wraps : ~ class_count_is_max_plus_one Runs.largest_label.
Proof.
  intros Hclaim.
  assert (CallTrain (Mat 1 [[1]]%float) {| dimensions := [(numeric, 0)] |}
            [2 ^ 64 - 1] 0 None 20 0x1.ad7f29abcaf48p-24%float
          ∈ (mlpackMain Runs.largest_label).1) as Hin
    by (vm_compute; apply list_elem_of_here).
  destruct (Hclaim _ _ _ _ _ _ _ Hin) as (m & Hmax & Hcount).
  vm_compute in Hmax. injection Hmax as <-. discriminate Hcount.
Qed.

Lemma exactly_one_mode_witness :
  (("training" ∈ passed Runs.both_modes) /\
   ("input_model" ∈ passed Runs.both_modes)) /\
  mlpackMain Runs.both_modes
  = ([], Abort (ConfigurationError
                  (MsgOnlyOne ["training"; "input_model"] 2))
           Runs.both_modes).
Proof.
  assert (("training" ∈ passed Runs.both_modes) /\
          ("input_model" ∈ passed Runs.both_modes)) as Hboth
    by (split; decide_passed).
  split; [exact Hboth|].
  exact (proj1 (exactly_one_mode Runs.both_modes) Hboth).
Defined.

Lemma hyperparameter_validation_witness :
  valid_hyperparameters Runs.gap /\
  check_hyperparameters Runs.gap = ([], Done tt Runs.gap).
Proof.
  assert (valid_hyperparameters Runs.gap) as Hvalid
    by (repeat split; vm_compute; reflexivity).
  split; [exact Hvalid|].
  exact (proj1 (hyperparameter_validation Runs.gap) Hvalid).
Defined.


Lemma serialize_roundtrip_witness :
  exists stream restored,
    serialize (Saving []) Runs.loaded = Some (Saving stream, Runs.loaded) /\
    serialize (Loading stream)
      {| tree := DecisionTree_default; info := Runs.no_info |}
    = Some (Loading [], restored) /\
    forall c, test restored c = test Runs.loaded c.
Proof.
  destruct (serialize_roundtrip Runs.loaded
              {| tree := DecisionTree_default; info := Runs.no_info |})
    as (stream & restored & Hsave & Hload & _ & _ & Htest & _).
  exists stream, restored. auto.
Defined.

Lemma training_report_witness :
  (("training" ∈ passed Runs.last_row) /\
   ("print_training_error" ∈ passed Runs.last_row) /\
   labels_reach Runs.last_row) /\
  (exists shown,
     accuracy_report "training set" (Mat 4 [[1; 2; 3; 4]]%float)
       [1; 1; 1; 1] [0; 0; 1; 1]
     = Info (MsgAccuracy "training set" shown 2 4) /\
     shown = 50%float) /\
  exists before after,
    (mlpackMain Runs.last_row).1
    = before
      ++ [CallClassify (Mat 4 [[1; 2; 3; 4]]%float);
          accuracy_report "training set" (Mat 4 [[1; 2; 3; 4]]%float)
            [1; 1; 1; 1] [0; 0; 1; 1]]
      ++ after /\
    (mlpackMain (unpass "print_training_error" Runs.last_row)).1
    = before ++ after /\
    (mlpackMain (unpass "print_training_error" Runs.last_row)).2
    = map_outcome (unpass "print_training_error")
        (mlpackMain Runs.last_row).2.
Proof.
  assert ("training" ∈ passed Runs.last_row) as Htraining by decide_passed.
  assert ("print_training_error" ∈ passed Runs.last_row) as Hflag
    by decide_passed.
  assert (labels_reach Runs.last_row) as Hreach.
  { split; intros H.
    - assert ("labels" ∉ passed Runs.last_row) by decide_passed.
      contradiction.
    - repeat constructor. }
  split; [auto|].
  destruct (training_report_is_diagnostic Runs.last_row Htraining Hflag Hreach)
    as (_ & Hline & before & report & after & Hloud & Hquiet & Hsame & Hwhat
        & Hdone).
  split.
  - destruct (Hline "training set" (Mat 4 [[1; 2; 3; 4]]%float) [1; 1; 1; 1]
                [0; 0; 1; 1]) as (shown & Hreport & Hvalue);
      [vm_compute; reflexivity|].
    exists shown. split; [exact Hreport|].
    rewrite <- (FloatAxioms.SF2Prim_Prim2SF shown), Hvalue.
    vm_compute. reflexivity.
  - exists before, after. split; [|split; assumption].
    rewrite Hloud. do 2 f_equal.
    destruct Hwhat as [->|(r & m & t & Hres & Hmax & Htrain & ->)].
    + exfalso. apply Hdone; [vm_compute|]; reflexivity.
    + vm_compute in Hres. injection Hres as <-.
      vm_compute in Hmax. injection Hmax as <-.
      vm_compute in Htrain. injection Htrain as <-.
      vm_compute. reflexivity.
Defined.

Lemma last_row_index_witness :
  Z.of_nat (n_rows (Mat 3 [])) < size_t_modulus /\
  size_t_sub (Z.of_nat (n_rows (Mat 3 []))) 1 = 2 ^ 64 - 1 /\
  Mat_row (Mat 3 []) (size_t_sub (Z.of_nat (n_rows (Mat 3 []))) 1)
  = inl (OutOfBounds "Mat::row()" (2 ^ 64 - 1)) /\
  resolve_labels (Mat 3 []) Runs.no_row
  = ([Info MsgLastDimension],
     Abort (OutOfBounds "Mat::row()" (2 ^ 64 - 1)) Runs.no_row).
Proof.
  assert (Z.of_nat (n_rows (Mat 3 [])) < size_t_modulus) as Hfit
    by (vm_compute; reflexivity).
  split; [exact Hfit|].
  destruct (last_row_index (Mat 3 []) Runs.no_row Hfit)
    as (_ & _ & Hnone).
  destruct (Hnone eq_refl) as (Hindex & Hrow & Hres).
  split; [exact Hindex|]. split; [exact Hrow|].
  apply Hres. decide_passed.
Defined.

Lemma label_reads_witness :
  (length [1; 0] < n_cols (Mat 3 [[5; 6; 7]]%float))%nat /\
  ([1; 0] : list Z) !! 2%nat = None /\
  (report_training_error (tree Runs.loaded) (Mat 3 [[5; 6; 7]]%float) [1; 0]
     Runs.gap).2
  = Abort (OutOfBounds "labels" 2) Runs.gap.
Proof.
  assert (length [1; 0] < n_cols (Mat 3 [[5; 6; 7]]%float))%nat as Hshort
    by (vm_compute; lia).
  split; [exact Hshort|].
  destruct (label_reads_in_bounds Runs.loaded (Mat 3 [[5; 6; 7]]%float)
              [1; 0] Runs.gap) as (_ & Hbad & _).
  destruct (Hbad Hshort) as (Hread & _ & Hrun). auto.
Defined.

Lemma probabilities_witness :
  (("probabilities" ∈ passed Runs.no_test) /\ ("test" ∉ passed Runs.no_test))
  /\
  ignored_count "probabilities" (mlpackMain Runs.no_test).1 = 0%nat /\
  cli_probabilities (final (mlpackMain Runs.no_test))
  = cli_probabilities Runs.no_test /\
  ignored_count "predictions" (mlpackMain Runs.no_test).1 = 2%nat.
Proof.
  assert ("probabilities" ∈ passed Runs.no_test) as Hprob by decide_passed.
  assert ("test" ∉ passed Runs.no_test) as Htest by decide_passed.
  split; [auto|].
  destruct (probabilities_never_reported Runs.no_test Hprob Htest)
    as (Hcount & _ & Hframe & _ & Htwice).
  split; [exact Hcount|]. split; [exact Hframe|].
  rewrite Htwice.
  - vm_compute. reflexivity.
  - right. split; decide_passed.
Defined.

(** ** The example invocations, run *)

(** The example of the specification with the one-node tree: the labels come
    from the last row, two classes are counted, and the report compares the
    four predictions with the four labels. *)
Example last_row_events :
  (mlpackMain Runs.last_row).1
  = [Info MsgLastDimension;
     CallTrain (Mat 4 [[1; 2; 3; 4]]%float) Runs.two_numeric [0; 0; 1; 1] 2
       None 1 0x1.ad7f29abcaf48p-24%float;
     CallClassify (Mat 4 [[1; 2; 3; 4]]%float);
     Info (MsgAccuracy "training set" 50 2 4)].
Proof. vm_compute. reflexivity. Qed.

Example last_row_completes :
  exists c,
    (mlpackMain Runs.last_row).2 = Done tt c /\
    cli_output_model c
    = Some {| tree := ({| Stub.classes := 2; Stub.answer := 1 |}
                       : DecisionTree);
              info := Runs.two_numeric |} /\
    cli_predictions c = [] /\ cli_probabilities c = Runs.no_matrix.
Proof. eexists. vm_compute. repeat split; reflexivity. Qed.

(** Labels with a gap: six classes are counted for the labels 0 and 5. *)
Example gap_events :
  (mlpackMain Runs.gap).1
  = [CallTrain (Mat 4 [[1; 2; 3; 4]]%float)
       {| dimensions := [(numeric, 0)] |} [0; 0; 5; 5] 6 None 20
       0x1.ad7f29abcaf48p-24%float;
     CallClassify (Mat 4 [[1; 2; 3; 4]]%float);
     Info (MsgAccuracy "training set" 50 2 4)].
Proof. vm_compute. reflexivity. Qed.

(** A training matrix without rows and no labels: the run stops at the row
    access, the matrix already moved out of its parameter. *)
Example no_row_run :
  mlpackMain Runs.no_row
  = ([Info MsgLastDimension],
     Abort (OutOfBounds "Mat::row()" 18446744073709551615)
       (training_taken Runs.no_row)) /\
  cli_training (training_taken Runs.no_row) = (Runs.no_info, Runs.no_matrix).
Proof. vm_compute. split; reflexivity. Qed.

(** The test pass with the loaded model: two of the three test labels are
    matched, and both outputs are written. *)
Example scored_run :
  exists c,
    mlpackMain Runs.scored
    = ([CallClassify (Mat 3 [[5; 6; 7]]%float);
        Info (MsgAccuracy "test set" (2 / 3 * 100)%float 2 3)], Done tt c) /\
    cli_test c = (info Runs.loaded, Mat 3 [[5; 6; 7]]%float) /\
    cli_predictions c = [1; 1; 1] /\
    cli_probabilities c
    = Mat 3 [[0; 0; 0]; [1; 1; 1]]%float /\
    cli_output_model c = Some Runs.loaded.
Proof. eexists. vm_compute. repeat split; reflexivity. Qed.

(** Both test outputs requested and no test set: the only warnings are the
    two about [predictions]. *)
Example no_test_run :
  mlpackMain Runs.no_test
  = ([Warn (MsgIgnored "predictions" [("test", false)]);
      Warn (MsgIgnored "predictions" [("test", false)])],
     Done tt (set_output_model Runs.loaded Runs.no_test)).
Proof. vm_compute. reflexivity. Qed.

(** Gain splits that the check turns down: 0, 1, a negative zero and a NaN;
    and one it lets through. *)
Example gain_split_values :
  map (fun x => (PrimFloat.ltb 0 x && PrimFloat.ltb x 1)%float)
    [0; 1; (-0); nan; 0x1.ad7f29abcaf48p-24; 0.5; neg_infinity]%float
  = [false; false; false; false; true; true; false].
Proof. vm_compute. reflexivity. Qed.

Example largest_label_events :
  (mlpackMain Runs.largest_label).1
  = [CallTrain (Mat 1 [[1]]%float) {| dimensions := [(numeric, 0)] |}
       [18446744073709551615] 0 None 20 0x1.ad7f29abcaf48p-24%float].
Proof. vm_compute. reflexivity. Qed.

(** ** More invocations, and the further properties at them *)

Module MoreRuns.

#[local] Existing Instance Stub.moved_from.
#[local] Existing Instance Stub.classifier.

(** An invocation with every input given. *)
Definition registry (names : gset string) (training : TupleType)
    (labels : list Z) (tested : TupleType) (weights : mat)
    (test_labels : list Z) (leaf : Z) (gain : float) : CLI :=
  {| passed := names; cli_training := training; cli_labels := labels;
     cli_test := tested; cli_weights := weights;
     cli_test_labels := test_labels; cli_minimum_leaf_size := leaf;
     cli_minimum_gain_split := gain; cli_input_model := Runs.loaded;
     cli_probabilities := Runs.no_matrix; cli_predictions := [];
     cli_output_model := None |}.

Definition one_numeric : DatasetInfo := {| dimensions := [(numeric, 0)] |}.

(** Four points with labels and weights. *)
Definition weighted : CLI :=
  registry {[ "training"; "labels"; "weights"; "output_model" ]}
    (one_numeric, Mat 4 [[1; 2; 3; 4]]%float) [0; 0; 1; 1]
    (Runs.no_info, Runs.no_matrix) (Mat 4 [[1; 1; 2; 2]]%float) [] 20
    0x1.ad7f29abcaf48p-24%float.

(** Four points and two labels: the one-node tree refuses to be built. *)
Definition mismatched : CLI :=
  registry {[ "training"; "labels"; "output_model" ]}
    (one_numeric, Mat 4 [[1; 2; 3; 4]]%float) [0; 1]
    (Runs.no_info, Runs.no_matrix) Runs.no_matrix [] 20
    0x1.ad7f29abcaf48p-24%float.

(** Four points and an empty row of labels. *)
Definition unlabelled : CLI :=
  registry {[ "training"; "labels"; "output_model" ]}
    (one_numeric, Mat 4 [[1; 2; 3; 4]]%float) []
    (Runs.no_info, Runs.no_matrix) Runs.no_matrix [] 20
    0x1.ad7f29abcaf48p-24%float.

(** A leaf size of 0 and a gain split of 2. *)
Definition bad_hyperparameters : CLI :=
  registry {[ "training"; "labels"; "output_model" ]}
    (one_numeric, Mat 4 [[1; 2; 3; 4]]%float) [0; 0; 1; 1]
    (Runs.no_info, Runs.no_matrix) Runs.no_matrix [] 0 2%float.

(** Training and a test set of two points in one run. *)
Definition train_and_test : CLI :=
  registry {[ "training"; "labels"; "test"; "predictions" ]}
    (one_numeric, Mat 4 [[1; 2; 3; 4]]%float) [0; 0; 1; 1]
    ({| dimensions := [(categorical, 3)] |}, Mat 2 [[9; 9]]%float)
    Runs.no_matrix [] 20 0x1.ad7f29abcaf48p-24%float.

(** A loaded model and [print_training_error]. *)
Definition loaded_with_flag : CLI :=
  registry {[ "input_model"; "print_training_error"; "output_model" ]}
    (Runs.no_info, Runs.no_matrix) [] (Runs.no_info, Runs.no_matrix)
    Runs.no_matrix [] 20 0x1.ad7f29abcaf48p-24%float.

End MoreRuns.

Lemma training_call_arguments_witness :
  cli_minimum_leaf_size MoreRuns.weighted < size_t_modulus /\
  ("weights" ∈ passed MoreRuns.weighted) /\
  exists data labels numClasses weights,
    (CallTrain data MoreRuns.one_numeric labels numClasses weights 20
       0x1.ad7f29abcaf48p-24%float ∈ (mlpackMain MoreRuns.weighted).1) /\
    weights = Some (Mat 4 [[1; 1; 2; 2]]%float).
Proof.
  assert (cli_minimum_leaf_size MoreRuns.weighted < size_t_modulus) as Hint
    by (vm_compute; reflexivity).
  assert ("weights" ∈ passed MoreRuns.weighted) as Hw by decide_passed.
  assert (CallTrain (Mat 4 [[1; 2; 3; 4]]%float) MoreRuns.one_numeric
            [0; 0; 1; 1] 2 (Some (Mat 4 [[1; 1; 2; 2]]%float)) 20
            0x1.ad7f29abcaf48p-24%float
          ∈ (mlpackMain MoreRuns.weighted).1) as Hin
    by (vm_compute; apply list_elem_of_here).
  split; [exact Hint|]. split; [exact Hw|].
  destruct (training_call_arguments MoreRuns.weighted Hint _ _ _ _ _ _ _ Hin)
    as (_ & Hweights & _).
  exists (Mat 4 [[1; 2; 3; 4]]%float), [0; 0; 1; 1], 2,
    (Some (Mat 4 [[1; 1; 2; 2]]%float)).
  split; [exact Hin|exact (Hweights Hw)].
Defined.

Lemma training_calls_count_witness :
  ("training" ∈ passed Runs.last_row) /\
  completes (mlpackMain Runs.last_row) = true /\
  train_calls (mlpackMain Runs.last_row).1 = 1%nat /\
  ("training" ∉ passed Runs.scored) /\
  train_calls (mlpackMain Runs.scored).1 = 0%nat.
Proof.
  assert ("training" ∈ passed Runs.last_row) as Hyes by decide_passed.
  assert (completes (mlpackMain Runs.last_row) = true) as Hdone
    by (vm_compute; reflexivity).
  assert ("training" ∉ passed Runs.scored) as Hno by decide_passed.
  destruct (training_calls_count Runs.last_row) as (_ & _ & Hone).
  destruct (training_calls_count Runs.scored) as (_ & Hnone & _).
  auto 10.
Defined.

Lemma labels_below_class_count_witness :
  Forall (fun l => 0 <= l < 2 ^ 64 - 1) [0; 0; 5; 5] /\
  0 < 6 /\ Forall (fun l => 0 <= l <= 6 - 1) [0; 0; 5; 5].
Proof.
  assert (Forall (fun l => 0 <= l < 2 ^ 64 - 1) [0; 0; 5; 5]) as Hrange
    by (repeat constructor; lia).
  assert (CallTrain (Mat 4 [[1; 2; 3; 4]]%float)
            {| dimensions := [(numeric, 0)] |} [0; 0; 5; 5] 6 None 20
            0x1.ad7f29abcaf48p-24%float ∈ (mlpackMain Runs.gap).1) as Hin
    by (vm_compute; apply list_elem_of_here).
  split; [exact Hrange|].
  exact (labels_below_class_count Runs.gap _ _ _ _ _ _ _ Hin Hrange).
Defined.

Lemma loaded_model_witness :
  (("training" ∉ passed Runs.scored) /\ ("input_model" ∈ passed Runs.scored)
   /\ valid_hyperparameters Runs.scored) /\
  exists ev c',
    mlpackMain Runs.scored = (ev, Done tt c') /\
    cli_output_model (final (mlpackMain Runs.scored)) = Some Runs.loaded.
Proof.
  assert ("training" ∉ passed Runs.scored) as Hload by decide_passed.
  assert ("input_model" ∈ passed Runs.scored) as Hmodel by decide_passed.
  assert (valid_hyperparameters Runs.scored) as Hvalid
    by (repeat split; vm_compute; reflexivity).
  split; [auto|].
  destruct (loaded_model_passes_through Runs.scored Hload Hmodel Hvalid)
    as (ev & Hrun & Hout & _).
  - intros _ _. vm_compute. lia.
  - eauto.
Defined.

Lemma trained_model_witness :
  ("training" ∈ passed Runs.last_row) /\
  exists ev c' t,
    mlpackMain Runs.last_row = (ev, Done tt c') /\
    cli_output_model c'
    = Some {| tree := t; info := (cli_training Runs.last_row).1 |}.
Proof.
  assert ("training" ∈ passed Runs.last_row) as Htraining by decide_passed.
  split; [exact Htraining|].
  destruct (mlpackMain Runs.last_row) as [ev [[] c'|e c']] eqn:Hrun;
    [|vm_compute in Hrun; discriminate].
  destruct (trained_model_is_output Runs.last_row c' ev Htraining Hrun)
    as (r & m & t & _ & _ & _ & Hout).
  eauto.
Defined.

Lemma constructor_failure_witness :
  (one_mode MoreRuns.mismatched /\
   ("training" ∈ passed MoreRuns.mismatched) /\
   valid_hyperparameters MoreRuns.mismatched) /\
  (mlpackMain MoreRuns.mismatched).2
  = Abort ClassifierError (trained MoreRuns.mismatched) /\
  cli_output_model (trained MoreRuns.mismatched) = None /\
  cli_training (trained MoreRuns.mismatched)
  = (Runs.no_info, Runs.no_matrix) /\
  cli_labels (trained MoreRuns.mismatched) = [].
Proof.
  assert ("training" ∈ passed MoreRuns.mismatched) as Htraining
    by decide_passed.
  assert (one_mode MoreRuns.mismatched) as Hmode
    by (left; split; decide_passed).
  assert (valid_hyperparameters MoreRuns.mismatched) as Hvalid
    by (repeat split; vm_compute; reflexivity).
  split; [auto|].
  destruct (constructor_failure_ends_run MoreRuns.mismatched
              (Mat 4 [[1; 2; 3; 4]]%float, [0; 1]) 1 Hmode Htraining Hvalid)
    as [Hrun _]; [vm_compute; reflexivity..|].
  rewrite Hrun. split; [reflexivity|]. vm_compute. auto.
Defined.

Lemma empty_labels_witness :
  (one_mode MoreRuns.unlabelled /\
   ("training" ∈ passed MoreRuns.unlabelled) /\
   valid_hyperparameters MoreRuns.unlabelled) /\
  (mlpackMain MoreRuns.unlabelled).2
  = Abort (NoElements "max()") (resolved MoreRuns.unlabelled) /\
  cli_training (resolved MoreRuns.unlabelled)
  = (Runs.no_info, Runs.no_matrix).
Proof.
  assert ("training" ∈ passed MoreRuns.unlabelled) as Htraining
    by decide_passed.
  assert (one_mode MoreRuns.unlabelled) as Hmode
    by (left; split; decide_passed).
  assert (valid_hyperparameters MoreRuns.unlabelled) as Hvalid
    by (repeat split; vm_compute; reflexivity).
  split; [auto|].
  destruct (empty_labels_end_run MoreRuns.unlabelled
              (Mat 4 [[1; 2; 3; 4]]%float, []) Hmode Htraining Hvalid)
    as [Hrun _]; [vm_compute; reflexivity|reflexivity|].
  rewrite Hrun. split; [reflexivity|]. vm_compute. reflexivity.
Defined.

Lemma accuracy_count_witness :
  exists correct,
    accuracy_loop [1; 1; 1] [1; 0; 1] 3 0 0 = inr correct /\
    0 <= correct <= 3 /\ correct <> 3.
Proof.
  destruct (accuracy_count_bounds [1; 1; 1] [1; 0; 1] 3)
    as (correct & Hloop & Hbounds & Hall);
    [simpl; lia|simpl; lia|vm_compute; reflexivity|].
  exists correct. split; [exact Hloop|]. split; [exact Hbounds|].
  intros Hfull. apply Hall in Hfull. discriminate Hfull.
Defined.

Lemma surplus_labels_witness :
  (n_cols (Mat 3 [[5; 6; 7]]%float) <= length [1; 0; 1])%nat /\
  accuracy_loop [1; 1; 1] ([1; 0; 1] ++ [7; 7]) 3 0 0
  = accuracy_loop [1; 1; 1] [1; 0; 1] 3 0 0.
Proof.
  assert (n_cols (Mat 3 [[5; 6; 7]]%float) <= length [1; 0; 1])%nat as Hl
    by (simpl; lia).
  split; [exact Hl|].
  exact (proj1 (surplus_labels_are_not_read "test set"
                  (Mat 3 [[5; 6; 7]]%float) [1; 1; 1] [1; 0; 1] [7; 7]
                  Runs.gap Hl)).
Defined.

Lemma no_classification_witness :
  (("test" ∉ passed Runs.no_test) /\ ("training" ∉ passed Runs.no_test)) /\
  classify_calls (mlpackMain Runs.no_test).1 = 0%nat.
Proof.
  assert ("test" ∉ passed Runs.no_test) as Htest by decide_passed.
  assert ("training" ∉ passed Runs.no_test) as Hload by decide_passed.
  split; [auto|].
  exact (no_classification_unless_asked Runs.no_test Htest (or_intror Hload)).
Defined.

Lemma hyperparameter_errors_witness :
  (one_mode MoreRuns.bad_hyperparameters /\
   cli_minimum_leaf_size MoreRuns.bad_hyperparameters <= 0) /\
  mlpackMain MoreRuns.bad_hyperparameters
  = (ignored_warnings MoreRuns.bad_hyperparameters,
     Abort (ConfigurationError
              (MsgParamValue "minimum_leaf_size"
                 "leaf size must be positive"))
       MoreRuns.bad_hyperparameters).
Proof.
  assert (one_mode MoreRuns.bad_hyperparameters) as Hmode
    by (left; split; decide_passed).
  assert (cli_minimum_leaf_size MoreRuns.bad_hyperparameters <= 0) as Hleaf
    by (vm_compute; discriminate).
  split; [auto|].
  exact (proj1 (hyperparameter_errors_in_order MoreRuns.bad_hyperparameters
                  Hmode) Hleaf).
Defined.

Lemma test_schema_witness :
  (("test" ∈ passed MoreRuns.train_and_test) /\
   ("training" ∈ passed MoreRuns.train_and_test)) /\
  exists ev c',
    mlpackMain MoreRuns.train_and_test = (ev, Done tt c') /\
    cli_test c' = (MoreRuns.one_numeric, Mat 2 [[9; 9]]%float).
Proof.
  assert ("test" ∈ passed MoreRuns.train_and_test) as Htest by decide_passed.
  assert ("training" ∈ passed MoreRuns.train_and_test) as Htraining
    by decide_passed.
  split; [auto|].
  destruct (mlpackMain MoreRuns.train_and_test) as [ev [[] c'|e c']] eqn:Hrun;
    [|vm_compute in Hrun; discriminate].
  destruct (test_set_gets_model_schema MoreRuns.train_and_test c' ev Htest
              Hrun) as (Hpoints & Hinfo & _).
  exists ev, c'. split; [reflexivity|].
  destruct (cli_test c') as [i m]. cbn [fst snd] in *.
  now rewrite Hpoints, (Hinfo Htraining).
Defined.

Lemma flag_without_training_witness :
  (("training" ∉ passed MoreRuns.loaded_with_flag) /\
   ("input_model" ∈ passed MoreRuns.loaded_with_flag) /\
   ("print_training_error" ∈ passed MoreRuns.loaded_with_flag)) /\
  exists before after,
    (mlpackMain MoreRuns.loaded_with_flag).1
    = before
      ++ Warn (MsgIgnored "print_training_error" [("training", false)])
      :: after /\
    (mlpackMain (unpass "print_training_error" MoreRuns.loaded_with_flag)).1
    = before ++ after.
Proof.
  assert ("training" ∉ passed MoreRuns.loaded_with_flag) as Hload
    by decide_passed.
  assert ("input_model" ∈ passed MoreRuns.loaded_with_flag) as Hmodel
    by decide_passed.
  assert ("print_training_error" ∈ passed MoreRuns.loaded_with_flag) as Hflag
    by decide_passed.
  split; [auto|].
  destruct (flag_without_training_only_warns MoreRuns.loaded_with_flag
              Hload Hmodel Hflag) as (before & after & Hloud & Hquiet & _).
  eauto.
Defined.

(** ** The further invocations, run *)

Example weighted_events :
  (mlpackMain MoreRuns.weighted).1
  = [CallTrain (Mat 4 [[1; 2; 3; 4]]%float) MoreRuns.one_numeric
       [0; 0; 1; 1] 2 (Some (Mat 4 [[1; 1; 2; 2]]%float)) 20
       0x1.ad7f29abcaf48p-24%float].
Proof. vm_compute. reflexivity. Qed.

Example mismatched_run :
  mlpackMain MoreRuns.mismatched
  = ([CallTrain (Mat 4 [[1; 2; 3; 4]]%float) MoreRuns.one_numeric [0; 1] 2
        None 20 0x1.ad7f29abcaf48p-24%float],
     Abort ClassifierError (trained MoreRuns.mismatched)).
Proof. vm_compute. reflexivity. Qed.

Example train_and_test_events :
  (mlpackMain MoreRuns.train_and_test).1
  = [CallTrain (Mat 4 [[1; 2; 3; 4]]%float) MoreRuns.one_numeric
       [0; 0; 1; 1] 2 None 20 0x1.ad7f29abcaf48p-24%float;
     CallClassify (Mat 2 [[9; 9]]%float)].
Proof. vm_compute. reflexivity. Qed.

Lemma failed_run_witness :
  (mlpackMain MoreRuns.mismatched).2
  = Abort ClassifierError (trained MoreRuns.mismatched) /\
  outputs MoreRuns.mismatched = (Runs.no_matrix, [], None) /\
  outputs (trained MoreRuns.mismatched) = (Runs.no_matrix, [], None).
Proof.
  assert ((mlpackMain MoreRuns.mismatched).2
          = Abort ClassifierError (trained MoreRuns.mismatched)) as Hrun
    by (vm_compute; reflexivity).
  split; [exact Hrun|]. split; [reflexivity|].
  destruct (failed_run_writes_no_output MoreRuns.mismatched) as [Hfail _].
  destruct (Hfail _ _ Hrun) as [Hout _]. exact Hout.
Defined.

(** The run with weights has moved out of [training], [labels] and
    [weights]; the run that scores a test set has moved out of
    [test_labels] and of nothing else. *)
Lemma moves_witness :
  (one_mode MoreRuns.weighted /\ valid_hyperparameters MoreRuns.weighted /\
   ("training" ∈ passed MoreRuns.weighted) /\
   ("labels" ∈ passed MoreRuns.weighted)) /\
  cli_training (final (mlpackMain MoreRuns.weighted))
  = (Runs.no_info, Runs.no_matrix) /\
  cli_labels (final (mlpackMain MoreRuns.weighted)) = [] /\
  cli_weights (final (mlpackMain MoreRuns.weighted)) = Runs.no_matrix /\
  cli_test_labels (final (mlpackMain Runs.scored)) = [] /\
  cli_training (final (mlpackMain Runs.scored)) = cli_training Runs.scored.
Proof.
  assert (one_mode MoreRuns.weighted) as Hmode
    by (left; split; decide_passed).
  assert (valid_hyperparameters MoreRuns.weighted) as Hvalid
    by (repeat split; vm_compute; reflexivity).
  assert ("training" ∈ passed MoreRuns.weighted) as Htraining
    by decide_passed.
  assert ("labels" ∈ passed MoreRuns.weighted) as Hlabels by decide_passed.
  assert ("weights" ∈ passed MoreRuns.weighted) as Hweights
    by decide_passed.
  split; [auto|].
  destruct (inputs_change_by_moves_only MoreRuns.weighted)
    as (_ & _ & _ & _ & _ & _ & _ & _ & _ & Hmoved & Hdone & _).
  destruct (Hmoved Hmode Hvalid Htraining) as [Hset Hrow].
  destruct Hdone as [Hw _]; [vm_compute; reflexivity|].
  destruct (inputs_change_by_moves_only Runs.scored)
    as (_ & _ & _ & _ & _ & Hkept & _ & _ & _ & _ & Hdone & _).
  destruct Hdone as [_ Hscored]; [vm_compute; reflexivity|].
  split; [exact Hset|]. split; [exact (Hrow Hlabels)|].
  split; [exact (Hw Htraining Hweights)|].
  split; [apply Hscored; decide_passed|].
  apply Hkept. left. decide_passed.
Defined.

Lemma notice_witness :
  (one_mode Runs.last_row /\ valid_hyperparameters Runs.last_row /\
   ("training" ∈ passed Runs.last_row) /\ ("labels" ∉ passed Runs.last_row))
  /\ (Info MsgLastDimension ∈ (mlpackMain Runs.last_row).1).
Proof.
  assert (one_mode Runs.last_row /\ valid_hyperparameters Runs.last_row /\
          ("training" ∈ passed Runs.last_row) /\
          ("labels" ∉ passed Runs.last_row)) as Hall.
  { split; [left; split; decide_passed|].
    split; [repeat split; vm_compute; reflexivity|].
    split; decide_passed. }
  split; [exact Hall|].
  exact (proj2 (notice_exactly_when_labels_inferred Runs.last_row) Hall).
Defined.

Lemma run_completes_witness :
  completes (mlpackMain Runs.scored) = true /\
  one_mode Runs.scored /\ valid_hyperparameters Runs.scored /\
  (n_cols (cli_test Runs.scored).2
   <= length (cli_test_labels Runs.scored))%nat.
Proof.
  assert (completes (mlpackMain Runs.scored) = true) as Hdone
    by (vm_compute; reflexivity).
  split; [exact Hdone|].
  destruct (proj1 (run_completes_exactly_when Runs.scored) Hdone)
    as (Hmode & Hvalid & _ & Hreach).
  split; [exact Hmode|]. split; [exact Hvalid|].
  apply Hreach; decide_passed.
Defined.
